(** * example_classification.py: batch classification with a pre-trained network

    A shallow embedding of [classification_queue_input] and
    [classification_placeholder_input] together with the numpy operations
    they are written with: the Inception pixel transform in IEEE binary32,
    [np.squeeze], [np.argmax] along axis 1, indexing of arrays and lists,
    and the label shift between the 1000- and the 1001-class label spaces. *)

From Stdlib Require Import String ZArith Bool Lia List.
From Stdlib Require Import Floats.SpecFloat.
Import ListNotations.

Set Implicit Arguments.

(* ================================================================= *)
(** ** Python exceptions and results *)

(** The exceptions the two functions can raise by themselves. *)
Inductive exn : Type :=
| IndexError   (* list or array index out of range *)
| AxisError    (* numpy: axis out of bounds for the array's dimension *)
| ValueError.  (* numpy: arg-max of an empty sequence, negative dimension,
                  shapes that do not fit *)

Inductive result (A : Type) : Type :=
| Ok (a : A)
| Err (e : exn).
Arguments Ok {A} a.
Arguments Err {A} e.

Definition result_bind {A B} (r : result A) (k : A -> result B) : result B :=
  match r with
  | Ok a => k a
  | Err e => Err e
  end.

(** [image_files[i]] on a Python list, for an index produced by [range]. *)
Definition list_getitem {A} (l : list A) (i : nat) : result A :=
  match nth_error l i with
  | Some x => Ok x
  | None => Err IndexError
  end.

(** [range(n)] for a Python int: empty when [n <= 0]. *)
Definition range (n : Z) : list nat := seq 0 (Z.to_nat n).

(* ================================================================= *)
(** ** IEEE 754 arithmetic: binary64 and binary32 *)

Definition float : Type := spec_float.

Module F.

Definition is_nan (x : float) : bool :=
  match x with S754_nan => true | _ => false end.

(** binary64, the type of a Python float and of [uint8_array / 255.0]. *)
Definition prec64 : Z := 53.
Definition emax64 : Z := 1024.
(** binary32, [np.float32]. *)
Definition prec32 : Z := 24.
Definition emax32 : Z := 128.

Definition f64_of_Z (n : Z) : float := binary_normalize prec64 emax64 n 0 false.
Definition f64_div : float -> float -> float := SFdiv prec64 emax64.

(** Rounding of a binary64 value to binary32 (to nearest, ties to even). *)
Definition f32_of_f64 (x : float) : float :=
  match x with
  | S754_finite s m e => binary_round prec32 emax32 s m e
  | _ => x
  end.

Definition f32_add : float -> float -> float := SFadd prec32 emax32.
Definition f32_sub : float -> float -> float := SFsub prec32 emax32.
Definition f32_mul : float -> float -> float := SFmul prec32 emax32.
Definition f32_div : float -> float -> float := SFdiv prec32 emax32.

(** The Python float literals of the source; each is exact in binary32. *)
Definition py_255_0 : float := f64_of_Z 255.
Definition py_0_5 : float := binary_normalize prec64 emax64 1 (-1) false.
Definition py_2_0 : float := f64_of_Z 2.
Definition py_1_0 : float := f64_of_Z 1.

Definition zero32 : float := S754_zero false.

(** Truncation toward zero of a finite value. *)
Definition trunc (x : float) : Z :=
  match x with
  | S754_finite s m e =>
      let a := match e with
               | Z0 => Zpos m
               | Zpos _ => Z.shiftl (Zpos m) e
               | Zneg p => Z.shiftr (Zpos m) (Zpos p)
               end in
      if s then Z.opp a else a
  | _ => 0%Z
  end.

(** The C cast behind [astype(np.uint8)]: truncation toward zero, taken
    modulo 2^8.  (Outside the range of the integer type the C cast is
    platform dependent; no run of the pipeline gets there.) *)
Definition to_uint8 (x : float) : Z := Z.modulo (trunc x) 256.

(** [x <= y] as the C comparison: false as soon as one side is NaN. *)
Definition leb (x y : float) : bool := SFleb x y.

(** The order of [np.sort], [np.max] and [np.argmax]: the usual order on
    numbers, with NaN above everything.  ([SFleb] compares exponents
    before mantissas, which is the order of the values on the floats of
    one format.) *)
Definition np_leb (x y : float) : bool :=
  is_nan y || (negb (is_nan x) && SFleb x y).

End F.

(* ================================================================= *)
(** ** numpy arrays *)

(** An array is its shape and its items in row-major (C) order. *)
Record ndarray (A : Type) : Type := mk_ndarray {
  shape : list nat;
  data : list A
}.

Definition size_of (sh : list nat) : nat := fold_right Nat.mul 1 sh.

Definition wf_ndarray {A} (a : ndarray A) : Prop :=
  length (data a) = size_of (shape a).

Definition nd_map {A B} (f : A -> B) (a : ndarray A) : ndarray B :=
  mk_ndarray (shape a) (map f (data a)).

(** A 0-dimensional array, which is how a numpy scalar behaves. *)
Definition nd_scalar {A} (x : A) : ndarray A := mk_ndarray [] [x].

(** A 1-dimensional array. *)
Definition nd_vector {A} (l : list A) : ndarray A := mk_ndarray [length l] l.

(** [np.zeros(dims, dtype=np.float32)]. *)
Definition np_zeros (dims : list Z) : result (ndarray float) :=
  if forallb (fun d => Z.leb 0 d) dims
  then let sh := map Z.to_nat dims in
       Ok (mk_ndarray sh (repeat F.zero32 (size_of sh)))
  else Err ValueError.

(** [np.squeeze(a)]: every axis of length one is removed. *)
Definition np_squeeze {A} (a : ndarray A) : ndarray A :=
  mk_ndarray (filter (fun d => negb (Nat.eqb d 1)) (shape a)) (data a).

(** [a[i]] for [i] produced by [range]: the [i]-th slice along the first
    axis. *)
Definition getitem {A} (a : ndarray A) (i : nat) : result (ndarray A) :=
  match shape a with
  | [] => Err IndexError
  | d0 :: rest =>
      if Nat.ltb i d0
      then let n := size_of rest in
           Ok (mk_ndarray rest (firstn n (skipn (i * n) (data a))))
      else Err IndexError
  end.

(** Broadcasting of the value of an assignment to the shape of its
    target.  Leading axes of length one are dropped while the value has
    more axes than the target; the remaining axes are aligned from the
    right, and each must have the target's length or length one. *)
Fixpoint strip_unit_axes (sh : list nat) (ndim : nat) : list nat :=
  match sh with
  | d :: sh' =>
      if Nat.eqb d 1 && Nat.ltb ndim (length sh)
      then strip_unit_axes sh' ndim
      else sh
  | [] => []
  end.

Fixpoint broadcastable (src dst : list nat) : bool :=
  match src, dst with
  | [], [] => true
  | ds :: src', dt :: dst' =>
      (Nat.eqb ds dt || Nat.eqb ds 1) && broadcastable src' dst'
  | _, _ => false
  end.

(** The first [k] blocks of [size] items of a list. *)
Fixpoint chunks {A} (k size : nat) (d : list A) : list (list A) :=
  match k with
  | 0 => []
  | S k' => firstn size d :: chunks k' size (skipn size d)
  end.

(** The items of the broadcast value, in row-major order: along an axis of
    the target's length the blocks are broadcast one by one, along an axis
    of length one the one block is repeated. *)
Fixpoint broadcast_data {A} (src dst : list nat) (d : list A) : list A :=
  match src, dst with
  | ds :: src', dt :: dst' =>
      if Nat.eqb ds dt
      then flat_map (broadcast_data src' dst') (chunks ds (size_of src') d)
      else concat (repeat (broadcast_data src' dst' d) dt)
  | _, _ => d
  end.

Definition np_broadcast_to {A} (v : ndarray A) (dst : list nat)
  : result (list A) :=
  let src := strip_unit_axes (shape v) (length dst) in
  if Nat.ltb (length dst) (length src) then Err ValueError
  else
    let src := repeat 1 (length dst - length src) ++ src in
    if broadcastable src dst then Ok (broadcast_data src dst (data v))
    else Err ValueError.

(** [a[i] = v], in place: [v] is broadcast to the shape of the slice, and
    numpy raises [ValueError] when it cannot be. *)
Definition setitem {A} (a : ndarray A) (i : nat) (v : ndarray A)
  : result (ndarray A) :=
  match shape a with
  | [] => Err IndexError
  | d0 :: rest =>
      if Nat.ltb i d0
      then match np_broadcast_to v rest with
           | Ok items =>
               let n := size_of rest in
               Ok (mk_ndarray (shape a)
                     (firstn (i * n) (data a) ++ items
                        ++ skipn (i * n + n) (data a)))
           | Err e => Err e
           end
      else Err IndexError
  end.

(** The arg-max of a non-empty sequence, as numpy scans it: the running
    maximum is replaced when the next item is not [<=] it, and a NaN ends
    the scan. *)
Fixpoint argmax_scan (mp : float) (max_ind i : nat) (l : list float) : nat :=
  match l with
  | [] => max_ind
  | x :: l' =>
      if F.is_nan mp then max_ind
      else if negb (F.leb x mp) then argmax_scan x i (S i) l'
      else argmax_scan mp max_ind (S i) l'
  end.

Definition argmax (l : list float) : nat :=
  match l with
  | [] => 0
  | x :: l' => argmax_scan x 0 1 l'
  end.

(** The items [a[i, 0, r], a[i, 1, r], ...] of an array of shape
    [d0 :: d1 :: rest], where [r] counts the positions of [rest] and
    [inner = size_of rest]. *)
Definition lane (a : ndarray float) (d1 inner i r : nat) : list float :=
  map (fun j => nth ((i * d1 + j) * inner + r) (data a) S754_nan) (seq 0 d1).

(** [np.argmax(a, axis=1)]. *)
Definition np_argmax_axis1 (a : ndarray float) : result (ndarray Z) :=
  match shape a with
  | d0 :: d1 :: rest =>
      if Nat.eqb d1 0 then Err ValueError
      else
        let inner := size_of rest in
        Ok (mk_ndarray (d0 :: rest)
              (flat_map
                 (fun i => map (fun r => Z.of_nat (argmax (lane a d1 inner i r)))
                             (seq 0 inner))
                 (seq 0 d0)))
  | _ => Err AxisError
  end.

(** Item [(i, j)] of a 2-dimensional array with [ncols] columns. *)
Definition get2 (a : ndarray float) (ncols i j : nat) : float :=
  nth (i * ncols + j) (data a) S754_nan.

(* ================================================================= *)
(** ** The pixel transforms *)

(** [image / 255.0] on a [uint8] array: true division, carried out in
    binary64. *)
Definition true_divide (image : ndarray Z) (c : float) : ndarray float :=
  nd_map (fun v => F.f64_div (F.f64_of_Z v) c) image.

Definition astype_float32 (a : ndarray float) : ndarray float :=
  nd_map F.f32_of_f64 a.

(** Arithmetic of a [float32] array with a Python float: the scalar is
    taken to binary32 and the result stays [float32]. *)
Definition sub32 (a : ndarray float) (c : float) : ndarray float :=
  nd_map (fun x => F.f32_sub x (F.f32_of_f64 c)) a.
Definition mul32 (a : ndarray float) (c : float) : ndarray float :=
  nd_map (fun x => F.f32_mul x (F.f32_of_f64 c)) a.
Definition div32 (a : ndarray float) (c : float) : ndarray float :=
  nd_map (fun x => F.f32_div x (F.f32_of_f64 c)) a.
Definition add32 (a : ndarray float) (c : float) : ndarray float :=
  nd_map (fun x => F.f32_add x (F.f32_of_f64 c)) a.

Definition astype_uint8 (a : ndarray float) : ndarray Z :=
  nd_map F.to_uint8 a.

(** Lines 91 to 93: [image = (image/255.0).astype(dtype=np.float32)],
    [image -= 0.5], [image *= 2.0]. *)
Definition normalize (image : ndarray Z) : ndarray float :=
  let image := astype_float32 (true_divide image F.py_255_0) in
  let image := sub32 image F.py_0_5 in
  let image := mul32 image F.py_2_0 in
  image.

(** Line 106: [(((batch_images[i]/2.0)+0.5)*255.0).astype(np.uint8)]. *)
Definition denormalize (x : ndarray float) : ndarray Z :=
  astype_uint8 (mul32 (add32 (div32 x F.py_2_0) F.py_0_5) F.py_255_0).

(** The two transforms on one sample. *)
Definition normalize_sample (raw : Z) : float :=
  F.f32_mul
    (F.f32_sub (F.f32_of_f64 (F.f64_div (F.f64_of_Z raw) F.py_255_0))
       (F.f32_of_f64 F.py_0_5))
    (F.f32_of_f64 F.py_2_0).

Definition denormalize_sample (x : float) : Z :=
  F.to_uint8
    (F.f32_mul
       (F.f32_add (F.f32_div x (F.f32_of_f64 F.py_2_0)) (F.f32_of_f64 F.py_0_5))
       (F.f32_of_f64 F.py_255_0)).

(** A sample of a [uint8] array. *)
Definition is_uint8 (v : Z) : Prop := (0 <= v <= 255)%Z.

(** [-1.0 <= x <= 1.0]. *)
Definition in_unit_range (x : float) : bool :=
  F.leb (SFopp (F.f32_of_f64 F.py_1_0)) x && F.leb x (F.f32_of_f64 F.py_1_0).

(** Two intensities at most one unit apart. *)
Definition within_one (a b : Z) : Prop := (Z.abs (a - b) <= 1)%Z.

(** The 256 values of a [uint8] sample. *)
Definition all_uint8 : list Z := map Z.of_nat (seq 0 256).

(* ================================================================= *)
(** ** Prediction decoding *)

(** Line 52 after line 51:
    [predictions = np.argmax(np.squeeze(outputs[0]), axis=1)]. *)
Definition predictions_of (output0 : ndarray float) : result (ndarray Z) :=
  np_argmax_axis1 (np_squeeze output0).

(** Lines 56 and 107:
    [predictions[i] if num_classes == 1001 else predictions[i]+1]. *)
Definition class_index (predictions : ndarray Z) (i : nat) (num_classes : Z)
  : result (ndarray Z) :=
  if Z.eqb num_classes 1001
  then getitem predictions i
  else result_bind (getitem predictions i)
         (fun p => Ok (nd_map (fun v => (v + 1)%Z) p)).

(* ================================================================= *)
(** ** The collaborators *)

(** Modelled from the spec: the reply of [feed_forward_batch], whose module
    [feature_extractor] is not among the sources.  It holds one array per
    requested layer, in the order of [layer_names], so that [outputs[0]] is
    the array of the first one, and, with [fetch_images=True], the raw
    images the extractor consumed. *)
Record fetched : Type := mk_fetched {
  layers : list (ndarray float);
  images : option (ndarray Z)
}.

(** [utils], [scipy.misc] and the [FeatureExtractor] object, whose state is
    of type [BS].  The files do not change during a run, so that [imread]
    is a function of the path, and the extractor does not write to the
    batch it is given. *)
Record collaborators (BS : Type) : Type := mk_collaborators {
  find_files : string -> list string -> list string;
  imread : string -> ndarray Z;
  imresize : ndarray Z -> nat * nat -> ndarray Z;
  image_size : nat;
  enqueue_image_files : list string -> BS -> BS;
  feed_forward_batch :
    list string -> option (ndarray float) -> bool -> BS -> fetched * BS
}.

(** What a run does to the outside, in order. *)
Inductive event : Type :=
| FindFiles (image_path : string) (extensions : list string)
| Imread (file : string)
| EnqueueImageFiles (image_files : list string)
| FeedForwardBatch (layer_names : list string)
    (batch : option (ndarray float)) (fetch_images : bool)
| DisplayImagenetPrediction (image : ndarray Z) (class_index : ndarray Z).

Record world (BS : Type) : Type := mk_world {
  extractor : BS;
  trace : list event
}.

(** Computations that act on the world and may raise: the world an
    exception leaves behind is kept. *)
Definition M (BS A : Type) : Type := world BS -> result A * world BS.

Definition ret {BS A} (a : A) : M BS A := fun w => (Ok a, w).

Definition bind {BS A B} (m : M BS A) (k : A -> M BS B) : M BS B :=
  fun w =>
    match m w with
    | (Ok a, w') => k a w'
    | (Err e, w') => (Err e, w')
    end.

Definition lift {BS A} (r : result A) : M BS A := fun w => (r, w).

Definition emit {BS} (ev : event) : M BS unit :=
  fun w => (Ok tt, mk_world (extractor w) (trace w ++ [ev])).

Declare Scope py_scope.
Delimit Scope py_scope with py.
Notation "x <- m ;; k" := (bind m (fun x => k))
  (at level 61, m at next level, right associativity) : py_scope.
Notation "m ;;; k" := (bind m (fun _ => k))
  (at level 61, right associativity) : py_scope.

(** [for x in l: body(x)]. *)
Fixpoint for_each {BS A} (l : list A) (body : A -> M BS unit) : M BS unit :=
  match l with
  | [] => ret tt
  | x :: l' => bind (body x) (fun _ => for_each l' body)
  end.

(** A [for] loop that updates one variable. *)
Fixpoint for_fold {BS A S} (l : list A) (s : S) (body : A -> S -> M BS S)
  : M BS S :=
  match l with
  | [] => ret s
  | x :: l' => bind (body x s) (fun s' => for_fold l' s' body)
  end.

(** The displays of a trace, in order. *)
Fixpoint displays (t : list event) : list (ndarray Z * ndarray Z) :=
  match t with
  | [] => []
  | DisplayImagenetPrediction image ci :: t' => (image, ci) :: displays t'
  | _ :: t' => displays t'
  end.

(** The files read by [imread] in a trace, in order. *)
Fixpoint imreads (t : list event) : list string :=
  match t with
  | [] => []
  | Imread f :: t' => f :: imreads t'
  | _ :: t' => imreads t'
  end.

Section Pipeline.

Variable BS : Type.
Variable C : collaborators BS.

Local Open Scope py_scope.

Definition call_find_files (image_path : string) (exts : list string)
  : M BS (list string) :=
  emit (FindFiles image_path exts) ;;; ret (find_files C image_path exts).

Definition call_imread (file : string) : M BS (ndarray Z) :=
  emit (Imread file) ;;; ret (imread C file).

Definition call_enqueue_image_files (image_files : list string)
  : M BS unit :=
  fun w =>
    (Ok tt,
     mk_world (enqueue_image_files C image_files (extractor w))
       (trace w ++ [EnqueueImageFiles image_files])).

Definition call_feed_forward_batch (layer_names : list string)
    (batch : option (ndarray float)) (fetch_images : bool) : M BS fetched :=
  fun w =>
    let '(outputs, st) :=
      feed_forward_batch C layer_names batch fetch_images (extractor w) in
    (Ok outputs,
     mk_world st (trace w ++ [FeedForwardBatch layer_names batch fetch_images])).

Definition display_imagenet_prediction (image class_idx : ndarray Z)
  : M BS unit :=
  emit (DisplayImagenetPrediction image class_idx).

Definition extensions : list string := ["jpg"; "png"]%string.

Definition classification_queue_input (image_path : string)
    (layer_names : list string) (batch_size num_classes : Z) : M BS unit :=
  image_files <- call_find_files image_path extensions ;;
  call_enqueue_image_files image_files ;;;
  outputs <- call_feed_forward_batch layer_names None true ;;
  output0 <- lift (list_getitem (layers outputs) 0) ;;
  let predictions := np_squeeze output0 in
  predictions <- lift (np_argmax_axis1 predictions) ;;
  for_each (range batch_size) (fun i =>
    file <- lift (list_getitem image_files i) ;;
    image <- call_imread file ;;
    ci <- lift (class_index predictions i num_classes) ;;
    display_imagenet_prediction image ci).

(** The body of the loading loop, lines 88 to 94. *)
Definition load_image (image_files : list string) (i : nat)
    (batch_images : ndarray float) : M BS (ndarray float) :=
  file <- lift (list_getitem image_files i) ;;
  image <- call_imread file ;;
  let image := imresize C image (image_size C, image_size C) in
  let image := normalize image in
  lift (setitem batch_images i image).

Definition classification_placeholder_input (image_path : string)
    (layer_names : list string) (batch_size num_classes : Z) : M BS unit :=
  image_files <- call_find_files image_path extensions ;;
  batch_images <- lift (np_zeros [batch_size; Z.of_nat (image_size C);
                                  Z.of_nat (image_size C); 3%Z]) ;;
  batch_images <- for_fold (range batch_size) batch_images
                    (load_image image_files) ;;
  outputs <- call_feed_forward_batch layer_names (Some batch_images) true ;;
  output0 <- lift (list_getitem (layers outputs) 0) ;;
  let predictions := np_squeeze output0 in
  predictions <- lift (np_argmax_axis1 predictions) ;;
  for_each (range batch_size) (fun i =>
    slice <- lift (getitem batch_images i) ;;
    let image := denormalize slice in
    ci <- lift (class_index predictions i num_classes) ;;
    display_imagenet_prediction image ci).

(** The world a run starts in. *)
Definition initial (st : BS) : world BS := mk_world st [].

End Pipeline.

(* ================================================================= *)
(** ** Vocabulary of the statements *)

(** Row [i] of a 2-dimensional array with [ncols] columns. *)
Definition row (a : ndarray float) (ncols i : nat) : list float :=
  map (get2 a ncols i) (seq 0 ncols).

(** The class index shown for row [i] of the squeezed first output. *)
Definition decoded (output0 : ndarray float) (ncols : nat) (num_classes : Z)
    (i : nat) : ndarray Z :=
  let a := Z.of_nat (argmax (row (np_squeeze output0) ncols i)) in
  nd_scalar (if Z.eqb num_classes 1001 then a else (a + 1)%Z).

(** The first output of a reply squeezes to at least [n] rows of [ncols]
    scores each. *)
Definition decodable (outputs : fetched) (output0 : ndarray float)
    (n ncols : nat) : Prop :=
  nth_error (layers outputs) 0 = Some output0 /\
  exists nrows, shape (np_squeeze output0) = [nrows; ncols] /\
                n <= nrows /\ 0 < ncols.

Section Vocabulary.

Variable BS : Type.
Variable C : collaborators BS.

Definition image_shape : list nat := [image_size C; image_size C; 3].

Definition resized (file : string) : ndarray Z :=
  imresize C (imread C file) (image_size C, image_size C).

(** The resized image is a well-formed RGB image of the extractor's size. *)
Definition resized_ok (file : string) : Prop :=
  shape (resized file) = image_shape /\ wf_ndarray (resized file).

(** What the loading loop leaves in [batch_images] after [k] of its [n]
    iterations. *)
Definition batch_after (image_files : list string) (n k : nat)
  : ndarray float :=
  mk_ndarray (n :: image_shape)
    (flat_map (fun f => data (normalize (resized f))) (firstn k image_files)
       ++ repeat F.zero32 ((n - k) * size_of image_shape)).

(** The reply to the one forward pass of the streaming variant. *)
Definition queue_reply (image_path : string) (layer_names : list string)
    (st : BS) : fetched * BS :=
  feed_forward_batch C layer_names None true
    (enqueue_image_files C (find_files C image_path extensions) st).

(** The batch the explicit-batch variant feeds, and the reply to it. *)
Definition placeholder_batch (image_path : string) (batch_size : Z)
  : ndarray float :=
  batch_after (find_files C image_path extensions)
    (Z.to_nat batch_size) (Z.to_nat batch_size).

Definition placeholder_reply (image_path : string)
    (layer_names : list string) (batch_size : Z) (st : BS) : fetched * BS :=
  feed_forward_batch C layer_names
    (Some (placeholder_batch image_path batch_size)) true st.

(** The events of the streaming variant's display loop for index [i]. *)
Definition queue_step (image_files : list string) (output0 : ndarray float)
    (ncols : nat) (num_classes : Z) (i : nat) : list event :=
  let file := nth i image_files EmptyString in
  [Imread file;
   DisplayImagenetPrediction (imread C file)
     (decoded output0 ncols num_classes i)].

(** The display of the explicit-batch variant for index [i]. *)
Definition placeholder_step (image_files : list string)
    (output0 : ndarray float) (ncols : nat) (num_classes : Z) (i : nat)
  : event :=
  DisplayImagenetPrediction
    (denormalize (normalize (resized (nth i image_files EmptyString))))
    (decoded output0 ncols num_classes i).

End Vocabulary.

(* ================================================================= *)
(** ** A stub extractor

    Small collaborators on which the statements below are instantiated:
    three image files, images of one pixel, four classes. *)

Module Stub.

Definition f32 (n : Z) : float := binary_normalize F.prec32 F.emax32 n 0 false.

(** Three images on disk. *)
Definition files : list string := ["a.jpg"; "bb.jpg"; "ccc.png"]%string.

(** A 1 x 1 RGB image whose samples depend on the file name. *)
Definition pixels (file : string) : ndarray Z :=
  let n := Z.of_nat (String.length file) in
  mk_ndarray [1; 1; 3] [n; (n + 100)%Z; 255%Z].

(** Scores of [nrows] images over four classes: row [i] has its largest
    score at class [i mod 4] and again at class 3. *)
Definition scores (nrows : nat) : ndarray float :=
  mk_ndarray [nrows; 1; 1; 4]
    (flat_map
       (fun i => map (fun j => if Nat.eqb j (i mod 4) || Nat.eqb j 3
                               then f32 7 else f32 (-3))
                   (seq 0 4))
       (seq 0 nrows)).

(** The images the extractor says it consumed: all samples are 9. *)
Definition echoed (nrows : nat) : ndarray Z :=
  mk_ndarray [nrows; 1; 1; 3] (repeat 9%Z (nrows * 3)).

(** An extractor that answers every forward pass with [nrows] rows of
    scores and counts the passes. *)
Definition stub (nrows : nat) : collaborators nat :=
  mk_collaborators
    (fun _ _ => files)
    pixels
    (fun image _ => image)
    1
    (fun _ st => st)
    (fun _ _ _ st => (mk_fetched [scores nrows] (Some (echoed nrows)), S st)).

(** A reply of one row of four scores, as for [batch_size = 1]. *)
Definition one_row : ndarray float :=
  mk_ndarray [1; 4] [f32 0; f32 (-3); f32 7; f32 7].

Definition stub_one_row : collaborators nat :=
  mk_collaborators
    (fun _ _ => files)
    pixels
    (fun image _ => image)
    1
    (fun _ st => st)
    (fun _ _ _ st => (mk_fetched [one_row] None, S st)).

End Stub.

(* ================================================================= *)
(** ** More of a trace *)

(** The forward passes of a trace: the batch each one was given. *)
Fixpoint forward_passes (t : list event) : list (option (ndarray float)) :=
  match t with
  | [] => []
  | FeedForwardBatch _ batch _ :: t' => batch :: forward_passes t'
  | _ :: t' => forward_passes t'
  end.

(** The file lists handed to [enqueue_image_files]. *)
Fixpoint enqueues (t : list event) : list (list string) :=
  match t with
  | [] => []
  | EnqueueImageFiles image_files :: t' => image_files :: enqueues t'
  | _ :: t' => enqueues t'
  end.

(** The directories searched by [find_files]. *)
Fixpoint searches (t : list event) : list string :=
  match t with
  | [] => []
  | FindFiles image_path _ :: t' => image_path :: searches t'
  | _ :: t' => searches t'
  end.

Definition show (d : ndarray Z * ndarray Z) : event :=
  DisplayImagenetPrediction (fst d) (snd d).

(** A computation that looks at the extractor only, not at what happened
    before it: started after [t], it does what it does from an empty trace,
    after [t]. *)
Definition framed {BS A} (m : M BS A) : Prop :=
  forall st t,
    m (mk_world st t)
    = (fst (m (mk_world st [])),
       mk_world (extractor (snd (m (mk_world st []))))
         (t ++ trace (snd (m (mk_world st []))))).

(** The scalar of a 0-dimensional array of integers. *)
Definition scalar_in (lo hi : Z) (a : ndarray Z) : Prop :=
  exists c, a = nd_scalar c /\ (lo <= c <= hi)%Z.

(* ================================================================= *)
(** ** The entry point *)

(** [s.split(sep)] for a separator of one character. *)
Fixpoint str_split (sep : Ascii.ascii) (s : string) : list string :=
  match s with
  | EmptyString => [EmptyString]
  | String c s' =>
      if Ascii.eqb c sep then EmptyString :: str_split sep s'
      else match str_split sep s' with
           | [] => [String c EmptyString]
           | part :: parts => String c part :: parts
           end
  end.

(** [sep.join(parts)]. *)
Fixpoint str_join (sep : Ascii.ascii) (parts : list string) : string :=
  match parts with
  | [] => EmptyString
  | [part] => part
  | part :: parts' => (part ++ String sep (str_join sep parts'))%string
  end.

(** The number of occurrences of a character. *)
Fixpoint str_count (c : Ascii.ascii) (s : string) : nat :=
  match s with
  | EmptyString => 0
  | String c' s' => (if Ascii.eqb c' c then 1 else 0) + str_count c s'
  end.

(** The separator of line 129, [","]. *)
Definition comma : Ascii.ascii := Ascii.ascii_of_nat 44.

Module Main.

(** The namespace [parser.parse_args()] returns. *)
Record arguments : Type := mk_arguments {
  network_name : string;
  checkpoint : string;
  image_path : string;
  layer_names : string;
  preproc_func : option string;
  batch_size : Z;
  num_classes : Z
}.

(** The constructor of [FeatureExtractor], which gives the extractor its
    methods, its [image_size] and its first state, and
    [print_network_summary].  Both are taken to return. *)
Record environment (BS : Type) : Type := mk_environment {
  FeatureExtractor :
    string -> string -> Z -> Z -> option string -> collaborators BS * BS;
  print_network_summary : BS -> BS
}.

(** What the script does to the outside, in order. *)
Inductive main_event : Type :=
| Construct (network_name checkpoint_path : string)
    (batch_size num_classes : Z) (preproc_func_name : option string)
| PrintNetworkSummary
| Inner (ev : event).

(** Lines 128 to 148, after [args = parser.parse_args()]. *)
Definition main {BS} (E : environment BS) (args : arguments)
  : result unit * BS * list main_event :=
  let names := str_split comma (layer_names args) in
  let '(C, st) :=
    FeatureExtractor E (network_name args) (checkpoint args)
      (batch_size args) (num_classes args) (preproc_func args) in
  let st := print_network_summary E st in
  let '(r, w) :=
    bind
      (classification_queue_input C (image_path args) names
         (batch_size args) (num_classes args))
      (fun _ =>
         classification_placeholder_input C (image_path args) names
           (batch_size args) (num_classes args))
      (initial st) in
  (r, extractor w,
   Construct (network_name args) (checkpoint args) (batch_size args)
     (num_classes args) (preproc_func args)
     :: PrintNetworkSummary :: map Inner (trace w)).

(** What the two functions did, out of what the script did. *)
Fixpoint inner (t : list main_event) : list event :=
  match t with
  | [] => []
  | Inner ev :: t' => ev :: inner t'
  | _ :: t' => inner t'
  end.

End Main.

Module Stub2.

(** Two rows of three scores with NaNs among them. *)
Definition scores_nan : ndarray float :=
  mk_ndarray [2; 3]
    [Stub.f32 1; S754_nan; Stub.f32 5;
     Stub.f32 9; Stub.f32 0; S754_infinity false].

(** An extractor built for [batch_size] images answers with as many rows. *)
Definition env : Main.environment nat :=
  Main.mk_environment
    (fun _ _ batch_size _ _ => (Stub.stub (Z.to_nat batch_size), 0))
    (fun st => st).

Definition args (batch_size num_classes : Z) : Main.arguments :=
  Main.mk_arguments "inception_v3" "model.ckpt" "dir"
    "logits,pool" None batch_size num_classes.

End Stub2.

Unset Implicit Arguments.

(* ================================================================= *)
(** ** Facts: the order on floats *)

(** Case analysis on the signs and on the comparisons [SFcompare] makes. *)
Ltac destruct_signs :=
  repeat match goal with
         | s : bool |- _ => destruct s
         end.

Ltac compare_cases :=
  change (Pos.compare_cont Eq) with Pos.compare;
  repeat match goal with
         | |- context [Z.compare ?a ?b] => destruct (Z.compare_spec a b)
         | |- context [Pos.compare ?a ?b] => destruct (Pos.compare_spec a b)
         end.

Lemma SFleb_trans (x y z : float) :
  SFleb x y = true -> SFleb y z = true -> SFleb x z = true.
Proof.
  unfold SFleb.
  destruct x as [sx|sx| |sx mx ex], y as [sy|sy| |sy my ey],
           z as [sz|sz| |sz mz ez];
    simpl; try discriminate; try reflexivity;
    destruct_signs; simpl; try discriminate; try reflexivity;
    compare_cases; simpl; try discriminate; try reflexivity;
    intros; subst; lia.
Qed.

Lemma SFleb_total (x y : float) :
  F.is_nan x = false -> F.is_nan y = false ->
  SFleb x y = true \/ SFleb y x = true.
Proof.
  unfold SFleb.
  destruct x as [sx|sx| |sx mx ex], y as [sy|sy| |sy my ey];
    simpl; try discriminate; intros _ _;
    destruct_signs; simpl; auto;
    compare_cases; simpl; auto; subst; lia.
Qed.

Lemma SFleb_refl (x : float) : F.is_nan x = false -> SFleb x x = true.
Proof.
  unfold SFleb. destruct x as [s|s| |s m e]; simpl; try discriminate; intros _;
    try (destruct s; reflexivity).
  change (Pos.compare_cont Eq) with Pos.compare.
  rewrite Z.compare_refl, Pos.compare_refl. destruct s; reflexivity.
Qed.

Lemma np_leb_refl (x : float) : F.np_leb x x = true.
Proof.
  unfold F.np_leb. destruct (F.is_nan x) eqn:E; simpl; [reflexivity|].
  now apply SFleb_refl.
Qed.

Lemma np_leb_nan (x y : float) : F.is_nan y = true -> F.np_leb x y = true.
Proof. unfold F.np_leb. now intros ->. Qed.

Lemma np_leb_not_nan (x y : float) :
  F.is_nan y = false -> F.np_leb x y = F.leb x y.
Proof.
  unfold F.np_leb, F.leb. intros ->. simpl.
  destruct (F.is_nan x) eqn:E; simpl; [|reflexivity].
  destruct x; try discriminate. reflexivity.
Qed.

Lemma np_leb_trans (x y z : float) :
  F.np_leb x y = true -> F.np_leb y z = true -> F.np_leb x z = true.
Proof.
  unfold F.np_leb.
  destruct (F.is_nan z) eqn:Ez; simpl; [reflexivity|].
  destruct (F.is_nan y) eqn:Ey; simpl.
  - intros _ H. discriminate.
  - destruct (F.is_nan x) eqn:Ex; simpl; [discriminate|].
    apply SFleb_trans.
Qed.

Lemma np_leb_total (x y : float) : F.np_leb x y = true \/ F.np_leb y x = true.
Proof.
  unfold F.np_leb.
  destruct (F.is_nan y) eqn:Ey; simpl; [now left|].
  destruct (F.is_nan x) eqn:Ex; simpl; [now right|].
  now apply SFleb_total.
Qed.

(** The scan keeps the first maximum of what it has gone through: [pre] is
    the part of the row behind it, [l] the part ahead. *)
Lemma argmax_scan_spec (l pre : list float) (mp : float) (max_ind : nat) :
  max_ind < length pre ->
  nth max_ind pre S754_nan = mp ->
  (forall j, j < length pre -> F.np_leb (nth j pre S754_nan) mp = true) ->
  (forall j, j < max_ind -> F.np_leb mp (nth j pre S754_nan) = false) ->
  let row := pre ++ l in
  let k := argmax_scan mp max_ind (length pre) l in
  k < length row /\
  (forall j, j < length row ->
     F.np_leb (nth j row S754_nan) (nth k row S754_nan) = true) /\
  (forall j, j < k ->
     F.np_leb (nth k row S754_nan) (nth j row S754_nan) = false).
Proof.
  revert pre mp max_ind.
  induction l as [|x l IH]; intros pre mp max_ind Hlt Hmp Hmax Hfirst; cbn zeta.
  - simpl. rewrite app_nil_r. rewrite Hmp. auto.
  - cbn [argmax_scan].
    destruct (F.is_nan mp) eqn:Enan.
    + rewrite length_app. split; [lia|].
      rewrite (app_nth1 pre (x :: l) S754_nan Hlt), Hmp.
      split.
      * intros j _. now apply np_leb_nan.
      * intros j Hj. rewrite app_nth1 by lia. now apply Hfirst.
    + assert (Hrow : pre ++ x :: l = (pre ++ [x]) ++ l)
        by (rewrite <- app_assoc; reflexivity).
      assert (Hlen : S (length pre) = length (pre ++ [x]))
        by (rewrite length_app; simpl; lia).
      assert (Hx : nth (length pre) (pre ++ [x]) S754_nan = x)
        by (rewrite app_nth2, Nat.sub_diag by lia; reflexivity).
      rewrite Hrow, Hlen.
      destruct (F.leb x mp) eqn:Ele; cbn [negb].
      * apply IH.
        -- rewrite <- Hlen. lia.
        -- rewrite app_nth1 by lia. exact Hmp.
        -- intros j Hj. rewrite <- Hlen in Hj.
           destruct (Nat.eq_dec j (length pre)) as [->|Hne].
           ++ rewrite Hx, np_leb_not_nan by exact Enan. exact Ele.
           ++ rewrite app_nth1 by lia. apply Hmax. lia.
        -- intros j Hj. rewrite app_nth1 by lia. now apply Hfirst.
      * assert (Hxm : F.np_leb x mp = false)
          by (rewrite np_leb_not_nan by exact Enan; exact Ele).
        assert (Hmx : F.np_leb mp x = true).
        { destruct (np_leb_total x mp) as [H|H]; [congruence|exact H]. }
        apply IH.
        -- rewrite <- Hlen. lia.
        -- exact Hx.
        -- intros j Hj. rewrite <- Hlen in Hj.
           destruct (Nat.eq_dec j (length pre)) as [->|Hne].
           ++ rewrite Hx. apply np_leb_refl.
           ++ rewrite app_nth1 by lia.
              apply np_leb_trans with mp; [apply Hmax; lia | exact Hmx].
        -- intros j Hj. rewrite app_nth1 by lia.
           destruct (F.np_leb x (nth j pre S754_nan)) eqn:E; [|reflexivity].
           rewrite <- Hxm. symmetry.
           apply np_leb_trans with (nth j pre S754_nan); [exact E|].
           now apply Hmax.
Qed.

Lemma argmax_spec (row : list float) :
  row <> [] ->
  argmax row < length row /\
  (forall j, j < length row ->
     F.np_leb (nth j row S754_nan) (nth (argmax row) row S754_nan) = true) /\
  (forall j, j < argmax row ->
     F.np_leb (nth (argmax row) row S754_nan) (nth j row S754_nan) = false).
Proof.
  destruct row as [|x l]; [congruence|]. intros _.
  unfold argmax.
  apply (argmax_scan_spec l [x] x 0).
  - simpl; lia.
  - reflexivity.
  - intros j Hj. simpl in Hj. assert (j = 0) as -> by lia. apply np_leb_refl.
  - intros j Hj. lia.
Qed.

(* ================================================================= *)
(** ** Facts: lists, arrays and the pixel transforms *)

(** *** Lists *)

Lemma flat_map_singleton {A B} (f : A -> B) (l : list A) :
  flat_map (fun x => [f x]) l = map f l.
Proof. induction l as [|x l IH]; simpl; [reflexivity | now rewrite IH]. Qed.

Lemma nth_error_nth_eq {A} (l : list A) (i : nat) (d : A) :
  i < length l -> nth_error l i = Some (nth i l d).
Proof. intros H. now apply nth_error_nth'. Qed.

Lemma firstn_one_skipn {A} (l : list A) (i : nat) (a : A) :
  nth_error l i = Some a -> firstn 1 (skipn i l) = [a].
Proof.
  revert i. induction l as [|x l IH]; intros [|i] H; simpl in *; try discriminate.
  - now inversion H.
  - now apply IH.
Qed.

(** *** Arrays *)

Lemma lane_row (a : ndarray float) (ncols i : nat) :
  lane a ncols 1 i 0 = row a ncols i.
Proof.
  unfold lane, row, get2. apply map_ext. intros j.
  f_equal. lia.
Qed.

Lemma np_argmax_axis1_2d (a : ndarray float) (nrows ncols : nat) :
  shape a = [nrows; ncols] -> 0 < ncols ->
  np_argmax_axis1 a =
    Ok (nd_vector (map (fun i => Z.of_nat (argmax (row a ncols i)))
                     (seq 0 nrows))).
Proof.
  intros Hs Hc. unfold np_argmax_axis1. rewrite Hs.
  destruct (Nat.eqb_spec ncols 0) as [->|_]; [lia|].
  unfold nd_vector. rewrite length_map, length_seq.
  do 2 f_equal. cbn [size_of fold_right seq]. 
  rewrite <- flat_map_singleton. apply flat_map_ext. intros i. cbn [map].
  now rewrite lane_row.
Qed.

Lemma np_argmax_axis1_low_rank (a : ndarray float) :
  length (shape a) < 2 -> np_argmax_axis1 a = Err AxisError.
Proof.
  unfold np_argmax_axis1. destruct (shape a) as [|d0 [|d1 rest]]; simpl; try reflexivity.
  lia.
Qed.

Lemma getitem_vector {A} (l : list A) (i : nat) (a : A) :
  nth_error l i = Some a -> getitem (nd_vector l) i = Ok (nd_scalar a).
Proof.
  intros H. unfold getitem, nd_vector, nd_scalar. cbn [shape data size_of fold_right].
  assert (Hi : i < length l) by (apply nth_error_Some; congruence).
  destruct (Nat.ltb_spec i (length l)) as [_|]; [|lia].
  cbv zeta. rewrite Nat.mul_1_r. now rewrite (firstn_one_skipn l i a H).
Qed.

Lemma getitem_vector_out {A} (l : list A) (i : nat) :
  length l <= i -> getitem (nd_vector l) i = Err IndexError.
Proof.
  intros H. unfold getitem, nd_vector. cbn [shape].
  destruct (Nat.ltb_spec i (length l)); [lia | reflexivity].
Qed.

Lemma class_index_vector (l : list Z) (i : nat) (a num_classes : Z) :
  nth_error l i = Some a ->
  class_index (nd_vector l) i num_classes =
    Ok (nd_scalar (if Z.eqb num_classes 1001 then a else (a + 1)%Z)).
Proof.
  intros H. unfold class_index. rewrite (getitem_vector l i a H).
  destruct (Z.eqb num_classes 1001); reflexivity.
Qed.

Lemma class_index_vector_out (l : list Z) (i : nat) (num_classes : Z) :
  length l <= i -> class_index (nd_vector l) i num_classes = Err IndexError.
Proof.
  intros H. unfold class_index. rewrite (getitem_vector_out l i H).
  destruct (Z.eqb num_classes 1001); reflexivity.
Qed.

(** *** The pixel transforms *)

Lemma normalize_shape (x : ndarray Z) : shape (normalize x) = shape x.
Proof. reflexivity. Qed.

Lemma normalize_data (x : ndarray Z) :
  data (normalize x) = map normalize_sample (data x).
Proof.
  unfold normalize, mul32, sub32, astype_float32, true_divide, nd_map.
  cbn [data]. rewrite !map_map. reflexivity.
Qed.

Lemma denormalize_shape (x : ndarray float) : shape (denormalize x) = shape x.
Proof. reflexivity. Qed.

Lemma denormalize_data (x : ndarray float) :
  data (denormalize x) = map denormalize_sample (data x).
Proof.
  unfold denormalize, astype_uint8, mul32, add32, div32, nd_map.
  cbn [data]. rewrite !map_map. reflexivity.
Qed.

Lemma is_uint8_in (v : Z) : is_uint8 v -> In v all_uint8.
Proof.
  intros [H0 H1]. unfold all_uint8.
  apply in_map_iff. exists (Z.to_nat v). split; [lia|].
  apply in_seq. lia.
Qed.

Lemma normalize_sample_range (v : Z) :
  is_uint8 v -> in_unit_range (normalize_sample v) = true.
Proof.
  intros H. apply is_uint8_in in H.
  assert (Hall : forallb (fun v => in_unit_range (normalize_sample v)) all_uint8
                 = true) by (vm_compute; reflexivity).
  rewrite forallb_forall in Hall. now apply Hall.
Qed.

Lemma round_trip_sample (v : Z) :
  is_uint8 v -> within_one (denormalize_sample (normalize_sample v)) v.
Proof.
  intros H. apply is_uint8_in in H.
  assert (Hall : forallb
                   (fun v => Z.leb (Z.abs (denormalize_sample (normalize_sample v) - v)) 1)
                   all_uint8 = true) by (vm_compute; reflexivity).
  rewrite forallb_forall in Hall. unfold within_one.
  apply Z.leb_le. now apply Hall.
Qed.

(** *** Slices of a flat array *)

Lemma flat_map_length_uniform {A B} (g : A -> list B) (n : nat) (l : list A) :
  Forall (fun x => length (g x) = n) l ->
  length (flat_map g l) = length l * n.
Proof.
  induction 1 as [|x l Hx _ IH]; simpl; [reflexivity|].
  rewrite length_app, IH, Hx. reflexivity.
Qed.

Lemma slice_flat_map {A B} (g : A -> list B) (n : nat) (l : list A)
    (k : nat) (x : A) (tail : list B) :
  Forall (fun x => length (g x) = n) l ->
  nth_error l k = Some x ->
  firstn n (skipn (k * n) (flat_map g l ++ tail)) = g x.
Proof.
  intros Hall. revert k.
  induction Hall as [|y l Hy _ IH]; intros [|k] Hk; simpl in Hk; try discriminate.
  - inversion Hk; subst y. cbn [Nat.mul skipn flat_map].
    rewrite <- app_assoc, firstn_app, Hy, Nat.sub_diag.
    cbn [firstn]. rewrite app_nil_r.
    rewrite <- Hy. apply firstn_all.
  - cbn [flat_map]. rewrite <- app_assoc.
    replace (S k * n) with (length (g y) + k * n) by (rewrite Hy; simpl; lia).
    rewrite skipn_app, skipn_all2 by lia.
    replace (length (g y) + k * n - length (g y)) with (k * n) by lia.
    cbn [app]. now apply IH.
Qed.

Lemma skipn_repeat {A} (x : A) (a b : nat) :
  skipn a (repeat x (a + b)) = repeat x b.
Proof.
  rewrite repeat_app, skipn_app, repeat_length, Nat.sub_diag.
  rewrite skipn_all2 by (rewrite repeat_length; lia). reflexivity.
Qed.

Lemma firstn_succ_nth_error {A} (l : list A) (k : nat) (x : A) :
  nth_error l k = Some x -> firstn (S k) l = firstn k l ++ [x].
Proof.
  revert k. induction l as [|y l IH]; intros [|k] H; simpl in *; try discriminate.
  - now inversion H.
  - f_equal. now apply IH.
Qed.

(** *** Broadcasting a value that already has the shape of its target *)

Lemma firstn_plus {A} (a b : nat) (d : list A) :
  firstn (a + b) d = firstn a d ++ firstn b (skipn a d).
Proof.
  revert d. induction a as [|a IH]; intros d; [reflexivity|].
  destruct d as [|x d]; cbn [Nat.add firstn skipn app].
  - now rewrite firstn_nil.
  - now rewrite IH.
Qed.

Lemma chunks_concat {A} (k size : nat) (d : list A) :
  concat (chunks k size d) = firstn (k * size) d.
Proof.
  revert d. induction k as [|k IH]; intros d; [reflexivity|].
  cbn [chunks concat Nat.mul]. now rewrite IH, firstn_plus.
Qed.

Lemma chunks_length {A} (k size : nat) (d : list A) :
  k * size <= length d ->
  Forall (fun c => length c = size) (chunks k size d).
Proof.
  revert d. induction k as [|k IH]; intros d Hd; cbn [chunks]; constructor.
  - apply firstn_length_le. lia.
  - apply IH. rewrite length_skipn. lia.
Qed.

Lemma flat_map_fixed {A} (f : list A -> list A) (l : list (list A)) :
  Forall (fun c => f c = c) l -> flat_map f l = concat l.
Proof.
  induction 1 as [|c l Hc _ IH]; [reflexivity|].
  cbn [flat_map concat]. now rewrite Hc, IH.
Qed.

Lemma broadcast_data_same {A} (sh : list nat) (d : list A) :
  length d = size_of sh -> broadcast_data sh sh d = d.
Proof.
  revert d. induction sh as [|ds sh IH]; intros d Hd; [reflexivity|].
  cbn [broadcast_data]. rewrite Nat.eqb_refl.
  cbn [size_of fold_right] in Hd. fold (size_of sh) in Hd.
  rewrite flat_map_fixed.
  - rewrite chunks_concat. apply firstn_all2. lia.
  - eapply Forall_impl; [|apply chunks_length; lia].
    intros c Hc. now apply IH.
Qed.

Lemma broadcastable_same (sh : list nat) : broadcastable sh sh = true.
Proof.
  induction sh as [|d sh IH]; [reflexivity|].
  cbn [broadcastable]. now rewrite Nat.eqb_refl, IH.
Qed.

Lemma strip_unit_axes_same (sh : list nat) :
  strip_unit_axes sh (length sh) = sh.
Proof.
  destruct sh as [|d sh]; [reflexivity|]. cbn [strip_unit_axes].
  rewrite Nat.ltb_irrefl, andb_false_r. reflexivity.
Qed.

(** A value of the target's shape is assigned as it is. *)
Lemma np_broadcast_to_same {A} (v : ndarray A) (sh : list nat) :
  shape v = sh -> wf_ndarray v -> np_broadcast_to v sh = Ok (data v).
Proof.
  intros Hs Hwf. unfold np_broadcast_to. rewrite Hs, strip_unit_axes_same.
  rewrite Nat.ltb_irrefl, Nat.sub_diag. cbn [repeat app].
  rewrite broadcastable_same, broadcast_data_same; [reflexivity|].
  unfold wf_ndarray in Hwf. now rewrite <- Hs.
Qed.

(** *** The batch under construction *)

Section Batch.

Variable BS : Type.
Variable C : collaborators BS.

Lemma normalize_resized_length (f : string) :
  resized_ok C f ->
  length (data (normalize (resized C f))) = size_of (image_shape C).
Proof.
  intros [Hs Hwf]. rewrite normalize_data, length_map.
  unfold wf_ndarray in Hwf. now rewrite Hwf, Hs.
Qed.

Lemma normalize_resized_eta (f : string) :
  resized_ok C f ->
  mk_ndarray (image_shape C) (data (normalize (resized C f)))
  = normalize (resized C f).
Proof.
  intros [Hs _]. unfold normalize at 2, mul32, sub32, astype_float32, true_divide, nd_map.
  cbn [shape]. rewrite Hs. rewrite normalize_data.
  cbn [data]. rewrite !map_map. reflexivity.
Qed.

Lemma np_zeros_batch (image_files : list string) (batch_size : Z) :
  (0 <= batch_size)%Z ->
  np_zeros [batch_size; Z.of_nat (image_size C); Z.of_nat (image_size C); 3%Z]
  = Ok (batch_after C image_files (Z.to_nat batch_size) 0).
Proof.
  intros HB. unfold np_zeros.
  assert (Hpos : forallb (fun d => Z.leb 0 d)
                   [batch_size; Z.of_nat (image_size C);
                    Z.of_nat (image_size C); 3%Z] = true).
  { cbn [forallb]. rewrite !andb_true_iff. repeat split; apply Z.leb_le; lia. }
  rewrite Hpos. unfold batch_after, image_shape.
  cbn [map firstn flat_map app]. rewrite !Nat2Z.id, Nat.sub_0_r.
  reflexivity.
Qed.

Lemma setitem_batch (image_files : list string) (n k : nat) (f : string) :
  k < n ->
  nth_error image_files k = Some f ->
  Forall (resized_ok C) (firstn (S k) image_files) ->
  setitem (batch_after C image_files n k) k (normalize (resized C f))
  = Ok (batch_after C image_files n (S k)).
Proof.
  intros Hk Hf Hall.
  rewrite (firstn_succ_nth_error image_files k f Hf) in Hall.
  apply Forall_app in Hall. destruct Hall as [Hpre Hf_ok].
  inversion Hf_ok as [|? ? Hok _]; subst.
  assert (Hlen : length (flat_map (fun f => data (normalize (resized C f)))
                           (firstn k image_files))
                 = k * size_of (image_shape C)).
  { rewrite flat_map_length_uniform with (n := size_of (image_shape C)).
    - rewrite firstn_length_le; [reflexivity|].
      apply Nat.lt_le_incl, nth_error_Some. congruence.
    - eapply Forall_impl; [|exact Hpre]. intros g. apply normalize_resized_length. }
  unfold setitem, batch_after. cbn [shape data].
  destruct (Nat.ltb_spec k n) as [_|]; [|lia].
  rewrite (np_broadcast_to_same (normalize (resized C f)) (image_shape C));
    [| rewrite normalize_shape; apply Hok
     | unfold wf_ndarray;
       rewrite normalize_shape, normalize_data, length_map; apply Hok ].
  destruct Hok as [Hs Hwf]. do 2 f_equal.
  set (sz := size_of (image_shape C)) in *.
  rewrite (firstn_succ_nth_error image_files k f Hf), flat_map_app.
  rewrite firstn_app, Hlen, Nat.sub_diag, firstn_O, app_nil_r.
  rewrite firstn_all2 by lia.
  rewrite skipn_app, Hlen, skipn_all2 by lia.
  replace (k * sz + sz - k * sz) with sz by lia. cbn [app].
  replace ((n - k) * sz) with (sz + (n - S k) * sz) by nia.
  rewrite skipn_repeat.
  cbn [flat_map]. rewrite app_nil_r, <- app_assoc. reflexivity.
Qed.

Lemma getitem_batch (image_files : list string) (n k : nat) (f : string) :
  k < n ->
  nth_error image_files k = Some f ->
  Forall (resized_ok C) (firstn n image_files) ->
  getitem (batch_after C image_files n n) k = Ok (normalize (resized C f)).
Proof.
  intros Hk Hf Hall. unfold getitem, batch_after. cbn [shape data].
  destruct (Nat.ltb_spec k n) as [_|]; [|lia]. cbv zeta.
  assert (Hfk : nth_error (firstn n image_files) k = Some f)
    by (rewrite nth_error_firstn; destruct (Nat.ltb_spec k n); [exact Hf | lia]).
  rewrite slice_flat_map with (x := f).
  - f_equal. apply normalize_resized_eta.
    rewrite Forall_forall in Hall. apply Hall.
    eapply nth_error_In; exact Hfk.
  - eapply Forall_impl; [|exact Hall]. intros g. apply normalize_resized_length.
  - exact Hfk.
Qed.

End Batch.

(* ================================================================= *)
(** ** Facts: loops and runs *)

(** *** The monad *)

Section MonadLaws.

Variable BS : Type.

Lemma bind_ret {A B} (a : A) (k : A -> M BS B) (w : world BS) :
  bind (ret a) k w = k a w.
Proof. reflexivity. Qed.

Lemma bind_lift_ok {A B} (a : A) (k : A -> M BS B) (w : world BS) :
  bind (lift (Ok a)) k w = k a w.
Proof. reflexivity. Qed.

Lemma bind_lift_err {A B} (e : exn) (k : A -> M BS B) (w : world BS) :
  bind (lift (Err e)) k w = (Err e, w).
Proof. reflexivity. Qed.

Lemma bind_emit {B} (ev : event) (k : unit -> M BS B) (w : world BS) :
  bind (emit ev) k w = k tt (mk_world (extractor w) (trace w ++ [ev])).
Proof. reflexivity. Qed.

Lemma bind_bind {A B D} (m : M BS A) (k : A -> M BS B) (h : B -> M BS D)
    (w : world BS) :
  bind (bind m k) h w = bind m (fun a => bind (k a) h) w.
Proof. unfold bind. destruct (m w) as [[a|e] w']; reflexivity. Qed.

Lemma world_eta (w : world BS) :
  mk_world (extractor w) (trace w ++ []) = w.
Proof. destruct w. cbn. now rewrite app_nil_r. Qed.

Lemma for_each_app {A} (l1 l2 : list A) (body : A -> M BS unit)
    (w : world BS) :
  for_each (l1 ++ l2) body w
  = bind (for_each l1 body) (fun _ => for_each l2 body) w.
Proof.
  revert w. induction l1 as [|x l1 IH]; intros w; [reflexivity|].
  cbn [app for_each]. unfold bind.
  destruct (body x w) as [[[]|e] w']; [|reflexivity].
  rewrite IH. reflexivity.
Qed.

Lemma for_fold_app {A S} (l1 l2 : list A) (s : S) (body : A -> S -> M BS S)
    (w : world BS) :
  for_fold (l1 ++ l2) s body w
  = bind (for_fold l1 s body) (fun s' => for_fold l2 s' body) w.
Proof.
  revert s w. induction l1 as [|x l1 IH]; intros s w; [reflexivity|].
  cbn [app for_fold]. unfold bind.
  destruct (body x s w) as [[s'|e] w']; [|reflexivity].
  rewrite IH. reflexivity.
Qed.

(** A loop whose iterations all succeed, each adding its events. *)
Lemma for_each_ok {A} (ev : A -> list event) (l : list A)
    (body : A -> M BS unit) :
  (forall x, In x l -> forall w,
      body x w = (Ok tt, mk_world (extractor w) (trace w ++ ev x))) ->
  forall w, for_each l body w
            = (Ok tt, mk_world (extractor w) (trace w ++ flat_map ev l)).
Proof.
  induction l as [|x l IH]; intros Hbody w.
  - cbn [for_each flat_map]. unfold ret. now rewrite world_eta.
  - cbn [for_each flat_map]. unfold bind.
    rewrite (Hbody x (or_introl eq_refl)).
    rewrite IH by (intros y Hy; apply Hbody; now right).
    cbn [extractor trace]. now rewrite app_assoc.
Qed.

(** A loop that succeeds went through every iteration. *)
Lemma for_each_ok_inv {A} (l : list A) (body : A -> M BS unit)
    (w w' : world BS) :
  for_each l body w = (Ok tt, w') ->
  forall x, In x l -> exists w1 w2, body x w1 = (Ok tt, w2).
Proof.
  revert w. induction l as [|y l IH]; intros w Hrun x Hin; [destruct Hin|].
  cbn [for_each] in Hrun. unfold bind in Hrun.
  destruct (body y w) as [[[]|e] w1] eqn:Hy; [|discriminate].
  destruct Hin as [->|Hin].
  - now exists w, w1.
  - now apply (IH w1 Hrun).
Qed.

Lemma for_fold_ok_inv {A S} (l : list A) (body : A -> S -> M BS S)
    (s s' : S) (w w' : world BS) :
  for_fold l s body w = (Ok s', w') ->
  forall x, In x l -> exists s1 s2 w1 w2, body x s1 w1 = (Ok s2, w2).
Proof.
  revert s w. induction l as [|y l IH]; intros s w Hrun x Hin; [destruct Hin|].
  cbn [for_fold] in Hrun. unfold bind in Hrun.
  destruct (body y s w) as [[s1|e] w1] eqn:Hy; [|discriminate].
  destruct Hin as [->|Hin].
  - now exists s, s1, w, w1.
  - now apply (IH s1 w1 Hrun).
Qed.

End MonadLaws.

Lemma skipn_nth_error_cons {A} (l : list A) (k : nat) (x : A) :
  nth_error l k = Some x -> skipn k l = x :: skipn (S k) l.
Proof.
  revert k. induction l as [|y l IH]; intros [|k] H; simpl in *; try discriminate.
  - now inversion H.
  - now apply IH.
Qed.

Lemma list_getitem_ok {A} (l : list A) (i : nat) (d : A) :
  i < length l -> list_getitem l i = Ok (nth i l d).
Proof.
  intros H. unfold list_getitem. now rewrite (nth_error_nth_eq l i d H).
Qed.

Lemma list_getitem_out {A} (l : list A) (i : nat) :
  length l <= i -> list_getitem l i = Err IndexError.
Proof.
  intros H. unfold list_getitem.
  now rewrite (proj2 (nth_error_None l i) H).
Qed.

Lemma nth_error_map_seq {A} (f : nat -> A) (n i : nat) :
  i < n -> nth_error (map f (seq 0 n)) i = Some (f i).
Proof.
  intros H. rewrite nth_error_map, nth_error_seq.
  destruct (Nat.ltb_spec i n); [reflexivity | lia].
Qed.

Lemma class_index_decoded (output0 : ndarray float) (nrows ncols i : nat)
    (num_classes : Z) :
  i < nrows ->
  class_index
    (nd_vector (map (fun i => Z.of_nat (argmax (row (np_squeeze output0) ncols i)))
                  (seq 0 nrows)))
    i num_classes
  = Ok (decoded output0 ncols num_classes i).
Proof.
  intros Hi. unfold decoded.
  apply class_index_vector.
  exact (nth_error_map_seq
           (fun i => Z.of_nat (argmax (row (np_squeeze output0) ncols i)))
           nrows i Hi).
Qed.

Lemma np_squeeze_one_row {A} (a : ndarray A) (ncols : nat) :
  shape a = [1; ncols] -> length (shape (np_squeeze a)) < 2.
Proof.
  intros H. unfold np_squeeze. cbn [shape]. rewrite H. cbn [filter Nat.eqb negb].
  destruct (negb (Nat.eqb ncols 1)); simpl; lia.
Qed.

Section Runs.

Variable BS : Type.
Variable C : collaborators BS.

(** **** The streaming variant *)

Lemma queue_display_ok (image_files : list string) (predictions : ndarray Z)
    (num_classes : Z) (i : nat) (ci : ndarray Z) (w : world BS) :
  i < length image_files ->
  class_index predictions i num_classes = Ok ci ->
  bind (lift (list_getitem image_files i)) (fun file =>
    bind (call_imread C file) (fun image =>
      bind (lift (class_index predictions i num_classes)) (fun ci =>
        display_imagenet_prediction image ci))) w
  = (Ok tt,
     mk_world (extractor w)
       (trace w ++ [Imread (nth i image_files EmptyString);
                    DisplayImagenetPrediction
                      (imread C (nth i image_files EmptyString)) ci])).
Proof.
  intros Hi Hci.
  rewrite (list_getitem_ok image_files i EmptyString Hi), bind_lift_ok.
  unfold call_imread. rewrite bind_bind, bind_emit, bind_ret, Hci, bind_lift_ok.
  unfold display_imagenet_prediction, emit. cbn [extractor trace].
  now rewrite <- app_assoc.
Qed.

Lemma queue_display_out (image_files : list string) (predictions : ndarray Z)
    (num_classes : Z) (i : nat) (w : world BS) :
  length image_files <= i ->
  bind (lift (list_getitem image_files i)) (fun file =>
    bind (call_imread C file) (fun image =>
      bind (lift (class_index predictions i num_classes)) (fun ci =>
        display_imagenet_prediction image ci))) w
  = (Err IndexError, w).
Proof.
  intros Hi. now rewrite (list_getitem_out image_files i Hi), bind_lift_err.
Qed.

(** The run up to the display loop. *)
Lemma queue_run_unfold (image_path : string) (layer_names : list string)
    (batch_size num_classes : Z) (st : BS) :
  classification_queue_input C image_path layer_names batch_size num_classes
    (initial st)
  = let image_files := find_files C image_path extensions in
    let reply := queue_reply C image_path layer_names st in
    bind (lift (list_getitem (layers (fst reply)) 0)) (fun output0 =>
      bind (lift (np_argmax_axis1 (np_squeeze output0))) (fun predictions =>
        for_each (range batch_size) (fun i =>
          bind (lift (list_getitem image_files i)) (fun file =>
            bind (call_imread C file) (fun image =>
              bind (lift (class_index predictions i num_classes)) (fun ci =>
                display_imagenet_prediction image ci))))))
      (mk_world (snd reply)
         [FindFiles image_path extensions; EnqueueImageFiles image_files;
          FeedForwardBatch layer_names None true]).
Proof.
  unfold classification_queue_input, call_find_files, queue_reply.
  rewrite bind_bind, bind_emit, bind_ret.
  unfold call_enqueue_image_files, call_feed_forward_batch, initial.
  unfold bind at 1. cbn [extractor trace app].
  unfold bind at 1. cbn [extractor trace app].
  destruct (feed_forward_batch C layer_names None true _) as [outputs st'].
  reflexivity.
Qed.

Lemma queue_run_ok (image_path : string) (layer_names : list string)
    (batch_size num_classes : Z) (st : BS)
    (output0 : ndarray float) (ncols : nat) :
  let image_files := find_files C image_path extensions in
  let reply := queue_reply C image_path layer_names st in
  let n := Z.to_nat batch_size in
  decodable (fst reply) output0 n ncols ->
  n <= length image_files ->
  classification_queue_input C image_path layer_names batch_size num_classes
    (initial st)
  = (Ok tt,
     mk_world (snd reply)
       ([FindFiles image_path extensions; EnqueueImageFiles image_files;
         FeedForwardBatch layer_names None true]
          ++ flat_map (queue_step C image_files output0 ncols num_classes)
               (seq 0 n))).
Proof.
  intros image_files reply n [Hout (nrows & Hshape & Hrows & Hcols)] Hfiles.
  rewrite queue_run_unfold. cbv zeta. fold image_files reply.
  unfold list_getitem at 1. rewrite Hout, bind_lift_ok.
  rewrite (np_argmax_axis1_2d _ _ _ Hshape Hcols), bind_lift_ok.
  unfold range. fold n.
  rewrite for_each_ok
    with (ev := queue_step C image_files output0 ncols num_classes).
  - reflexivity.
  - intros i Hi w. apply in_seq in Hi. unfold queue_step.
    apply queue_display_ok; [lia|].
    apply class_index_decoded. lia.
Qed.

Lemma queue_run_short (image_path : string) (layer_names : list string)
    (batch_size num_classes : Z) (st : BS)
    (output0 : ndarray float) (ncols : nat) :
  let image_files := find_files C image_path extensions in
  let reply := queue_reply C image_path layer_names st in
  decodable (fst reply) output0 (length image_files) ncols ->
  length image_files < Z.to_nat batch_size ->
  classification_queue_input C image_path layer_names batch_size num_classes
    (initial st)
  = (Err IndexError,
     mk_world (snd reply)
       ([FindFiles image_path extensions; EnqueueImageFiles image_files;
         FeedForwardBatch layer_names None true]
          ++ flat_map (queue_step C image_files output0 ncols num_classes)
               (seq 0 (length image_files)))).
Proof.
  intros image_files reply [Hout (nrows & Hshape & Hrows & Hcols)] Hfiles.
  rewrite queue_run_unfold. cbv zeta. fold image_files reply.
  unfold list_getitem at 1. rewrite Hout, bind_lift_ok.
  rewrite (np_argmax_axis1_2d _ _ _ Hshape Hcols), bind_lift_ok.
  unfold range.
  replace (Z.to_nat batch_size)
    with (length image_files + (Z.to_nat batch_size - length image_files))
    by lia.
  rewrite seq_app, for_each_app. unfold bind at 1.
  rewrite for_each_ok
    with (ev := queue_step C image_files output0 ncols num_classes).
  - destruct (Z.to_nat batch_size - length image_files) as [|m] eqn:Hm; [lia|].
    cbn [seq for_each Nat.add]. unfold bind at 1.
    rewrite queue_display_out by lia. reflexivity.
  - intros i Hi w. apply in_seq in Hi. unfold queue_step.
    apply queue_display_ok; [lia|].
    apply class_index_decoded. lia.
Qed.

(** With fewer files than [batch_size] the streaming variant cannot
    finish, whatever the extractor answers. *)
Lemma queue_run_never_ok (image_path : string) (layer_names : list string)
    (batch_size num_classes : Z) (st : BS) (w' : world BS) :
  length (find_files C image_path extensions) < Z.to_nat batch_size ->
  classification_queue_input C image_path layer_names batch_size num_classes
    (initial st) <> (Ok tt, w').
Proof.
  intros Hfiles Hrun. rewrite queue_run_unfold in Hrun. cbv zeta in Hrun.
  unfold bind at 1 in Hrun. unfold lift at 1 in Hrun.
  destruct (list_getitem _ 0) as [output0|e]; [|discriminate].
  unfold bind at 1 in Hrun. unfold lift at 1 in Hrun.
  destruct (np_argmax_axis1 _) as [predictions|e]; [|discriminate].
  eapply for_each_ok_inv
    with (x := length (find_files C image_path extensions)) in Hrun.
  - destruct Hrun as (w1 & w2 & Hbody).
    rewrite queue_display_out in Hbody by lia. discriminate.
  - apply in_seq. lia.
Qed.

Lemma queue_run_one_row (image_path : string) (layer_names : list string)
    (batch_size num_classes : Z) (st : BS)
    (output0 : ndarray float) (ncols : nat) :
  let image_files := find_files C image_path extensions in
  let reply := queue_reply C image_path layer_names st in
  nth_error (layers (fst reply)) 0 = Some output0 ->
  shape output0 = [1; ncols] ->
  classification_queue_input C image_path layer_names batch_size num_classes
    (initial st)
  = (Err AxisError,
     mk_world (snd reply)
       [FindFiles image_path extensions; EnqueueImageFiles image_files;
        FeedForwardBatch layer_names None true]).
Proof.
  intros image_files reply Hout Hshape.
  rewrite queue_run_unfold. cbv zeta. fold image_files reply.
  unfold list_getitem at 1. rewrite Hout, bind_lift_ok.
  rewrite np_argmax_axis1_low_rank by (eapply np_squeeze_one_row; eassumption).
  now rewrite bind_lift_err.
Qed.

End Runs.

Lemma Forall_firstn_le {A} (P : A -> Prop) (l : list A) (a b : nat) :
  a <= b -> Forall P (firstn b l) -> Forall P (firstn a l).
Proof.
  intros Hab H.
  rewrite <- (firstn_skipn a (firstn b l)) in H.
  apply Forall_app in H. destruct H as [H _].
  rewrite firstn_firstn, Nat.min_l in H by lia. exact H.
Qed.

Section PlaceholderRuns.

Variable BS : Type.
Variable C : collaborators BS.

(** **** The explicit-batch variant *)

Lemma load_image_ok (image_files : list string) (n k : nat) (w : world BS) :
  k < n ->
  k < length image_files ->
  Forall (resized_ok C) (firstn (S k) image_files) ->
  load_image C image_files k (batch_after C image_files n k) w
  = (Ok (batch_after C image_files n (S k)),
     mk_world (extractor w)
       (trace w ++ [Imread (nth k image_files EmptyString)])).
Proof.
  intros Hk Hlen Hall. unfold load_image.
  rewrite (list_getitem_ok image_files k EmptyString Hlen), bind_lift_ok.
  unfold call_imread. rewrite bind_bind, bind_emit, bind_ret.
  fold (resized C (nth k image_files EmptyString)).
  rewrite setitem_batch; [reflexivity | exact Hk | | exact Hall].
  now apply nth_error_nth_eq.
Qed.

Lemma load_image_out (image_files : list string) (k : nat)
    (batch_images : ndarray float) (w : world BS) :
  length image_files <= k ->
  load_image C image_files k batch_images w = (Err IndexError, w).
Proof.
  intros Hk. unfold load_image.
  now rewrite (list_getitem_out image_files k Hk), bind_lift_err.
Qed.

Lemma load_loop_ok (image_files : list string) (n m k : nat) (w : world BS) :
  k + m <= n ->
  k + m <= length image_files ->
  Forall (resized_ok C) (firstn (k + m) image_files) ->
  for_fold (seq k m) (batch_after C image_files n k)
    (load_image C image_files) w
  = (Ok (batch_after C image_files n (k + m)),
     mk_world (extractor w)
       (trace w ++ map Imread (firstn m (skipn k image_files)))).
Proof.
  revert k w. induction m as [|m IH]; intros k w Hn Hlen Hall.
  - cbn [seq for_fold firstn map]. unfold ret.
    now rewrite Nat.add_0_r, world_eta.
  - cbn [seq for_fold]. unfold bind.
    rewrite load_image_ok; [|lia|lia|].
    + replace (k + S m) with (S k + m) in * by lia.
      rewrite IH by (assumption || lia).
      cbn [extractor trace]. rewrite <- app_assoc.
      rewrite (skipn_nth_error_cons image_files k
                 (nth k image_files EmptyString))
        by (apply nth_error_nth_eq; lia).
      reflexivity.
    + apply Forall_firstn_le with (b := k + S m); [lia | exact Hall].
Qed.

Lemma placeholder_display_ok (batch_images : ndarray float)
    (predictions : ndarray Z) (num_classes : Z) (i : nat)
    (slice : ndarray float) (ci : ndarray Z) (w : world BS) :
  getitem batch_images i = Ok slice ->
  class_index predictions i num_classes = Ok ci ->
  bind (lift (getitem batch_images i)) (fun slice =>
    let image := denormalize slice in
    bind (lift (class_index predictions i num_classes)) (fun ci =>
      display_imagenet_prediction image ci)) w
  = (Ok tt,
     mk_world (extractor w)
       (trace w ++ [DisplayImagenetPrediction (denormalize slice) ci])).
Proof.
  intros Hslice Hci. rewrite Hslice, bind_lift_ok. cbv zeta.
  now rewrite Hci, bind_lift_ok.
Qed.

(** The run up to the loading loop. *)
Lemma placeholder_run_unfold (image_path : string)
    (layer_names : list string) (batch_size num_classes : Z) (st : BS) :
  classification_placeholder_input C image_path layer_names batch_size
    num_classes (initial st)
  = let image_files := find_files C image_path extensions in
    bind (lift (np_zeros [batch_size; Z.of_nat (image_size C);
                          Z.of_nat (image_size C); 3%Z]))
      (fun batch_images =>
         bind (for_fold (range batch_size) batch_images
                 (load_image C image_files))
           (fun batch_images =>
              bind (call_feed_forward_batch C layer_names
                      (Some batch_images) true)
                (fun outputs =>
                   bind (lift (list_getitem (layers outputs) 0))
                     (fun output0 =>
                        bind (lift (np_argmax_axis1 (np_squeeze output0)))
                          (fun predictions =>
                             for_each (range batch_size) (fun i =>
                               bind (lift (getitem batch_images i))
                                 (fun slice =>
                                    let image := denormalize slice in
                                    bind (lift (class_index predictions i
                                                  num_classes))
                                      (fun ci =>
                                         display_imagenet_prediction
                                           image ci))))))))
      (mk_world st [FindFiles image_path extensions]).
Proof.
  unfold classification_placeholder_input, call_find_files.
  now rewrite bind_bind, bind_emit, bind_ret.
Qed.

(** The run up to the decoding step, when the batch can be loaded. *)
Lemma placeholder_run_loaded (image_path : string)
    (layer_names : list string) (batch_size num_classes : Z) (st : BS) :
  let image_files := find_files C image_path extensions in
  let n := Z.to_nat batch_size in
  let batch_images := placeholder_batch C image_path batch_size in
  let reply := placeholder_reply C image_path layer_names batch_size st in
  (0 <= batch_size)%Z ->
  n <= length image_files ->
  Forall (resized_ok C) (firstn n image_files) ->
  classification_placeholder_input C image_path layer_names batch_size
    num_classes (initial st)
  = bind (lift (list_getitem (layers (fst reply)) 0)) (fun output0 =>
      bind (lift (np_argmax_axis1 (np_squeeze output0))) (fun predictions =>
        for_each (range batch_size) (fun i =>
          bind (lift (getitem batch_images i)) (fun slice =>
            let image := denormalize slice in
            bind (lift (class_index predictions i num_classes)) (fun ci =>
              display_imagenet_prediction image ci)))))
      (mk_world (snd reply)
         (FindFiles image_path extensions
            :: map Imread (firstn n image_files)
            ++ [FeedForwardBatch layer_names (Some batch_images) true])).
Proof.
  intros image_files n batch_images reply HB Hfiles Hall.
  rewrite placeholder_run_unfold. cbv zeta. fold image_files.
  rewrite (np_zeros_batch BS C image_files batch_size HB), bind_lift_ok.
  fold n. unfold range. fold n.
  unfold bind at 1.
  rewrite (load_loop_ok image_files n n 0) by (assumption || lia).
  cbn [Nat.add skipn extractor trace app].
  unfold bind at 1, call_feed_forward_batch. cbn [extractor trace app].
  subst reply. unfold placeholder_reply, placeholder_batch in *.
  fold image_files n. subst batch_images. fold image_files n.
  destruct (feed_forward_batch C layer_names _ true st) as [outputs st'].
  reflexivity.
Qed.

Lemma placeholder_run_ok (image_path : string) (layer_names : list string)
    (batch_size num_classes : Z) (st : BS)
    (output0 : ndarray float) (ncols : nat) :
  let image_files := find_files C image_path extensions in
  let n := Z.to_nat batch_size in
  let batch_images := placeholder_batch C image_path batch_size in
  let reply := placeholder_reply C image_path layer_names batch_size st in
  (0 <= batch_size)%Z ->
  n <= length image_files ->
  Forall (resized_ok C) (firstn n image_files) ->
  decodable (fst reply) output0 n ncols ->
  classification_placeholder_input C image_path layer_names batch_size
    num_classes (initial st)
  = (Ok tt,
     mk_world (snd reply)
       (FindFiles image_path extensions
          :: map Imread (firstn n image_files)
          ++ [FeedForwardBatch layer_names (Some batch_images) true]
          ++ map (placeholder_step C image_files output0 ncols num_classes)
               (seq 0 n))).
Proof.
  intros image_files n batch_images reply HB Hfiles Hall
    [Hout (nrows & Hshape & Hrows & Hcols)].
  rewrite placeholder_run_loaded by assumption.
  cbv zeta. fold image_files n batch_images reply.
  unfold list_getitem at 1. rewrite Hout, bind_lift_ok.
  rewrite (np_argmax_axis1_2d _ _ _ Hshape Hcols), bind_lift_ok.
  unfold range. fold n.
  rewrite for_each_ok
    with (ev := fun i =>
                  [placeholder_step C image_files output0 ncols num_classes i]).
  - cbn [extractor trace]. rewrite flat_map_singleton.
    rewrite <- app_comm_cons, <- app_assoc. reflexivity.
  - intros i Hi w. apply in_seq in Hi. unfold placeholder_step.
    apply placeholder_display_ok.
    + subst batch_images. unfold placeholder_batch. fold image_files n.
      apply getitem_batch; [lia | | exact Hall].
      apply nth_error_nth_eq. lia.
    + apply class_index_decoded. lia.
Qed.

Lemma placeholder_run_one_row (image_path : string)
    (layer_names : list string) (batch_size num_classes : Z) (st : BS)
    (output0 : ndarray float) (ncols : nat) :
  let image_files := find_files C image_path extensions in
  let n := Z.to_nat batch_size in
  let batch_images := placeholder_batch C image_path batch_size in
  let reply := placeholder_reply C image_path layer_names batch_size st in
  (0 <= batch_size)%Z ->
  n <= length image_files ->
  Forall (resized_ok C) (firstn n image_files) ->
  nth_error (layers (fst reply)) 0 = Some output0 ->
  shape output0 = [1; ncols] ->
  classification_placeholder_input C image_path layer_names batch_size
    num_classes (initial st)
  = (Err AxisError,
     mk_world (snd reply)
       (FindFiles image_path extensions
          :: map Imread (firstn n image_files)
          ++ [FeedForwardBatch layer_names (Some batch_images) true])).
Proof.
  intros image_files n batch_images reply HB Hfiles Hall Hout Hshape.
  rewrite placeholder_run_loaded by assumption.
  cbv zeta. fold image_files n batch_images reply.
  unfold list_getitem at 1. rewrite Hout, bind_lift_ok.
  rewrite np_argmax_axis1_low_rank by (eapply np_squeeze_one_row; eassumption).
  now rewrite bind_lift_err.
Qed.

Lemma placeholder_run_short (image_path : string)
    (layer_names : list string) (batch_size num_classes : Z) (st : BS) :
  let image_files := find_files C image_path extensions in
  length image_files < Z.to_nat batch_size ->
  Forall (resized_ok C) image_files ->
  classification_placeholder_input C image_path layer_names batch_size
    num_classes (initial st)
  = (Err IndexError,
     mk_world st (FindFiles image_path extensions :: map Imread image_files)).
Proof.
  intros image_files Hfiles Hall.
  rewrite placeholder_run_unfold. cbv zeta. fold image_files.
  rewrite (np_zeros_batch BS C image_files batch_size) by lia.
  rewrite bind_lift_ok. unfold range.
  set (n := Z.to_nat batch_size) in *.
  replace (seq 0 n)
    with (seq 0 (length image_files) ++ seq (length image_files)
            (n - length image_files))
    by (rewrite <- seq_app; f_equal; lia).
  unfold bind at 1. rewrite for_fold_app. unfold bind at 1.
  rewrite (load_loop_ok image_files n (length image_files) 0);
    [| lia | lia | cbn [Nat.add]; now rewrite firstn_all].
  destruct (n - length image_files) as [|m] eqn:Hm; [lia|].
  cbn [seq for_fold Nat.add]. unfold bind at 1.
  rewrite load_image_out by lia.
  cbn [skipn extractor trace app]. now rewrite firstn_all.
Qed.

(** With fewer files than [batch_size] the explicit-batch variant cannot
    finish, whatever the collaborators answer. *)
Lemma placeholder_run_never_ok (image_path : string)
    (layer_names : list string) (batch_size num_classes : Z) (st : BS)
    (w' : world BS) :
  length (find_files C image_path extensions) < Z.to_nat batch_size ->
  classification_placeholder_input C image_path layer_names batch_size
    num_classes (initial st) <> (Ok tt, w').
Proof.
  intros Hfiles Hrun. rewrite placeholder_run_unfold in Hrun.
  cbv zeta in Hrun.
  unfold bind at 1 in Hrun. unfold lift at 1 in Hrun.
  destruct (np_zeros _) as [batch0|e]; [|discriminate].
  unfold bind at 1 in Hrun.
  destruct (for_fold _ _ _ _) as [[batch|e] w1] eqn:Hload; [|discriminate].
  eapply for_fold_ok_inv
    with (x := length (find_files C image_path extensions)) in Hload.
  - destruct Hload as (s1 & s2 & w2 & w3 & Hbody).
    rewrite load_image_out in Hbody by lia. discriminate.
  - apply in_seq. lia.
Qed.

End PlaceholderRuns.

(** *** Reading a trace *)

Lemma displays_app (t1 t2 : list event) :
  displays (t1 ++ t2) = displays t1 ++ displays t2.
Proof.
  induction t1 as [|ev t1 IH]; [reflexivity|].
  destruct ev; cbn [app displays]; now rewrite IH.
Qed.

Lemma imreads_app (t1 t2 : list event) :
  imreads (t1 ++ t2) = imreads t1 ++ imreads t2.
Proof.
  induction t1 as [|ev t1 IH]; [reflexivity|].
  destruct ev; cbn [app imreads]; now rewrite IH.
Qed.

Lemma displays_imreads (l : list string) : displays (map Imread l) = [].
Proof. induction l as [|f l IH]; [reflexivity | exact IH]. Qed.

Lemma imreads_map_Imread (l : list string) : imreads (map Imread l) = l.
Proof. induction l as [|f l IH]; [reflexivity | cbn; now rewrite IH]. Qed.

Section Traces.

Variable BS : Type.
Variable C : collaborators BS.

Lemma displays_queue_steps (image_files : list string)
    (output0 : ndarray float) (ncols : nat) (num_classes : Z)
    (l : list nat) :
  displays (flat_map (queue_step C image_files output0 ncols num_classes) l)
  = map (fun i => (imread C (nth i image_files EmptyString),
                   decoded output0 ncols num_classes i)) l.
Proof.
  induction l as [|i l IH]; [reflexivity|].
  cbn [flat_map map]. unfold queue_step at 1. cbn [app displays].
  now rewrite IH.
Qed.

Lemma displays_placeholder_steps (image_files : list string)
    (output0 : ndarray float) (ncols : nat) (num_classes : Z)
    (l : list nat) :
  displays (map (placeholder_step C image_files output0 ncols num_classes) l)
  = map (fun i =>
           (denormalize (normalize (resized C (nth i image_files EmptyString))),
            decoded output0 ncols num_classes i)) l.
Proof.
  induction l as [|i l IH]; [reflexivity|].
  cbn [map]. unfold placeholder_step at 1. cbn [displays].
  now rewrite IH.
Qed.

Lemma imreads_placeholder_steps (image_files : list string)
    (output0 : ndarray float) (ncols : nat) (num_classes : Z)
    (l : list nat) :
  imreads (map (placeholder_step C image_files output0 ncols num_classes) l)
  = [].
Proof. induction l as [|i l IH]; [reflexivity | exact IH]. Qed.

End Traces.

(* ================================================================= *)
(** ** The label shift *)

(** C3.  For every raw arg-max index [a], the decoded class index is [a]
    when [num_classes] is 1001 and [a + 1] when it is 1000; in particular
    index 0 decodes to 0 and to 1. *)
Theorem label_shift (predictions : list Z) (i : nat) (a : Z) :
  nth_error predictions i = Some a ->
  class_index (nd_vector predictions) i 1001 = Ok (nd_scalar a) /\
  class_index (nd_vector predictions) i 1000 = Ok (nd_scalar (a + 1)%Z) /\
  (a = 0%Z ->
   class_index (nd_vector predictions) i 1001 = Ok (nd_scalar 0%Z) /\
   class_index (nd_vector predictions) i 1000 = Ok (nd_scalar 1%Z)).
Proof.
  intros H.
  pose proof (class_index_vector predictions i a 1001 H) as H1.
  pose proof (class_index_vector predictions i a 1000 H) as H0.
  cbn [Z.eqb Pos.eqb] in H1, H0.
  repeat split; try assumption; subst a; assumption.
Qed.

(** Arg-max index 0. *)
Lemma label_shift_witness :
  class_index (nd_vector [0%Z; 7%Z]) 0 1001 = Ok (nd_scalar 0%Z) /\
  class_index (nd_vector [0%Z; 7%Z]) 0 1000 = Ok (nd_scalar 1%Z).
Proof.
  destruct (label_shift [0%Z; 7%Z] 0 0%Z eq_refl) as (_ & _ & H).
  exact (H eq_refl).
Defined.

(** C1, as the code has it.  For every [num_classes] other than 1001, be it
    1000 or a value outside {1000, 1001}, decoding produces the class index
    [a + 1]: the class count is not checked. *)
Theorem class_count_is_not_checked (predictions : list Z) (i : nat)
    (a num_classes : Z) :
  nth_error predictions i = Some a ->
  num_classes <> 1001%Z ->
  class_index (nd_vector predictions) i num_classes
  = Ok (nd_scalar (a + 1)%Z).
Proof.
  intros H Hnc. rewrite (class_index_vector predictions i a num_classes H).
  destruct (Z.eqb_spec num_classes 1001); [contradiction | reflexivity].
Qed.

(** Five classes, arg-max index 7. *)
Lemma class_count_is_not_checked_witness :
  class_index (nd_vector [0%Z; 7%Z]) 1 5 = Ok (nd_scalar 8%Z).
Proof.
  apply (class_count_is_not_checked [0%Z; 7%Z] 1 7%Z 5%Z eq_refl).
  discriminate.
Defined.

(** C1 as stated does not hold: with five classes, outside
    {1000, 1001}, index 0 is decoded to class 1 and a whole run of the
    streaming variant completes. *)
Lemma five_classes_are_decoded :
  5%Z <> 1000%Z /\ 5%Z <> 1001%Z /\
  class_index (nd_vector [0%Z; 7%Z]) 0 5 = Ok (nd_scalar 1%Z) /\
  (forall e, class_index (nd_vector [0%Z; 7%Z]) 0 5 <> Err e) /\
  fst (classification_queue_input (Stub.stub 3) "dir" ["logits"%string] 3 5
         (initial 0)) = Ok tt.
Proof.
  repeat split; try discriminate; reflexivity.
Qed.

(* ================================================================= *)
(** ** The pixel transforms *)

(** C5.  Normalization computes [(raw/255.0 - 0.5) * 2.0] on every sample,
    and on [uint8] samples every result lies in [-1.0, 1.0]. *)
Theorem normalize_formula_and_range (x : ndarray Z) :
  Forall is_uint8 (data x) ->
  shape (normalize x) = shape x /\
  data (normalize x) = map normalize_sample (data x) /\
  Forall (fun y => in_unit_range y = true) (data (normalize x)).
Proof.
  intros Hx. split; [apply normalize_shape|].
  split; [apply normalize_data|].
  rewrite normalize_data. apply Forall_map.
  eapply Forall_impl; [|exact Hx]. apply normalize_sample_range.
Qed.

(** The samples 5, 105 and 255. *)
Lemma normalize_formula_and_range_witness :
  Forall (fun y => in_unit_range y = true)
    (data (normalize (Stub.pixels "a.jpg"))).
Proof.
  apply (normalize_formula_and_range (Stub.pixels "a.jpg")).
  repeat constructor; discriminate.
Defined.

(** C4.  On every [uint8] tensor, normalization followed by
    denormalization gives each sample back within one intensity unit. *)
Theorem normalize_denormalize_round_trip (x : ndarray Z) :
  Forall is_uint8 (data x) ->
  shape (denormalize (normalize x)) = shape x /\
  Forall2 within_one (data (denormalize (normalize x))) (data x).
Proof.
  intros Hx. split; [reflexivity|].
  rewrite denormalize_data, normalize_data, map_map.
  induction Hx as [|v l Hv _ IH]; cbn [map]; constructor.
  - now apply round_trip_sample.
  - exact IH.
Qed.

(** The samples 5, 105 and 255 come back as 4, 105 and 255. *)
Lemma normalize_denormalize_round_trip_witness :
  Forall2 within_one
    (data (denormalize (normalize (Stub.pixels "a.jpg"))))
    (data (Stub.pixels "a.jpg")).
Proof.
  apply (normalize_denormalize_round_trip (Stub.pixels "a.jpg")).
  repeat constructor; discriminate.
Defined.

(* ================================================================= *)
(** ** The arg-max *)

(** C7.  Every row of the squeezed classification output is decoded to the
    index of its largest score, and to the lowest such index when the
    largest score occurs more than once. *)
Theorem argmax_is_first_maximum (output0 : ndarray float)
    (nrows ncols : nat) :
  shape (np_squeeze output0) = [nrows; ncols] ->
  0 < ncols ->
  exists predictions : list Z,
    predictions_of output0 = Ok (nd_vector predictions) /\
    length predictions = nrows /\
    forall i, i < nrows ->
      exists k,
        nth_error predictions i = Some (Z.of_nat k) /\
        k < ncols /\
        (forall j, j < ncols ->
           F.np_leb (get2 (np_squeeze output0) ncols i j)
             (get2 (np_squeeze output0) ncols i k) = true) /\
        (forall j, j < k ->
           F.np_leb (get2 (np_squeeze output0) ncols i k)
             (get2 (np_squeeze output0) ncols i j) = false).
Proof.
  intros Hshape Hcols.
  exists (map (fun i => Z.of_nat (argmax (row (np_squeeze output0) ncols i)))
            (seq 0 nrows)).
  split; [now apply np_argmax_axis1_2d|].
  split; [now rewrite length_map, length_seq|].
  intros i Hi.
  set (r := row (np_squeeze output0) ncols i).
  exists (argmax r).
  split.
  { exact (nth_error_map_seq
             (fun i => Z.of_nat (argmax (row (np_squeeze output0) ncols i)))
             nrows i Hi). }
  assert (Hlen : length r = ncols)
    by (unfold r, row; now rewrite length_map, length_seq).
  assert (Hnth : forall j, j < ncols ->
             nth j r S754_nan = get2 (np_squeeze output0) ncols i j).
  { intros j Hj. unfold r, row.
    rewrite (nth_indep _ S754_nan (get2 (np_squeeze output0) ncols i 0))
      by (rewrite length_map, length_seq; exact Hj).
    rewrite map_nth, seq_nth by exact Hj. reflexivity. }
  destruct (argmax_spec r) as (Hk & Hmax & Hfirst).
  { intros Hnil. rewrite Hnil in Hlen. simpl in Hlen. lia. }
  rewrite Hlen in Hk, Hmax.
  split; [exact Hk|]. split.
  - intros j Hj. rewrite <- !Hnth by assumption. now apply Hmax.
  - intros j Hj. rewrite <- !Hnth by lia. now apply Hfirst.
Qed.

(** Three rows of four scores, each with its largest score twice. *)
Lemma argmax_is_first_maximum_witness :
  exists predictions : list Z,
    predictions_of (Stub.scores 3) = Ok (nd_vector predictions) /\
    length predictions = 3 /\
    forall i, i < 3 ->
      exists k,
        nth_error predictions i = Some (Z.of_nat k) /\
        k < 4 /\
        (forall j, j < 4 ->
           F.np_leb (get2 (np_squeeze (Stub.scores 3)) 4 i j)
             (get2 (np_squeeze (Stub.scores 3)) 4 i k) = true) /\
        (forall j, j < k ->
           F.np_leb (get2 (np_squeeze (Stub.scores 3)) 4 i k)
             (get2 (np_squeeze (Stub.scores 3)) 4 i j) = false).
Proof.
  apply (argmax_is_first_maximum (Stub.scores 3) 3 4).
  - reflexivity.
  - lia.
Defined.

(* ================================================================= *)
(** ** The two variants *)

(** C2, as the code has it.  In the streaming variant a run that completes
    shows exactly [batch_size] results, and result [i] pairs the decoded
    prediction of row [i] with the image read from disk at
    [image_files[i]]; the images in the extractor's reply play no part. *)
Theorem queue_input_displays_files_read_from_disk
    (BS : Type) (C : collaborators BS)
    (image_path : string) (layer_names : list string)
    (batch_size num_classes : Z) (st : BS)
    (output0 : ndarray float) (ncols : nat) :
  let image_files := find_files C image_path extensions in
  let n := Z.to_nat batch_size in
  let run := classification_queue_input C image_path layer_names batch_size
               num_classes (initial st) in
  decodable (fst (queue_reply C image_path layer_names st)) output0 n ncols ->
  n <= length image_files ->
  fst run = Ok tt /\
  length (displays (trace (snd run))) = n /\
  displays (trace (snd run))
  = map (fun i => (imread C (nth i image_files EmptyString),
                   decoded output0 ncols num_classes i)) (seq 0 n) /\
  imreads (trace (snd run)) = firstn n image_files.
Proof.
  intros image_files n run Hdec Hfiles. subst run.
  rewrite (queue_run_ok BS C image_path layer_names batch_size num_classes st
             output0 ncols Hdec Hfiles).
  fold image_files n. cbn [fst snd trace].
  rewrite displays_app, imreads_app, displays_queue_steps.
  cbn [displays imreads app].
  split; [reflexivity|].
  split; [now rewrite length_map, length_seq|].
  split; [reflexivity|].
  change (firstn n image_files) with (firstn n (skipn 0 image_files)).
  assert (Hgen : forall m k, k + m <= length image_files ->
            imreads (flat_map (queue_step C image_files output0 ncols num_classes)
                       (seq k m))
            = firstn m (skipn k image_files)).
  { induction m as [|m IH]; intros k Hk; [reflexivity|].
    cbn [seq flat_map]. unfold queue_step at 1. cbn [app imreads].
    rewrite IH by lia.
    rewrite (skipn_nth_error_cons image_files k (nth k image_files EmptyString))
      by (apply nth_error_nth_eq; lia).
    reflexivity. }
  now rewrite Hgen by lia.
Qed.

(** Three files, [batch_size = 3], 1001 classes. *)
Lemma queue_input_displays_files_read_from_disk_witness :
  displays (trace (snd (classification_queue_input (Stub.stub 3) "dir"
                          ["logits"%string] 3 1001 (initial 0))))
  = [(Stub.pixels "a.jpg", nd_scalar 0%Z);
     (Stub.pixels "bb.jpg", nd_scalar 1%Z);
     (Stub.pixels "ccc.png", nd_scalar 2%Z)].
Proof.
  refine (proj1 (proj2 (proj2
    (queue_input_displays_files_read_from_disk nat (Stub.stub 3) "dir"
       ["logits"%string] 3 1001 0 (Stub.scores 3) 4 _ _)))).
  - split; [reflexivity|]. exists 3. repeat split; repeat constructor.
  - repeat constructor.
Defined.

(** C2 as stated does not hold: the extractor reports images whose
    samples are all 9, and the first result shows the image read from
    ["a.jpg"] instead. *)
Lemma queue_input_ignores_fetched_images :
  let C := Stub.stub 3 in
  let run := classification_queue_input C "dir" ["logits"%string] 3 1001
               (initial 0) in
  images (fst (queue_reply C "dir" ["logits"%string] 0))
  = Some (Stub.echoed 3) /\
  getitem (Stub.echoed 3) 0 = Ok (mk_ndarray [1; 1; 3] [9%Z; 9%Z; 9%Z]) /\
  nth_error (displays (trace (snd run))) 0
  = Some (mk_ndarray [1; 1; 3] [5%Z; 105%Z; 255%Z], nd_scalar 0%Z) /\
  mk_ndarray [1; 1; 3] [5%Z; 105%Z; 255%Z]
  <> mk_ndarray [1; 1; 3] [9%Z; 9%Z; 9%Z].
Proof.
  repeat split; try reflexivity. discriminate.
Qed.

(** C6.  In both variants, for every [i] below [batch_size], result [i]
    shows the image that comes from [image_files[i]] with the class decoded
    from row [i] of the classification output. *)
Theorem positional_correspondence
    (BS : Type) (C : collaborators BS)
    (image_path : string) (layer_names : list string)
    (batch_size num_classes : Z) (st : BS)
    (out_q out_p : ndarray float) (ncols_q ncols_p : nat) :
  let image_files := find_files C image_path extensions in
  let n := Z.to_nat batch_size in
  let run_q := classification_queue_input C image_path layer_names batch_size
                 num_classes (initial st) in
  let run_p := classification_placeholder_input C image_path layer_names
                 batch_size num_classes (initial st) in
  (0 <= batch_size)%Z ->
  n <= length image_files ->
  Forall (resized_ok C) (firstn n image_files) ->
  decodable (fst (queue_reply C image_path layer_names st)) out_q n ncols_q ->
  decodable (fst (placeholder_reply C image_path layer_names batch_size st))
    out_p n ncols_p ->
  fst run_q = Ok tt /\ fst run_p = Ok tt /\
  forall i, i < n ->
    nth_error (displays (trace (snd run_q))) i
    = Some (imread C (nth i image_files EmptyString),
            decoded out_q ncols_q num_classes i) /\
    nth_error (displays (trace (snd run_p))) i
    = Some (denormalize
              (normalize (resized C (nth i image_files EmptyString))),
            decoded out_p ncols_p num_classes i).
Proof.
  intros image_files n run_q run_p HB Hfiles Hall Hq Hp. subst run_q run_p.
  rewrite (queue_run_ok BS C image_path layer_names batch_size num_classes st
             out_q ncols_q Hq Hfiles).
  rewrite (placeholder_run_ok BS C image_path layer_names batch_size
             num_classes st out_p ncols_p HB Hfiles Hall Hp).
  fold image_files n. cbn [fst snd trace].
  split; [reflexivity|]. split; [reflexivity|].
  intros i Hi. split.
  - rewrite displays_app, displays_queue_steps. cbn [displays app].
    exact (nth_error_map_seq
             (fun i => (imread C (nth i image_files EmptyString),
                        decoded out_q ncols_q num_classes i)) n i Hi).
  - cbn [displays]. rewrite !displays_app, displays_imreads.
    cbn [displays app]. rewrite displays_placeholder_steps.
    exact (nth_error_map_seq
             (fun i => (denormalize
                          (normalize (resized C (nth i image_files EmptyString))),
                        decoded out_p ncols_p num_classes i)) n i Hi).
Qed.

(** The second result of each variant, for three files and 1000 classes. *)
Lemma positional_correspondence_witness :
  nth_error
    (displays (trace (snd (classification_queue_input (Stub.stub 3) "dir"
                             ["logits"%string] 3 1000 (initial 0))))) 1
  = Some (Stub.pixels "bb.jpg", nd_scalar 2%Z) /\
  nth_error
    (displays (trace (snd (classification_placeholder_input (Stub.stub 3) "dir"
                             ["logits"%string] 3 1000 (initial 0))))) 1
  = Some (mk_ndarray [1; 1; 3] [5%Z; 106%Z; 255%Z], nd_scalar 2%Z).
Proof.
  refine (proj2 (proj2
    (positional_correspondence nat (Stub.stub 3) "dir" ["logits"%string]
       3 1000 0 (Stub.scores 3) (Stub.scores 3) 4 4 _ _ _ _ _)) 1 _).
  - discriminate.
  - repeat constructor.
  - repeat constructor.
  - split; [reflexivity|]. exists 3. repeat split; repeat constructor.
  - split; [reflexivity|]. exists 3. repeat split; repeat constructor.
  - repeat constructor.
Defined.

Lemma round_trip_within_one (x : ndarray Z) :
  Forall is_uint8 (data x) ->
  Forall2 within_one (data (denormalize (normalize x))) (data x).
Proof.
  intros Hx. rewrite denormalize_data, normalize_data, map_map.
  induction Hx as [|v l Hv _ IH]; cbn [map]; constructor;
    [now apply round_trip_sample | exact IH].
Qed.

(** C8.  In the explicit-batch variant every file is read once, before the
    forward pass, and nothing is read after it.  Result [i] shows slice [i]
    of the very batch that was fed, which holds the normalized samples of
    the resized image of file [i], taken through line 106: each sample [x]
    of the slice is shown as [((x/2.0)+0.5)*255.0] cut to [uint8], so that
    the image shown has the shape of the resized image and, that image
    being [uint8], each of its samples within one unit of it. *)
Theorem placeholder_input_displays_the_fed_batch
    (BS : Type) (C : collaborators BS)
    (image_path : string) (layer_names : list string)
    (batch_size num_classes : Z) (st : BS)
    (output0 : ndarray float) (ncols : nat) :
  let image_files := find_files C image_path extensions in
  let n := Z.to_nat batch_size in
  let batch_images := placeholder_batch C image_path batch_size in
  let run := classification_placeholder_input C image_path layer_names
               batch_size num_classes (initial st) in
  (0 <= batch_size)%Z ->
  n <= length image_files ->
  Forall (resized_ok C) (firstn n image_files) ->
  decodable (fst (placeholder_reply C image_path layer_names batch_size st))
    output0 n ncols ->
  fst run = Ok tt /\
  exists before after,
    trace (snd run)
    = before ++ FeedForwardBatch layer_names (Some batch_images) true :: after /\
    imreads before = firstn n image_files /\
    displays before = [] /\
    imreads after = [] /\
    length (displays after) = n /\
    forall i, i < n ->
      let image := resized C (nth i image_files EmptyString) in
      exists slice shown,
        getitem batch_images i = Ok slice /\
        shape slice = shape image /\
        data slice = map normalize_sample (data image) /\
        nth_error (displays after) i
        = Some (shown, decoded output0 ncols num_classes i) /\
        shown = denormalize slice /\
        shape shown = shape image /\
        data shown = map denormalize_sample (data slice) /\
        (Forall is_uint8 (data image) ->
         Forall2 within_one (data shown) (data image)).
Proof.
  intros image_files n batch_images run HB Hfiles Hall Hdec. subst run.
  rewrite (placeholder_run_ok BS C image_path layer_names batch_size
             num_classes st output0 ncols HB Hfiles Hall Hdec).
  fold image_files n batch_images. cbn [fst snd trace].
  split; [reflexivity|].
  exists (FindFiles image_path extensions :: map Imread (firstn n image_files)),
    (map (placeholder_step C image_files output0 ncols num_classes) (seq 0 n)).
  split; [now rewrite <- app_comm_cons|].
  cbn [imreads displays].
  split; [apply imreads_map_Imread|].
  split; [apply displays_imreads|].
  split; [apply imreads_placeholder_steps|].
  rewrite displays_placeholder_steps.
  split; [now rewrite length_map, length_seq|].
  intros i Hi. set (image := resized C (nth i image_files EmptyString)).
  exists (normalize image), (denormalize (normalize image)).
  split.
  { subst batch_images image. unfold placeholder_batch. fold image_files n.
    apply getitem_batch; [exact Hi | | exact Hall].
    apply nth_error_nth_eq. lia. }
  split; [apply normalize_shape|].
  split; [apply normalize_data|].
  split.
  { exact (nth_error_map_seq
             (fun i => (denormalize
                          (normalize (resized C (nth i image_files EmptyString))),
                        decoded output0 ncols num_classes i)) n i Hi). }
  split; [reflexivity|].
  split; [reflexivity|].
  split; [apply denormalize_data|].
  apply round_trip_within_one.
Qed.

(** Three files, [batch_size = 3]: the second result. *)
Lemma placeholder_input_displays_the_fed_batch_witness :
  fst (classification_placeholder_input (Stub.stub 3) "dir" ["logits"%string]
         3 1001 (initial 0)) = Ok tt /\
  exists shown,
    nth_error
      (displays (trace (snd (classification_placeholder_input (Stub.stub 3)
                               "dir" ["logits"%string] 3 1001 (initial 0)))))
      1
    = Some (shown, nd_scalar 1%Z) /\
    shape shown = [1; 1; 3] /\
    data shown = [5%Z; 106%Z; 255%Z] /\
    Forall2 within_one (data shown) (data (Stub.pixels "bb.jpg")).
Proof.
  destruct (placeholder_input_displays_the_fed_batch nat (Stub.stub 3) "dir"
              ["logits"%string] 3 1001 0 (Stub.scores 3) 4)
    as (Hok & before & after & Htrace & _ & Hbefore & _ & _ & Hresults).
  - discriminate.
  - repeat constructor.
  - repeat constructor.
  - split; [reflexivity|]. exists 3. repeat split; repeat constructor.
  - split; [exact Hok|].
    destruct (Hresults 1) as
      (slice & shown & _ & _ & Hslice & Hnth & _ & Hshape & Hdata & Hnear).
    + repeat constructor.
    + exists shown.
      split.
      { rewrite Htrace, displays_app, Hbefore. exact Hnth. }
      split; [exact Hshape|].
      split; [rewrite Hdata, Hslice; reflexivity|].
      apply Hnear. repeat constructor; discriminate.
Defined.

(** C9.  When there are fewer image files than [batch_size], the list
    access at the first missing index is out of range, neither variant can
    complete, and what a well-formed run ends with is that [IndexError]:
    the explicit-batch variant in its loading loop, before any forward
    pass, and the streaming variant in its display loop, after the results
    of the files there are. *)
Theorem too_few_image_files
    (BS : Type) (C : collaborators BS)
    (image_path : string) (layer_names : list string)
    (batch_size num_classes : Z) (st : BS) :
  let image_files := find_files C image_path extensions in
  let run_q := classification_queue_input C image_path layer_names batch_size
                 num_classes (initial st) in
  let run_p := classification_placeholder_input C image_path layer_names
                 batch_size num_classes (initial st) in
  (Z.of_nat (length image_files) < batch_size)%Z ->
  In (length image_files) (range batch_size) /\
  list_getitem image_files (length image_files) = Err IndexError /\
  fst run_q <> Ok tt /\
  fst run_p <> Ok tt /\
  (Forall (resized_ok C) image_files ->
   run_p = (Err IndexError,
            mk_world st
              (FindFiles image_path extensions :: map Imread image_files))) /\
  (forall output0 ncols,
      decodable (fst (queue_reply C image_path layer_names st)) output0
        (length image_files) ncols ->
      fst run_q = Err IndexError /\
      displays (trace (snd run_q))
      = map (fun i => (imread C (nth i image_files EmptyString),
                       decoded output0 ncols num_classes i))
          (seq 0 (length image_files))).
Proof.
  intros image_files run_q run_p Hfew.
  assert (Hlt : length image_files < Z.to_nat batch_size) by lia.
  split; [apply in_seq; lia|].
  split; [now apply list_getitem_out|].
  split.
  { intros Hok. subst run_q.
    destruct (classification_queue_input _ _ _ _ _ _) as [r w'] eqn:Hrun.
    cbn [fst] in Hok. subst r.
    now apply (queue_run_never_ok BS C image_path layer_names batch_size
                 num_classes st w' Hlt). }
  split.
  { intros Hok. subst run_p.
    destruct (classification_placeholder_input _ _ _ _ _ _) as [r w'] eqn:Hrun.
    cbn [fst] in Hok. subst r.
    now apply (placeholder_run_never_ok BS C image_path layer_names batch_size
                 num_classes st w' Hlt). }
  split.
  { intros Hall. now apply placeholder_run_short. }
  intros output0 ncols Hdec. subst run_q.
  rewrite (queue_run_short BS C image_path layer_names batch_size num_classes
             st output0 ncols Hdec Hlt).
  fold image_files. cbn [fst snd trace].
  split; [reflexivity|].
  rewrite displays_app, displays_queue_steps. reflexivity.
Qed.

(** Three files and [batch_size = 5]. *)
Lemma too_few_image_files_witness :
  list_getitem Stub.files 3 = Err IndexError /\
  classification_placeholder_input (Stub.stub 5) "dir" ["logits"%string]
    5 1001 (initial 0)
  = (Err IndexError,
     mk_world 0 (FindFiles "dir" extensions :: map Imread Stub.files)) /\
  fst (classification_queue_input (Stub.stub 5) "dir" ["logits"%string] 5 1001
         (initial 0)) = Err IndexError /\
  length (displays (trace (snd (classification_queue_input (Stub.stub 5) "dir"
                                  ["logits"%string] 5 1001 (initial 0))))) = 3.
Proof.
  destruct (too_few_image_files nat (Stub.stub 5) "dir" ["logits"%string]
              5 1001 0) as (_ & H1 & _ & _ & Hp & Hq).
  - reflexivity.
  - split; [exact H1|]. split.
    + apply Hp. repeat constructor.
    + destruct (Hq (Stub.scores 5) 4) as [Hq1 Hq2].
      * split; [reflexivity|]. exists 5. repeat split; repeat constructor.
      * split; [exact Hq1|]. rewrite Hq2. reflexivity.
Defined.

(** C10.  With [batch_size = 1] and a classification output of one row,
    [np.squeeze] leaves at most one axis, the arg-max over axis 1 raises,
    and both variants end there without showing any result. *)
Theorem batch_size_one_fails_at_decoding
    (BS : Type) (C : collaborators BS)
    (image_path : string) (layer_names : list string)
    (num_classes : Z) (st : BS)
    (out_q out_p : ndarray float) (ncols_q ncols_p : nat) :
  let image_files := find_files C image_path extensions in
  let run_q := classification_queue_input C image_path layer_names 1
                 num_classes (initial st) in
  let run_p := classification_placeholder_input C image_path layer_names 1
                 num_classes (initial st) in
  nth_error (layers (fst (queue_reply C image_path layer_names st))) 0
  = Some out_q ->
  shape out_q = [1; ncols_q] ->
  1 <= length image_files ->
  resized_ok C (nth 0 image_files EmptyString) ->
  nth_error (layers (fst (placeholder_reply C image_path layer_names 1 st))) 0
  = Some out_p ->
  shape out_p = [1; ncols_p] ->
  length (shape (np_squeeze out_q)) <= 1 /\
  length (shape (np_squeeze out_p)) <= 1 /\
  predictions_of out_q = Err AxisError /\
  predictions_of out_p = Err AxisError /\
  fst run_q = Err AxisError /\ displays (trace (snd run_q)) = [] /\
  fst run_p = Err AxisError /\ displays (trace (snd run_p)) = [].
Proof.
  intros image_files run_q run_p Hq Hsq Hfiles Hres Hp Hsp.
  pose proof (np_squeeze_one_row out_q ncols_q Hsq) as Hrq.
  pose proof (np_squeeze_one_row out_p ncols_p Hsp) as Hrp.
  split; [lia|]. split; [lia|].
  split; [now apply np_argmax_axis1_low_rank|].
  split; [now apply np_argmax_axis1_low_rank|].
  subst run_q run_p.
  rewrite (queue_run_one_row BS C image_path layer_names 1 num_classes st
             out_q ncols_q Hq Hsq).
  assert (Hall : Forall (resized_ok C) (firstn (Z.to_nat 1) image_files)).
  { fold image_files in Hfiles, Hres.
    destruct image_files as [|f l]; [simpl in Hfiles; lia|].
    cbn. constructor; [exact Hres | constructor]. }
  rewrite (placeholder_run_one_row BS C image_path layer_names 1 num_classes
             st out_p ncols_p) by (assumption || lia).
  cbn [fst snd trace displays].
  rewrite displays_app, displays_imreads.
  repeat split; reflexivity.
Qed.

(** A reply of shape 1 x 4. *)
Lemma batch_size_one_fails_at_decoding_witness :
  fst (classification_queue_input Stub.stub_one_row "dir" ["logits"%string] 1
         1001 (initial 0)) = Err AxisError /\
  fst (classification_placeholder_input Stub.stub_one_row "dir"
         ["logits"%string] 1 1001 (initial 0)) = Err AxisError.
Proof.
  destruct (batch_size_one_fails_at_decoding nat Stub.stub_one_row "dir"
              ["logits"%string] 1001 0 Stub.one_row Stub.one_row 4 4)
    as (_ & _ & _ & _ & H1 & _ & H2 & _).
  - reflexivity.
  - reflexivity.
  - repeat constructor.
  - split; reflexivity.
  - reflexivity.
  - reflexivity.
  - exact (conj H1 H2).
Defined.

(* ================================================================= *)
(** ** More on the pixel transforms *)

Lemma round_trip_sample_exact (v : Z) :
  is_uint8 v ->
  denormalize_sample (normalize_sample v)
  = if Z.leb 1 v && Z.leb v 63 then (v - 1)%Z else v.
Proof.
  intros H. apply is_uint8_in in H.
  assert (Hall : forallb
                   (fun v => Z.eqb (denormalize_sample (normalize_sample v))
                               (if Z.leb 1 v && Z.leb v 63 then (v - 1)%Z else v))
                   all_uint8 = true) by (vm_compute; reflexivity).
  rewrite forallb_forall in Hall. apply Z.eqb_eq. now apply Hall.
Qed.

(** X1.  What the round trip does to a [uint8] tensor, exactly: the samples
    1 to 63 come back one unit lower, every other sample comes back as it
    was; so no sample comes back higher. *)
Theorem round_trip_lowers_dark_samples (x : ndarray Z) :
  Forall is_uint8 (data x) ->
  data (denormalize (normalize x))
  = map (fun v => if Z.leb 1 v && Z.leb v 63 then (v - 1)%Z else v) (data x) /\
  Forall2 Z.le (data (denormalize (normalize x))) (data x).
Proof.
  intros Hx. rewrite denormalize_data, normalize_data, map_map.
  split.
  - apply map_ext_in. intros v Hv. apply round_trip_sample_exact.
    rewrite Forall_forall in Hx. now apply Hx.
  - induction Hx as [|v l Hv _ IH]; cbn [map]; constructor; [|exact IH].
    rewrite (round_trip_sample_exact v Hv).
    destruct (Z.leb 1 v && Z.leb v 63); lia.
Qed.

(** The samples 5, 105 and 255. *)
Lemma round_trip_lowers_dark_samples_witness :
  data (denormalize (normalize (Stub.pixels "a.jpg"))) = [4%Z; 105%Z; 255%Z].
Proof.
  refine (proj1 (round_trip_lowers_dark_samples (Stub.pixels "a.jpg") _)).
  repeat constructor; discriminate.
Defined.

(** The table of the 256 normalized values is increasing. *)
Lemma normalized_table_increasing :
  (fun table =>
     forallb (fun p : Z * float =>
                forallb (fun q : Z * float =>
                           implb (Z.ltb (fst p) (fst q))
                             (SFltb (snd p) (snd q)))
                  table)
       table)
    (map (fun v => (v, normalize_sample v)) all_uint8)
  = true.
Proof. vm_compute. reflexivity. Qed.

(** X2.  Normalization is strictly increasing on [uint8] samples, so that
    no two intensities are fed as the same number, and it reaches both ends
    of its range: 0 goes to -1.0 and 255 to 1.0. *)
Theorem normalize_is_strictly_increasing (v w : Z) :
  is_uint8 v -> is_uint8 w -> (v < w)%Z ->
  SFltb (normalize_sample v) (normalize_sample w) = true /\
  normalize_sample v <> normalize_sample w /\
  normalize_sample 0 = SFopp (F.f32_of_f64 F.py_1_0) /\
  normalize_sample 255 = F.f32_of_f64 F.py_1_0.
Proof.
  intros Hv Hw Hlt.
  pose proof (normalized_table_increasing) as Hall.
  rewrite forallb_forall in Hall.
  specialize (Hall (v, normalize_sample v)
                (in_map (fun v => (v, normalize_sample v)) all_uint8 v
                   (is_uint8_in v Hv))).
  rewrite forallb_forall in Hall.
  specialize (Hall (w, normalize_sample w)
                (in_map (fun v => (v, normalize_sample v)) all_uint8 w
                   (is_uint8_in w Hw))).
  cbn [fst snd] in Hall.
  apply Z.ltb_lt in Hlt. rewrite Hlt in Hall. cbn [implb] in Hall.
  split; [exact Hall|]. split; [|split; reflexivity].
  intros Heq. rewrite Heq in Hall.
  unfold SFltb in Hall.
  destruct (normalize_sample w) as [[]|[]| |[] m e]; cbn in Hall;
    try discriminate;
    change (Pos.compare_cont Eq m m) with (Pos.compare m m) in Hall;
    rewrite Z.compare_refl, Pos.compare_refl in Hall; discriminate.
Qed.

(** The samples 5 and 105. *)
Lemma normalize_is_strictly_increasing_witness :
  SFltb (normalize_sample 5) (normalize_sample 105) = true.
Proof.
  refine (proj1 (normalize_is_strictly_increasing 5 105 _ _ _));
    repeat constructor; discriminate.
Defined.

(* ================================================================= *)
(** ** More on decoding *)

Lemma row_length (a : ndarray float) (ncols i : nat) :
  length (row a ncols i) = ncols.
Proof. unfold row. now rewrite length_map, length_seq. Qed.

Lemma argmax_row_bound (a : ndarray float) (ncols i : nat) :
  0 < ncols -> argmax (row a ncols i) < ncols.
Proof.
  intros Hc. destruct (argmax_spec (row a ncols i)) as (Hk & _).
  - intros Hnil. pose proof (row_length a ncols i) as Hlen.
    rewrite Hnil in Hlen. simpl in Hlen. lia.
  - now rewrite row_length in Hk.
Qed.

(** X3.  Decoding an output of [nrows] rows and [ncols] columns: it raises
    [AxisError] when either axis has length one, [ValueError] when there is
    no column, and otherwise gives one index per row, each below
    [ncols]. *)
Theorem decoding_of_a_matrix (output0 : ndarray float) (nrows ncols : nat) :
  shape output0 = [nrows; ncols] ->
  (nrows = 1 \/ ncols = 1 -> predictions_of output0 = Err AxisError) /\
  (nrows <> 1 -> ncols = 0 -> predictions_of output0 = Err ValueError) /\
  (nrows <> 1 -> 2 <= ncols ->
   exists predictions,
     predictions_of output0 = Ok (nd_vector predictions) /\
     length predictions = nrows /\
     Forall (fun k => (0 <= k < Z.of_nat ncols)%Z) predictions).
Proof.
  intros Hshape. unfold predictions_of.
  assert (Hsq : shape (np_squeeze output0)
                = filter (fun d => negb (Nat.eqb d 1)) [nrows; ncols])
    by (unfold np_squeeze; cbn [shape]; now rewrite Hshape).
  cbn [filter] in Hsq.
  split; [|split].
  - intros Hone. apply np_argmax_axis1_low_rank. rewrite Hsq.
    destruct Hone as [-> | ->]; cbn [Nat.eqb negb].
    + destruct (negb (Nat.eqb ncols 1)); simpl; lia.
    + destruct (negb (Nat.eqb nrows 1)); simpl; lia.
  - intros Hr ->. cbn [Nat.eqb negb] in Hsq.
    destruct (Nat.eqb_spec nrows 1) as [|_]; [contradiction|].
    cbn [negb] in Hsq. unfold np_argmax_axis1. now rewrite Hsq.
  - intros Hr Hc.
    destruct (Nat.eqb_spec nrows 1) as [|_]; [contradiction|].
    destruct (Nat.eqb_spec ncols 1) as [|_]; [lia|].
    cbn [negb] in Hsq.
    exists (map (fun i => Z.of_nat (argmax (row (np_squeeze output0) ncols i)))
              (seq 0 nrows)).
    split; [apply np_argmax_axis1_2d; [exact Hsq | lia]|].
    split; [now rewrite length_map, length_seq|].
    apply Forall_map, Forall_forall. intros i _.
    pose proof (argmax_row_bound (np_squeeze output0) ncols i). lia.
Qed.

(** Three rows of four scores. *)
Lemma decoding_of_a_matrix_witness :
  exists predictions,
    predictions_of (mk_ndarray [3; 4] (data (Stub.scores 3)))
    = Ok (nd_vector predictions) /\
    length predictions = 3 /\
    Forall (fun k => (0 <= k < 4)%Z) predictions.
Proof.
  refine (proj2 (proj2
    (decoding_of_a_matrix (mk_ndarray [3; 4] (data (Stub.scores 3))) 3 4
       eq_refl)) _ _).
  - discriminate.
  - repeat constructor.
Defined.

(** X4.  A NaN among the scores of a row wins: the arg-max is the index of
    the first NaN. *)
Theorem nan_score_wins (scores : list float) (j : nat) :
  j < length scores ->
  F.is_nan (nth j scores S754_nan) = true ->
  F.is_nan (nth (argmax scores) scores S754_nan) = true /\
  argmax scores <= j /\
  forall i, i < argmax scores -> F.is_nan (nth i scores S754_nan) = false.
Proof.
  intros Hj Hnan.
  destruct (argmax_spec scores) as (Hk & Hmax & Hfirst).
  { intros ->. simpl in Hj. lia. }
  assert (Hbest : F.is_nan (nth (argmax scores) scores S754_nan) = true).
  { specialize (Hmax j Hj). unfold F.np_leb in Hmax. rewrite Hnan in Hmax.
    cbn [negb andb] in Hmax. now rewrite orb_false_r in Hmax. }
  split; [exact Hbest|].
  assert (Hno : forall i, i < argmax scores ->
                          F.is_nan (nth i scores S754_nan) = false).
  { intros i Hi. specialize (Hfirst i Hi).
    destruct (F.is_nan (nth i scores S754_nan)) eqn:E; [|reflexivity].
    now rewrite np_leb_nan in Hfirst. }
  split; [|exact Hno].
  destruct (Nat.le_gt_cases (argmax scores) j) as [Hle|Hgt]; [exact Hle|].
  rewrite (Hno j Hgt) in Hnan. discriminate.
Qed.

(** The scores 1, NaN, 5. *)
Lemma nan_score_wins_witness :
  argmax [Stub.f32 1; S754_nan; Stub.f32 5] <= 1.
Proof.
  refine (proj1 (proj2
    (nan_score_wins [Stub.f32 1; S754_nan; Stub.f32 5] 1 _ _))).
  - repeat constructor.
  - reflexivity.
Defined.

(* ================================================================= *)
(** ** Assignment and lookup in an array *)

Lemma slice_in_prefix {A} (p x : list A) (j n : nat) :
  j * n + n <= length p ->
  firstn n (skipn (j * n) (p ++ x)) = firstn n (skipn (j * n) p).
Proof.
  intros H. rewrite skipn_app.
  replace (j * n - length p) with 0 by lia. cbn [skipn].
  rewrite firstn_app.
  replace (n - length (skipn (j * n) p)) with 0
    by (rewrite length_skipn; lia).
  cbn [firstn]. now rewrite app_nil_r.
Qed.

Lemma skipn_past_prefix {A} (p x : list A) (m : nat) :
  length p <= m -> skipn m (p ++ x) = skipn (m - length p) x.
Proof.
  intros H. rewrite skipn_app, skipn_all2 by exact H. reflexivity.
Qed.

(** X5.  [a[i] = v] followed by [a[i]] gives [v] back, leaves every other
    slice, the shape and the size of the array as they were. *)
Theorem setitem_then_getitem {A} (a v : ndarray A) (d0 : nat)
    (rest : list nat) (i : nat) :
  wf_ndarray a -> wf_ndarray v ->
  shape a = d0 :: rest -> shape v = rest -> i < d0 ->
  exists a',
    setitem a i v = Ok a' /\
    shape a' = shape a /\ wf_ndarray a' /\
    getitem a' i = Ok v /\
    forall j, j <> i -> getitem a' j = getitem a j.
Proof.
  intros Hwa Hwv Hsa Hsv Hi.
  unfold wf_ndarray in Hwa, Hwv. rewrite Hsa in Hwa. rewrite Hsv in Hwv.
  cbn [size_of fold_right] in Hwa. fold (size_of rest) in Hwa.
  set (n := size_of rest) in *.
  unfold setitem. rewrite Hsa.
  destruct (Nat.ltb_spec i d0) as [_|]; [|lia].
  rewrite (np_broadcast_to_same v rest Hsv)
    by (unfold wf_ndarray; now rewrite Hsv).
  fold n.
  eexists. split; [reflexivity|]. cbn [shape data].
  assert (Hp : length (firstn (i * n) (data a)) = i * n)
    by (rewrite firstn_length_le; [reflexivity | nia]).
  split; [reflexivity|]. split.
  { unfold wf_ndarray. cbn [shape data size_of fold_right].
    fold (size_of rest). fold n.
    rewrite !length_app, Hp, Hwv, length_skipn, Hwa. nia. }
  split.
  { unfold getitem. cbn [shape data].
    destruct (Nat.ltb_spec i d0) as [_|]; [|lia]. fold n.
    rewrite skipn_past_prefix by lia. rewrite Hp, Nat.sub_diag.
    cbn [skipn]. rewrite firstn_app, Hwv, Nat.sub_diag.
    cbn [firstn]. rewrite app_nil_r, <- Hwv, firstn_all.
    destruct v as [sv dv]. cbn [shape data] in *. now subst sv. }
  intros j Hj. unfold getitem. cbn [shape data]. rewrite Hsa.
  destruct (Nat.ltb_spec j d0) as [Hjd|]; [|reflexivity]. fold n.
  do 2 f_equal.
  destruct (Nat.lt_ge_cases j i) as [Hlt|Hge].
  - rewrite slice_in_prefix by (rewrite Hp; nia).
    rewrite <- (firstn_skipn (i * n) (data a)) at 2.
    rewrite slice_in_prefix by (rewrite Hp; nia). reflexivity.
  - assert (Hgt : i < j) by lia.
    rewrite skipn_past_prefix by (rewrite Hp; nia).
    rewrite Hp. rewrite skipn_past_prefix by (rewrite Hwv; nia).
    rewrite Hwv. rewrite skipn_skipn. f_equal. f_equal. nia.
Qed.

(** A batch of two one-pixel images, the second one assigned. *)
Lemma setitem_then_getitem_witness :
  exists a',
    setitem (mk_ndarray [2; 1; 1; 3] (repeat 0%Z 6)) 1 (Stub.pixels "a.jpg")
    = Ok a' /\
    getitem a' 1 = Ok (Stub.pixels "a.jpg").
Proof.
  destruct (setitem_then_getitem (mk_ndarray [2; 1; 1; 3] (repeat 0%Z 6))
              (Stub.pixels "a.jpg") 2 [1; 1; 3] 1)
    as (a' & H1 & _ & _ & H2 & _); try reflexivity.
  - repeat constructor.
  - exists a'. exact (conj H1 H2).
Defined.

(* ================================================================= *)
(** ** Runs at the edges *)

Lemma decoded_in_range (output0 : ndarray float) (ncols : nat)
    (num_classes : Z) (i : nat) :
  0 < ncols ->
  let lo := if Z.eqb num_classes 1001 then 0%Z else 1%Z in
  scalar_in lo (lo + Z.of_nat ncols - 1) (decoded output0 ncols num_classes i).
Proof.
  intros Hc lo. unfold decoded, scalar_in.
  pose proof (argmax_row_bound (np_squeeze output0) ncols i Hc) as Hk.
  eexists. split; [reflexivity|]. subst lo.
  destruct (Z.eqb num_classes 1001); lia.
Qed.

(** X6.  When the batch loads and the first output of each reply squeezes
    to two axes, at least [batch_size] rows by [ncols] columns, so that
    both variants complete, every class index shown is a scalar between 0
    and [ncols - 1] for 1001 classes, and between 1 and [ncols] otherwise:
    with 1000 classes the background class 0 is never shown.  (An output
    that squeezes to more axes is shown as arrays, see X19.) *)
Theorem class_indices_shown_are_in_range
    (BS : Type) (C : collaborators BS)
    (image_path : string) (layer_names : list string)
    (batch_size num_classes : Z) (st : BS)
    (out_q out_p : ndarray float) (ncols_q ncols_p : nat) :
  let image_files := find_files C image_path extensions in
  let n := Z.to_nat batch_size in
  let run_q := classification_queue_input C image_path layer_names batch_size
                 num_classes (initial st) in
  let run_p := classification_placeholder_input C image_path layer_names
                 batch_size num_classes (initial st) in
  let lo := if Z.eqb num_classes 1001 then 0%Z else 1%Z in
  (0 <= batch_size)%Z ->
  n <= length image_files ->
  Forall (resized_ok C) (firstn n image_files) ->
  decodable (fst (queue_reply C image_path layer_names st)) out_q n ncols_q ->
  decodable (fst (placeholder_reply C image_path layer_names batch_size st))
    out_p n ncols_p ->
  Forall (fun d => scalar_in lo (lo + Z.of_nat ncols_q - 1) (snd d))
    (displays (trace (snd run_q))) /\
  Forall (fun d => scalar_in lo (lo + Z.of_nat ncols_p - 1) (snd d))
    (displays (trace (snd run_p))).
Proof.
  intros image_files n run_q run_p lo HB Hfiles Hall Hq Hp. subst run_q run_p.
  rewrite (queue_run_ok BS C image_path layer_names batch_size num_classes st
             out_q ncols_q Hq Hfiles).
  rewrite (placeholder_run_ok BS C image_path layer_names batch_size
             num_classes st out_p ncols_p HB Hfiles Hall Hp).
  fold image_files n. cbn [fst snd trace].
  destruct Hq as (_ & _ & _ & _ & Hcq). destruct Hp as (_ & _ & _ & _ & Hcp).
  split.
  - rewrite displays_app, displays_queue_steps. cbn [displays app].
    apply Forall_map, Forall_forall. intros i _. cbn [snd].
    now apply decoded_in_range.
  - cbn [displays]. rewrite !displays_app, displays_imreads.
    cbn [displays app]. rewrite displays_placeholder_steps.
    apply Forall_map, Forall_forall. intros i _. cbn [snd].
    now apply decoded_in_range.
Qed.

(** Three files, four classes, [num_classes = 1000]: indices 1 to 4. *)
Lemma class_indices_shown_are_in_range_witness :
  Forall (fun d => scalar_in 1 4 (snd d))
    (displays (trace (snd (classification_queue_input (Stub.stub 3) "dir"
                             ["logits"%string] 3 1000 (initial 0))))).
Proof.
  refine (proj1
    (class_indices_shown_are_in_range nat (Stub.stub 3) "dir"
       ["logits"%string] 3 1000 0 (Stub.scores 3) (Stub.scores 3) 4 4
       _ _ _ _ _)).
  - discriminate.
  - repeat constructor.
  - repeat constructor.
  - split; [reflexivity|]. exists 3. repeat split; repeat constructor.
  - split; [reflexivity|]. exists 3. repeat split; repeat constructor.
Defined.

Section EdgeRuns.

Variable BS : Type.
Variable C : collaborators BS.

Lemma class_index_no_row (output0 : ndarray float) (nrows ncols i : nat)
    (num_classes : Z) :
  nrows <= i ->
  class_index
    (nd_vector
       (map (fun i => Z.of_nat (argmax (row (np_squeeze output0) ncols i)))
          (seq 0 nrows)))
    i num_classes
  = Err IndexError.
Proof.
  intros Hi. apply class_index_vector_out.
  now rewrite length_map, length_seq.
Qed.

Lemma queue_display_no_row (image_files : list string)
    (predictions : ndarray Z) (num_classes : Z) (i : nat) (w : world BS) :
  i < length image_files ->
  class_index predictions i num_classes = Err IndexError ->
  bind (lift (list_getitem image_files i)) (fun file =>
    bind (call_imread C file) (fun image =>
      bind (lift (class_index predictions i num_classes)) (fun ci =>
        display_imagenet_prediction image ci))) w
  = (Err IndexError,
     mk_world (extractor w)
       (trace w ++ [Imread (nth i image_files EmptyString)])).
Proof.
  intros Hi Hci.
  rewrite (list_getitem_ok image_files i EmptyString Hi), bind_lift_ok.
  unfold call_imread. rewrite bind_bind, bind_emit, bind_ret, Hci.
  now rewrite bind_lift_err.
Qed.

Lemma queue_run_few_rows (image_path : string) (layer_names : list string)
    (batch_size num_classes : Z) (st : BS)
    (output0 : ndarray float) (nrows ncols : nat) :
  let image_files := find_files C image_path extensions in
  let reply := queue_reply C image_path layer_names st in
  nth_error (layers (fst reply)) 0 = Some output0 ->
  shape (np_squeeze output0) = [nrows; ncols] ->
  0 < ncols ->
  nrows < Z.to_nat batch_size ->
  nrows < length image_files ->
  classification_queue_input C image_path layer_names batch_size num_classes
    (initial st)
  = (Err IndexError,
     mk_world (snd reply)
       ([FindFiles image_path extensions; EnqueueImageFiles image_files;
         FeedForwardBatch layer_names None true]
          ++ flat_map (queue_step C image_files output0 ncols num_classes)
               (seq 0 nrows)
          ++ [Imread (nth nrows image_files EmptyString)])).
Proof.
  intros image_files reply Hout Hshape Hcols Hrows Hfiles.
  rewrite queue_run_unfold. cbv zeta. fold image_files reply.
  unfold list_getitem at 1. rewrite Hout, bind_lift_ok.
  rewrite (np_argmax_axis1_2d _ _ _ Hshape Hcols), bind_lift_ok.
  unfold range.
  replace (Z.to_nat batch_size)
    with (nrows + (Z.to_nat batch_size - nrows)) by lia.
  rewrite seq_app, for_each_app. unfold bind at 1.
  rewrite for_each_ok
    with (ev := queue_step C image_files output0 ncols num_classes).
  - destruct (Z.to_nat batch_size - nrows) as [|m] eqn:Hm; [lia|].
    cbn [seq for_each Nat.add]. unfold bind at 1.
    rewrite queue_display_no_row;
      [| cbn [trace extractor]; lia | now apply class_index_no_row].
    cbn [extractor trace]. now rewrite <- app_assoc.
  - intros i Hi w. apply in_seq in Hi. unfold queue_step.
    apply queue_display_ok; [lia|].
    apply class_index_decoded. lia.
Qed.

Lemma placeholder_display_no_row (batch_images : ndarray float)
    (predictions : ndarray Z) (num_classes : Z) (i : nat)
    (slice : ndarray float) (w : world BS) :
  getitem batch_images i = Ok slice ->
  class_index predictions i num_classes = Err IndexError ->
  bind (lift (getitem batch_images i)) (fun slice =>
    let image := denormalize slice in
    bind (lift (class_index predictions i num_classes)) (fun ci =>
      display_imagenet_prediction image ci)) w
  = (Err IndexError, w).
Proof.
  intros Hslice Hci. rewrite Hslice, bind_lift_ok. cbv zeta.
  now rewrite Hci, bind_lift_err.
Qed.

Lemma placeholder_run_few_rows (image_path : string)
    (layer_names : list string) (batch_size num_classes : Z) (st : BS)
    (output0 : ndarray float) (nrows ncols : nat) :
  let image_files := find_files C image_path extensions in
  let n := Z.to_nat batch_size in
  let batch_images := placeholder_batch C image_path batch_size in
  let reply := placeholder_reply C image_path layer_names batch_size st in
  (0 <= batch_size)%Z ->
  n <= length image_files ->
  Forall (resized_ok C) (firstn n image_files) ->
  nth_error (layers (fst reply)) 0 = Some output0 ->
  shape (np_squeeze output0) = [nrows; ncols] ->
  0 < ncols ->
  nrows < n ->
  classification_placeholder_input C image_path layer_names batch_size
    num_classes (initial st)
  = (Err IndexError,
     mk_world (snd reply)
       (FindFiles image_path extensions
          :: map Imread (firstn n image_files)
          ++ [FeedForwardBatch layer_names (Some batch_images) true]
          ++ map (placeholder_step C image_files output0 ncols num_classes)
               (seq 0 nrows))).
Proof.
  intros image_files n batch_images reply HB Hfiles Hall Hout Hshape Hcols
    Hrows.
  rewrite placeholder_run_loaded by assumption.
  cbv zeta. fold image_files n batch_images reply.
  unfold list_getitem at 1. rewrite Hout, bind_lift_ok.
  rewrite (np_argmax_axis1_2d _ _ _ Hshape Hcols), bind_lift_ok.
  unfold range. fold n.
  replace n with (nrows + (n - nrows)) at 1 by lia.
  rewrite seq_app, for_each_app. unfold bind at 1.
  assert (Hslice : forall i, i < n ->
             getitem batch_images i
             = Ok (normalize (resized C (nth i image_files EmptyString)))).
  { intros i Hi. subst batch_images. unfold placeholder_batch.
    fold image_files n.
    apply getitem_batch; [exact Hi | | exact Hall].
    apply nth_error_nth_eq. lia. }
  rewrite for_each_ok
    with (ev := fun i =>
                  [placeholder_step C image_files output0 ncols num_classes i]).
  - destruct (n - nrows) as [|m] eqn:Hm; [lia|].
    cbn [seq for_each Nat.add]. unfold bind at 1.
    rewrite placeholder_display_no_row
      with (slice := normalize (resized C (nth nrows image_files EmptyString)));
      [| apply Hslice; lia | now apply class_index_no_row].
    cbn [extractor trace]. rewrite flat_map_singleton.
    rewrite <- app_comm_cons, <- app_assoc. reflexivity.
  - intros i Hi w. apply in_seq in Hi. unfold placeholder_step.
    apply placeholder_display_ok.
    + apply Hslice. lia.
    + apply class_index_decoded. lia.
Qed.

Lemma placeholder_run_negative (image_path : string)
    (layer_names : list string) (batch_size num_classes : Z) (st : BS) :
  (batch_size < 0)%Z ->
  classification_placeholder_input C image_path layer_names batch_size
    num_classes (initial st)
  = (Err ValueError, mk_world st [FindFiles image_path extensions]).
Proof.
  intros HB. rewrite placeholder_run_unfold. cbv zeta.
  unfold np_zeros. cbn [forallb].
  destruct (Z.leb_spec 0 batch_size); [lia|].
  cbn [andb]. now rewrite bind_lift_err.
Qed.

End EdgeRuns.

Lemma forward_passes_app (t1 t2 : list event) :
  forward_passes (t1 ++ t2) = forward_passes t1 ++ forward_passes t2.
Proof.
  induction t1 as [|ev t1 IH]; [reflexivity|].
  destruct ev; cbn [app forward_passes]; now rewrite IH.
Qed.

Lemma enqueues_app (t1 t2 : list event) :
  enqueues (t1 ++ t2) = enqueues t1 ++ enqueues t2.
Proof.
  induction t1 as [|ev t1 IH]; [reflexivity|].
  destruct ev; cbn [app enqueues]; now rewrite IH.
Qed.

Lemma searches_app (t1 t2 : list event) :
  searches (t1 ++ t2) = searches t1 ++ searches t2.
Proof.
  induction t1 as [|ev t1 IH]; [reflexivity|].
  destruct ev; cbn [app searches]; now rewrite IH.
Qed.

Lemma forward_passes_imreads (l : list string) :
  forward_passes (map Imread l) = [].
Proof. induction l as [|f l IH]; [reflexivity | exact IH]. Qed.

Section StepTraces.

Variable BS : Type.
Variable C : collaborators BS.

Lemma imreads_queue_steps (image_files : list string)
    (output0 : ndarray float) (ncols : nat) (num_classes : Z) (m k : nat) :
  k + m <= length image_files ->
  imreads (flat_map (queue_step C image_files output0 ncols num_classes)
             (seq k m))
  = firstn m (skipn k image_files).
Proof.
  revert k. induction m as [|m IH]; intros k Hk; [reflexivity|].
  cbn [seq flat_map]. unfold queue_step at 1. cbn [app imreads].
  rewrite IH by lia.
  rewrite (skipn_nth_error_cons image_files k (nth k image_files EmptyString))
    by (apply nth_error_nth_eq; lia).
  reflexivity.
Qed.

Lemma forward_passes_queue_steps (image_files : list string)
    (output0 : ndarray float) (ncols : nat) (num_classes : Z)
    (l : list nat) :
  forward_passes
    (flat_map (queue_step C image_files output0 ncols num_classes) l) = [].
Proof. induction l as [|i l IH]; [reflexivity | exact IH]. Qed.

Lemma forward_passes_placeholder_steps (image_files : list string)
    (output0 : ndarray float) (ncols : nat) (num_classes : Z)
    (l : list nat) :
  forward_passes
    (map (placeholder_step C image_files output0 ncols num_classes) l) = [].
Proof. induction l as [|i l IH]; [reflexivity | exact IH]. Qed.

End StepTraces.

(** X7.  When the first output squeezes to two axes, [nrows] rows by at
    least one column, with fewer rows than [batch_size] and fewer rows than
    there are files, the streaming variant shows one result per row, reads
    one image more, and raises [IndexError] at [predictions[nrows]] without
    showing it. *)
Theorem queue_input_with_too_few_rows
    (BS : Type) (C : collaborators BS)
    (image_path : string) (layer_names : list string)
    (batch_size num_classes : Z) (st : BS)
    (output0 : ndarray float) (nrows ncols : nat) :
  let image_files := find_files C image_path extensions in
  let run := classification_queue_input C image_path layer_names batch_size
               num_classes (initial st) in
  nth_error (layers (fst (queue_reply C image_path layer_names st))) 0
  = Some output0 ->
  shape (np_squeeze output0) = [nrows; ncols] ->
  0 < ncols ->
  nrows < Z.to_nat batch_size ->
  nrows < length image_files ->
  fst run = Err IndexError /\
  displays (trace (snd run))
  = map (fun i => (imread C (nth i image_files EmptyString),
                   decoded output0 ncols num_classes i)) (seq 0 nrows) /\
  imreads (trace (snd run)) = firstn (S nrows) image_files.
Proof.
  intros image_files run Hout Hshape Hcols Hrows Hfiles. subst run.
  rewrite (queue_run_few_rows BS C image_path layer_names batch_size
             num_classes st output0 nrows ncols Hout Hshape Hcols Hrows Hfiles).
  fold image_files. cbn [fst snd trace].
  split; [reflexivity|].
  rewrite !displays_app, !imreads_app, displays_queue_steps.
  rewrite (imreads_queue_steps BS C image_files output0 ncols num_classes
             nrows 0) by (cbn [Nat.add]; lia).
  cbn [displays imreads app skipn]. rewrite app_nil_r.
  split; [reflexivity|].
  symmetry. apply firstn_succ_nth_error. apply nth_error_nth_eq. exact Hfiles.
Qed.

(** Three files, [batch_size = 3], a reply of two rows. *)
Lemma queue_input_with_too_few_rows_witness :
  fst (classification_queue_input (Stub.stub 2) "dir" ["logits"%string] 3 1001
         (initial 0)) = Err IndexError /\
  length (displays (trace (snd (classification_queue_input (Stub.stub 2) "dir"
                                  ["logits"%string] 3 1001 (initial 0))))) = 2 /\
  imreads (trace (snd (classification_queue_input (Stub.stub 2) "dir"
                         ["logits"%string] 3 1001 (initial 0))))
  = Stub.files.
Proof.
  destruct (queue_input_with_too_few_rows nat (Stub.stub 2) "dir"
              ["logits"%string] 3 1001 0 (Stub.scores 2) 2 4)
    as (H1 & H2 & H3).
  - reflexivity.
  - reflexivity.
  - repeat constructor.
  - repeat constructor.
  - repeat constructor.
  - split; [exact H1|]. split; [now rewrite H2 | exact H3].
Defined.

(** X8.  When the batch loads and the first output squeezes to two axes,
    [nrows] rows by at least one column, with fewer rows than
    [batch_size], the explicit-batch variant, having loaded and fed the
    whole batch, shows one result per row and raises [IndexError] at
    [predictions[nrows]]. *)
Theorem placeholder_input_with_too_few_rows
    (BS : Type) (C : collaborators BS)
    (image_path : string) (layer_names : list string)
    (batch_size num_classes : Z) (st : BS)
    (output0 : ndarray float) (nrows ncols : nat) :
  let image_files := find_files C image_path extensions in
  let n := Z.to_nat batch_size in
  let run := classification_placeholder_input C image_path layer_names
               batch_size num_classes (initial st) in
  (0 <= batch_size)%Z ->
  n <= length image_files ->
  Forall (resized_ok C) (firstn n image_files) ->
  nth_error
    (layers (fst (placeholder_reply C image_path layer_names batch_size st))) 0
  = Some output0 ->
  shape (np_squeeze output0) = [nrows; ncols] ->
  0 < ncols ->
  nrows < n ->
  fst run = Err IndexError /\
  imreads (trace (snd run)) = firstn n image_files /\
  forward_passes (trace (snd run))
  = [Some (placeholder_batch C image_path batch_size)] /\
  displays (trace (snd run))
  = map (fun i =>
           (denormalize (normalize (resized C (nth i image_files EmptyString))),
            decoded output0 ncols num_classes i)) (seq 0 nrows).
Proof.
  intros image_files n run HB Hfiles Hall Hout Hshape Hcols Hrows. subst run.
  rewrite (placeholder_run_few_rows BS C image_path layer_names batch_size
             num_classes st output0 nrows ncols HB Hfiles Hall Hout Hshape
             Hcols Hrows).
  fold image_files n. cbn [fst snd trace imreads forward_passes displays].
  rewrite !imreads_app, !forward_passes_app, !displays_app.
  rewrite imreads_map_Imread, forward_passes_imreads, displays_imreads.
  rewrite imreads_placeholder_steps, forward_passes_placeholder_steps,
    displays_placeholder_steps.
  cbn [imreads forward_passes displays app]. rewrite app_nil_r.
  repeat split; reflexivity.
Qed.

(** Three files, [batch_size = 3], a reply of two rows. *)
Lemma placeholder_input_with_too_few_rows_witness :
  fst (classification_placeholder_input (Stub.stub 2) "dir" ["logits"%string]
         3 1001 (initial 0)) = Err IndexError /\
  length (displays (trace (snd (classification_placeholder_input (Stub.stub 2)
                                  "dir" ["logits"%string] 3 1001 (initial 0)))))
  = 2.
Proof.
  destruct (placeholder_input_with_too_few_rows nat (Stub.stub 2) "dir"
              ["logits"%string] 3 1001 0 (Stub.scores 2) 2 4)
    as (H1 & _ & _ & H2).
  - discriminate.
  - repeat constructor.
  - repeat constructor.
  - reflexivity.
  - reflexivity.
  - repeat constructor.
  - repeat constructor.
  - split; [exact H1 | now rewrite H2].
Defined.

(** X9.  With a negative [batch_size] the streaming variant searches,
    enqueues and makes its forward pass, never reads or shows an image,
    and ends as the decoding of the first output ends: it completes when
    that output decodes and raises the decoding error otherwise.  The
    explicit-batch variant raises [ValueError] when it allocates the batch,
    before any image is read. *)
Theorem negative_batch_size
    (BS : Type) (C : collaborators BS)
    (image_path : string) (layer_names : list string)
    (batch_size num_classes : Z) (st : BS) :
  let image_files := find_files C image_path extensions in
  let reply := queue_reply C image_path layer_names st in
  let run_q := classification_queue_input C image_path layer_names batch_size
                 num_classes (initial st) in
  let run_p := classification_placeholder_input C image_path layer_names
                 batch_size num_classes (initial st) in
  (batch_size < 0)%Z ->
  fst run_q
  = result_bind (list_getitem (layers (fst reply)) 0) (fun output0 =>
      result_bind (predictions_of output0) (fun _ => Ok tt)) /\
  snd run_q
  = mk_world (snd reply)
      [FindFiles image_path extensions; EnqueueImageFiles image_files;
       FeedForwardBatch layer_names None true] /\
  run_p = (Err ValueError, mk_world st [FindFiles image_path extensions]).
Proof.
  intros image_files reply run_q run_p HB. subst run_q run_p.
  rewrite (placeholder_run_negative BS C image_path layer_names batch_size
             num_classes st HB).
  rewrite queue_run_unfold. cbv zeta. fold image_files reply.
  unfold range. replace (Z.to_nat batch_size) with 0 by lia.
  cbn [seq for_each]. unfold predictions_of.
  destruct (list_getitem (layers (fst reply)) 0) as [output0|e];
    [rewrite bind_lift_ok | rewrite bind_lift_err; now repeat split].
  cbn [result_bind].
  destruct (np_argmax_axis1 (np_squeeze output0)) as [predictions|e];
    [rewrite bind_lift_ok | rewrite bind_lift_err]; now repeat split.
Qed.

(** [batch_size = -2]. *)
Lemma negative_batch_size_witness :
  classification_queue_input (Stub.stub 3) "dir" ["logits"%string] (-2)
    1001 (initial 0)
  = (Ok tt,
     mk_world 1
       [FindFiles "dir" extensions; EnqueueImageFiles Stub.files;
        FeedForwardBatch ["logits"%string] None true]) /\
  fst (classification_placeholder_input (Stub.stub 3) "dir" ["logits"%string]
         (-2) 1001 (initial 0)) = Err ValueError.
Proof.
  destruct (negative_batch_size nat (Stub.stub 3) "dir" ["logits"%string]
              (-2) 1001 0)
    as (H1 & H2 & H3).
  - reflexivity.
  - split; [|now rewrite H3].
    apply injective_projections; [exact H1 | exact H2].
Defined.

(* ================================================================= *)
(** ** What any run does, completed or not *)

Lemma setitem_shape {A} (a v a' : ndarray A) (i : nat) :
  setitem a i v = Ok a' -> shape a' = shape a.
Proof.
  unfold setitem. destruct (shape a) as [|d0 rest] eqn:Hs; [discriminate|].
  destruct (Nat.ltb i d0); [|discriminate].
  destruct (np_broadcast_to v rest); [|discriminate].
  intros H. inversion H. cbn [shape]. reflexivity.
Qed.

Lemma result_cases {A} (r : result A) :
  (exists a, r = Ok a) \/ (exists e, r = Err e).
Proof. destruct r as [a|e]; [left; now exists a | right; now exists e]. Qed.

Lemma for_each_cons_ok {BS A} (x : A) (l : list A) (body : A -> M BS unit)
    (w w1 : world BS) :
  body x w = (Ok tt, w1) -> for_each (x :: l) body w = for_each l body w1.
Proof. intros H. cbn [for_each]. unfold bind. now rewrite H. Qed.

Lemma for_each_cons_err {BS A} (x : A) (l : list A) (body : A -> M BS unit)
    (e : exn) (w w1 : world BS) :
  body x w = (Err e, w1) -> for_each (x :: l) body w = (Err e, w1).
Proof. intros H. cbn [for_each]. unfold bind. now rewrite H. Qed.

Lemma for_fold_cons_ok {BS A S} (x : A) (l : list A) (s s1 : S)
    (body : A -> S -> M BS S) (w w1 : world BS) :
  body x s w = (Ok s1, w1) ->
  for_fold (x :: l) s body w = for_fold l s1 body w1.
Proof. intros H. cbn [for_fold]. unfold bind. now rewrite H. Qed.

Lemma for_fold_cons_err {BS A S} (x : A) (l : list A) (s : S)
    (body : A -> S -> M BS S) (e : exn) (w w1 : world BS) :
  body x s w = (Err e, w1) -> for_fold (x :: l) s body w = (Err e, w1).
Proof. intros H. cbn [for_fold]. unfold bind. now rewrite H. Qed.

Section AnyRun.

Variable BS : Type.
Variable C : collaborators BS.

Lemma queue_loop_any (image_files : list string) (predictions : ndarray Z)
    (num_classes : Z) (m k : nat) (w : world BS) :
  let run :=
    for_each (seq k m) (fun i =>
      bind (lift (list_getitem image_files i)) (fun file =>
        bind (call_imread C file) (fun image =>
          bind (lift (class_index predictions i num_classes)) (fun ci =>
            display_imagenet_prediction image ci)))) w in
  exists t j,
    snd run = mk_world (extractor w) (trace w ++ t) /\
    j <= m /\
    imreads t = firstn j (skipn k image_files) /\
    length (displays t) <= length (imreads t) /\
    searches t = [] /\ enqueues t = [] /\ forward_passes t = [] /\
    (fst run = Ok tt -> length (displays t) = m).
Proof.
  cbv zeta.
  match goal with |- context [for_each _ ?b _] => set (body := b) end.
  revert k w. induction m as [|m IH]; intros k w.
  - exists [], 0. cbn [seq for_each]. unfold ret. cbn [fst snd].
    rewrite world_eta.
    cbn [imreads displays searches enqueues forward_passes length firstn].
    split; [reflexivity|]. split; [lia|].
    split; [reflexivity|]. split; [lia|].
    split; [reflexivity|]. split; [reflexivity|].
    split; [reflexivity|]. reflexivity.
  - cbn [seq].
    destruct (Nat.lt_ge_cases k (length image_files)) as [Hk|Hk].
    + pose proof (nth_error_nth_eq image_files k EmptyString Hk) as Hf.
      destruct (result_cases (class_index predictions k num_classes))
        as [[ci Hci]|[e Hci]].
      * rewrite (for_each_cons_ok k (seq (S k) m) body w _
                   (queue_display_ok BS C image_files predictions
                      num_classes k ci w Hk Hci)).
        set (w1 := mk_world _ _).
        destruct (IH (S k) w1)
          as (t & j & Hw & Hj & Hr & Hd & Hs & He & Hp & Hok).
        exists ([Imread (nth k image_files EmptyString);
                 DisplayImagenetPrediction
                   (imread C (nth k image_files EmptyString)) ci] ++ t),
          (S j).
        split.
        { rewrite Hw. subst w1. cbn [extractor trace].
          now rewrite <- app_assoc. }
        split; [lia|].
        cbn [app imreads displays searches enqueues forward_passes length].
        rewrite Hs, He, Hp.
        split; [now rewrite Hr, (skipn_nth_error_cons image_files k _ Hf)|].
        split; [lia|].
        split; [reflexivity|]. split; [reflexivity|].
        split; [reflexivity|].
        intros H. now rewrite (Hok H).
      * assert (Hbody :
          body k w
          = (Err e,
             mk_world (extractor w)
               (trace w ++ [Imread (nth k image_files EmptyString)]))).
        { unfold body, bind, lift, call_imread, emit, ret.
          now rewrite (list_getitem_ok image_files k EmptyString Hk), Hci. }
        rewrite (for_each_cons_err k (seq (S k) m) body e w _ Hbody).
        cbn [fst snd].
        exists [Imread (nth k image_files EmptyString)], 1.
        rewrite (skipn_nth_error_cons image_files k _ Hf).
        cbn [imreads displays searches enqueues forward_passes length firstn].
        split; [reflexivity|]. split; [lia|].
        split; [reflexivity|]. split; [lia|].
        split; [reflexivity|]. split; [reflexivity|].
        split; [reflexivity|]. discriminate.
    + rewrite (for_each_cons_err k (seq (S k) m) body IndexError w _
                 (queue_display_out BS C image_files predictions num_classes
                    k w Hk)).
      exists [], 0. cbn [fst snd]. rewrite world_eta.
      cbn [imreads displays searches enqueues forward_passes length firstn].
      split; [reflexivity|]. split; [lia|].
      split; [reflexivity|]. split; [lia|].
      split; [reflexivity|]. split; [reflexivity|].
      split; [reflexivity|]. discriminate.
Qed.

Lemma load_loop_any (image_files : list string) (m k : nat)
    (batch_images : ndarray float) (w : world BS) :
  let run :=
    for_fold (seq k m) batch_images (load_image C image_files) w in
  exists j,
    j <= m /\
    snd run
    = mk_world (extractor w)
        (trace w ++ map Imread (firstn j (skipn k image_files))) /\
    (forall loaded, fst run = Ok loaded ->
                    j = m /\ shape loaded = shape batch_images).
Proof.
  revert k batch_images w.
  induction m as [|m IH]; intros k batch_images w; cbv zeta.
  - exists 0. cbn [seq for_fold]. unfold ret. cbn [fst snd firstn map].
    rewrite world_eta. split; [lia|]. split; [reflexivity|].
    intros loaded H. inversion H. now split.
  - cbn [seq].
    destruct (Nat.lt_ge_cases k (length image_files)) as [Hk|Hk].
    + pose proof (nth_error_nth_eq image_files k EmptyString Hk) as Hf.
      set (image := normalize (resized C (nth k image_files EmptyString))).
      assert (Hbody :
        load_image C image_files k batch_images w
        = (setitem batch_images k image,
           mk_world (extractor w)
             (trace w ++ [Imread (nth k image_files EmptyString)]))).
      { unfold load_image, bind, lift, call_imread, emit, ret.
        now rewrite (list_getitem_ok image_files k EmptyString Hk). }
      destruct (result_cases (setitem batch_images k image))
        as [[b1 Hset]|[e Hset]]; rewrite Hset in Hbody.
      * rewrite (for_fold_cons_ok k (seq (S k) m) batch_images b1
                   (load_image C image_files) w _ Hbody).
        set (w1 := mk_world _ _).
        destruct (IH (S k) b1 w1) as (j & Hj & Hw & Hok).
        exists (S j). split; [lia|]. split.
        { rewrite Hw. subst w1. cbn [extractor trace].
          rewrite (skipn_nth_error_cons image_files k _ Hf).
          cbn [firstn map]. now rewrite <- app_assoc. }
        intros loaded H.
        destruct (Hok loaded H) as [-> Hs]. split; [reflexivity|].
        rewrite Hs. eapply setitem_shape; exact Hset.
      * rewrite (for_fold_cons_err k (seq (S k) m) batch_images
                   (load_image C image_files) e w _ Hbody).
        exists 1. cbn [fst snd]. split; [lia|]. split.
        { rewrite (skipn_nth_error_cons image_files k _ Hf). reflexivity. }
        intros loaded H. discriminate.
    + rewrite (for_fold_cons_err k (seq (S k) m) batch_images
                 (load_image C image_files) IndexError w _
                 (load_image_out BS C image_files k batch_images w Hk)).
      exists 0. cbn [fst snd firstn map]. rewrite world_eta.
      split; [lia|]. split; [reflexivity|]. intros loaded H. discriminate.
Qed.

Lemma placeholder_loop_any (batch_images : ndarray float)
    (predictions : ndarray Z) (num_classes : Z) (l : list nat)
    (w : world BS) :
  let run :=
    for_each l (fun i =>
      bind (lift (getitem batch_images i)) (fun slice =>
        let image := denormalize slice in
        bind (lift (class_index predictions i num_classes)) (fun ci =>
          display_imagenet_prediction image ci))) w in
  exists ds,
    snd run = mk_world (extractor w) (trace w ++ map show ds) /\
    length ds <= length l /\
    (fst run = Ok tt -> length ds = length l).
Proof.
  cbv zeta.
  match goal with |- context [for_each _ ?b _] => set (body := b) end.
  revert w. induction l as [|i l IH]; intros w.
  - exists []. cbn [for_each map]. unfold ret. cbn [fst snd length].
    rewrite world_eta. split; [reflexivity|]. split; [lia | reflexivity].
  - destruct (result_cases (getitem batch_images i))
      as [[slice Hslice]|[e Hslice]].
    + destruct (result_cases (class_index predictions i num_classes))
        as [[ci Hci]|[e Hci]].
      * rewrite (for_each_cons_ok i l body w _
                   (placeholder_display_ok BS batch_images predictions
                      num_classes i slice ci w Hslice Hci)).
        set (w1 := mk_world _ _).
        destruct (IH w1) as (ds & Hw & Hlen & Hok).
        exists ((denormalize slice, ci) :: ds). split.
        { rewrite Hw. subst w1. cbn [extractor trace map].
          unfold show at 2. cbn [fst snd]. now rewrite <- app_assoc. }
        cbn [length]. split; [lia|]. intros H. now rewrite (Hok H).
      * assert (Hbody : body i w = (Err e, w)).
        { unfold body, bind, lift. rewrite Hslice. cbv zeta. now rewrite Hci. }
        rewrite (for_each_cons_err i l body e w _ Hbody).
        exists []. cbn [fst snd map length]. rewrite world_eta.
        split; [reflexivity|]. split; [lia | discriminate].
    + assert (Hbody : body i w = (Err e, w)).
      { unfold body, bind, lift. now rewrite Hslice. }
      rewrite (for_each_cons_err i l body e w _ Hbody).
      exists []. cbn [fst snd map length]. rewrite world_eta.
      split; [reflexivity|]. split; [lia | discriminate].
Qed.

End AnyRun.

(** The shape of every run of the streaming variant. *)
Lemma queue_run_any
    (BS : Type) (C : collaborators BS)
    (image_path : string) (layer_names : list string)
    (batch_size num_classes : Z) (st : BS) :
  let image_files := find_files C image_path extensions in
  let run := classification_queue_input C image_path layer_names batch_size
               num_classes (initial st) in
  extractor (snd run) = snd (queue_reply C image_path layer_names st) /\
  exists rest k,
    trace (snd run)
    = [FindFiles image_path extensions; EnqueueImageFiles image_files;
       FeedForwardBatch layer_names None true] ++ rest /\
    searches rest = [] /\ enqueues rest = [] /\ forward_passes rest = [] /\
    k <= Z.to_nat batch_size /\
    imreads rest = firstn k image_files /\
    length (displays rest) <= length (imreads rest) /\
    (fst run = Ok tt -> length (displays rest) = Z.to_nat batch_size).
Proof.
  intros image_files run. subst run.
  rewrite queue_run_unfold. cbv zeta. fold image_files.
  set (w0 := mk_world _ _).
  assert (Hstop : forall e,
    extractor (snd (@Err unit e, w0))
    = snd (queue_reply C image_path layer_names st) /\
    exists rest k,
      trace (snd (@Err unit e, w0))
      = [FindFiles image_path extensions; EnqueueImageFiles image_files;
         FeedForwardBatch layer_names None true] ++ rest /\
      searches rest = [] /\ enqueues rest = [] /\ forward_passes rest = [] /\
      k <= Z.to_nat batch_size /\
      imreads rest = firstn k image_files /\
      length (displays rest) <= length (imreads rest) /\
      (fst (@Err unit e, w0) = Ok tt ->
       length (displays rest) = Z.to_nat batch_size)).
  { intros e. split; [reflexivity|]. exists [], 0.
    cbn [fst snd trace app searches enqueues forward_passes imreads displays
           length firstn].
    split; [reflexivity|]. split; [reflexivity|]. split; [reflexivity|].
    split; [reflexivity|]. split; [lia|]. split; [reflexivity|].
    split; [lia | discriminate]. }
  destruct (result_cases (list_getitem
                            (layers (fst (queue_reply C image_path layer_names
                                            st))) 0))
    as [[output0 Hout]|[e Hout]]; rewrite Hout;
    [rewrite bind_lift_ok | rewrite bind_lift_err; apply Hstop].
  destruct (result_cases (np_argmax_axis1 (np_squeeze output0)))
    as [[predictions Hpred]|[e Hpred]]; rewrite Hpred;
    [rewrite bind_lift_ok | rewrite bind_lift_err; apply Hstop].
  unfold range.
  destruct (queue_loop_any BS C image_files predictions num_classes
              (Z.to_nat batch_size) 0 w0)
    as (t & j & Hw & Hj & Hr & Hd & Hs & He & Hp & Hok).
  rewrite Hw. subst w0. cbn [extractor trace].
  split; [reflexivity|]. exists t, j.
  split; [reflexivity|]. split; [exact Hs|]. split; [exact He|].
  split; [exact Hp|]. split; [exact Hj|]. split; [exact Hr|].
  split; [exact Hd | exact Hok].
Qed.

(** X10.  Whatever the collaborators answer and however the run ends, the
    streaming variant first searches the directory, enqueues the files and
    makes one forward pass from the queue, and leaves the extractor as that
    pass left it; after that it only reads and shows images: the files in
    their order, none twice, at most [batch_size] of them, and never more
    results than images read. *)
Theorem queue_input_any_run
    (BS : Type) (C : collaborators BS)
    (image_path : string) (layer_names : list string)
    (batch_size num_classes : Z) (st : BS) :
  let image_files := find_files C image_path extensions in
  let run := classification_queue_input C image_path layer_names batch_size
               num_classes (initial st) in
  extractor (snd run) = snd (queue_reply C image_path layer_names st) /\
  exists rest k,
    trace (snd run)
    = [FindFiles image_path extensions; EnqueueImageFiles image_files;
       FeedForwardBatch layer_names None true] ++ rest /\
    searches rest = [] /\ enqueues rest = [] /\ forward_passes rest = [] /\
    k <= Z.to_nat batch_size /\
    imreads rest = firstn k image_files /\
    length (displays rest) <= length (imreads rest) /\
    (fst run = Ok tt -> length (displays rest) = Z.to_nat batch_size).
Proof.
  exact (queue_run_any BS C image_path layer_names batch_size num_classes st).
Qed.

(** X11.  Whatever the collaborators answer, the explicit-batch variant
    either stops before any forward pass, having only read files in their
    order, or has read the first [batch_size] files, made one forward pass
    with a batch of [batch_size] images of the extractor's size, and only
    shown results after it, at most [batch_size] of them.  It never
    enqueues and never reads a file after the pass. *)
Theorem placeholder_input_any_run
    (BS : Type) (C : collaborators BS)
    (image_path : string) (layer_names : list string)
    (batch_size num_classes : Z) (st : BS) :
  let image_files := find_files C image_path extensions in
  let n := Z.to_nat batch_size in
  let run := classification_placeholder_input C image_path layer_names
               batch_size num_classes (initial st) in
  (exists k e,
      k <= n /\
      run = (Err e,
             mk_world st
               (FindFiles image_path extensions
                  :: map Imread (firstn k image_files)))) \/
  (exists batch_images ds,
      shape batch_images = n :: image_shape C /\
      extractor (snd run)
      = snd (feed_forward_batch C layer_names (Some batch_images) true st) /\
      trace (snd run)
      = FindFiles image_path extensions
          :: map Imread (firstn n image_files)
          ++ FeedForwardBatch layer_names (Some batch_images) true
          :: map show ds /\
      length ds <= n /\
      (fst run = Ok tt -> length ds = n)).
Proof.
  intros image_files n run.
  assert (Hrun : run = classification_placeholder_input C image_path
                         layer_names batch_size num_classes (initial st))
    by reflexivity.
  clearbody run.
  rewrite placeholder_run_unfold in Hrun. cbv zeta in Hrun.
  fold image_files in Hrun.
  destruct (Z.lt_ge_cases batch_size 0) as [Hneg|Hpos].
  { left. exists 0, ValueError. split; [lia|].
    unfold np_zeros in Hrun. cbn [forallb] in Hrun.
    destruct (Z.leb_spec 0 batch_size); [lia|].
    cbn [andb] in Hrun. now rewrite bind_lift_err in Hrun. }
  rewrite (np_zeros_batch BS C image_files batch_size Hpos), bind_lift_ok
    in Hrun.
  fold n in Hrun. unfold range in Hrun. fold n in Hrun.
  set (w0 := mk_world st [FindFiles image_path extensions]) in Hrun.
  destruct (load_loop_any BS C image_files n 0
              (batch_after C image_files n 0) w0) as (j & Hj & Hw & Hok).
  cbv zeta in Hw, Hok. unfold bind at 1 in Hrun.
  destruct (for_fold (seq 0 n) (batch_after C image_files n 0)
              (load_image C image_files) w0) as [[batch_images|e] w1].
  2:{ left. exists j, e. split; [exact Hj|].
      cbn [snd] in Hw. rewrite Hrun, Hw. subst w0. reflexivity. }
  destruct (Hok batch_images eq_refl) as [-> Hshape].
  cbn [snd] in Hw. rewrite Hw in Hrun. clear Hw Hok.
  right. exists batch_images.
  unfold bind at 1, call_feed_forward_batch in Hrun. subst w0.
  cbn [extractor trace skipn app] in Hrun.
  destruct (feed_forward_batch C layer_names (Some batch_images) true st)
    as [outputs st'].
  set (w2 := mk_world st' _) in Hrun.
  assert (Hstop : forall e, run = (Err e, w2) ->
    exists ds,
      shape batch_images = n :: image_shape C /\
      extractor (snd run) = snd (outputs, st') /\
      trace (snd run)
      = FindFiles image_path extensions
          :: map Imread (firstn n image_files)
          ++ FeedForwardBatch layer_names (Some batch_images) true
          :: map show ds /\
      length ds <= n /\
      (fst run = Ok tt -> length ds = n)).
  { intros e ->. exists []. split; [exact Hshape|]. split; [reflexivity|].
    split; [reflexivity|]. cbn [length fst]. split; [lia | discriminate]. }
  destruct (result_cases (list_getitem (layers outputs) 0))
    as [[output0 Hout]|[e Hout]]; rewrite Hout in Hrun;
    [rewrite bind_lift_ok in Hrun
    | rewrite bind_lift_err in Hrun; now apply (Hstop e)].
  destruct (result_cases (np_argmax_axis1 (np_squeeze output0)))
    as [[predictions Hpred]|[e Hpred]]; rewrite Hpred in Hrun;
    [rewrite bind_lift_ok in Hrun
    | rewrite bind_lift_err in Hrun; now apply (Hstop e)].
  destruct (placeholder_loop_any BS batch_images predictions num_classes
              (seq 0 n) w2) as (ds & Hw & Hlen & Hok).
  cbv zeta in Hw, Hok. rewrite length_seq in Hlen, Hok.
  rewrite <- Hrun in Hw, Hok.
  exists ds. split; [exact Hshape|].
  rewrite Hw. subst w2. cbn [extractor trace snd].
  split; [reflexivity|]. split.
  - cbn [app]. f_equal. now rewrite <- app_assoc.
  - split; [exact Hlen | exact Hok].
Qed.

(* ================================================================= *)
(** ** The batch that is fed and the images that are shown *)

Lemma forward_passes_shows (ds : list (ndarray Z * ndarray Z)) :
  forward_passes (map show ds) = [].
Proof. induction ds as [|d ds IH]; [reflexivity | exact IH]. Qed.

Lemma firstn_as_map_nth {A} (l : list A) (d : A) (n : nat) :
  n <= length l -> firstn n l = map (fun i => nth i l d) (seq 0 n).
Proof.
  revert n. induction l as [|x l IH]; intros [|n] Hn; simpl in Hn;
    try reflexivity; try lia.
  cbn [firstn seq map nth]. f_equal.
  rewrite <- seq_shift, map_map. apply IH. lia.
Qed.

Section FedBatch.

Variable BS : Type.
Variable C : collaborators BS.

Lemma batch_after_full (image_files : list string) (n : nat) :
  n <= length image_files ->
  Forall (resized_ok C) (firstn n image_files) ->
  shape (batch_after C image_files n n) = n :: image_shape C /\
  wf_ndarray (batch_after C image_files n n) /\
  data (batch_after C image_files n n)
  = flat_map (fun f => map normalize_sample (data (resized C f)))
      (firstn n image_files).
Proof.
  intros Hn Hall. split; [reflexivity|]. split.
  - unfold wf_ndarray, batch_after. cbn [shape data size_of fold_right].
    fold (size_of (image_shape C)).
    rewrite Nat.sub_diag. cbn [Nat.mul repeat]. rewrite app_nil_r.
    rewrite flat_map_length_uniform with (n := size_of (image_shape C)).
    + now rewrite firstn_length_le.
    + eapply Forall_impl; [|exact Hall]. intros f.
      apply normalize_resized_length.
  - unfold batch_after. cbn [data].
    rewrite Nat.sub_diag. cbn [Nat.mul repeat]. rewrite app_nil_r.
    apply flat_map_ext. intros f. apply normalize_data.
Qed.

(** Once the batch is loaded, the forward pass is made with it, whatever
    comes after. *)
Lemma placeholder_run_feeds (image_path : string)
    (layer_names : list string) (batch_size num_classes : Z) (st : BS) :
  let image_files := find_files C image_path extensions in
  let n := Z.to_nat batch_size in
  let run := classification_placeholder_input C image_path layer_names
               batch_size num_classes (initial st) in
  (0 <= batch_size)%Z ->
  n <= length image_files ->
  Forall (resized_ok C) (firstn n image_files) ->
  forward_passes (trace (snd run))
  = [Some (placeholder_batch C image_path batch_size)].
Proof.
  intros image_files n run HB Hfiles Hall.
  assert (Hrun : run = classification_placeholder_input C image_path
                         layer_names batch_size num_classes (initial st))
    by reflexivity.
  clearbody run.
  rewrite placeholder_run_loaded in Hrun by assumption.
  cbv zeta in Hrun. fold image_files n in Hrun.
  set (w := mk_world _ _) in Hrun.
  assert (Hw : forward_passes (trace w)
               = [Some (placeholder_batch C image_path batch_size)]).
  { subst w. cbn [trace forward_passes].
    now rewrite forward_passes_app, forward_passes_imreads. }
  destruct (result_cases
              (list_getitem
                 (layers (fst (placeholder_reply C image_path layer_names
                                 batch_size st))) 0))
    as [[output0 Hout]|[e Hout]]; rewrite Hout in Hrun;
    [rewrite bind_lift_ok in Hrun
    | rewrite bind_lift_err in Hrun; now rewrite Hrun].
  destruct (result_cases (np_argmax_axis1 (np_squeeze output0)))
    as [[predictions Hpred]|[e Hpred]]; rewrite Hpred in Hrun;
    [rewrite bind_lift_ok in Hrun
    | rewrite bind_lift_err in Hrun; now rewrite Hrun].
  destruct (placeholder_loop_any BS
              (placeholder_batch C image_path batch_size) predictions
              num_classes (range batch_size) w) as (ds & Hds & _).
  cbv zeta in Hds. rewrite <- Hrun in Hds. rewrite Hds. cbn [trace].
  now rewrite forward_passes_app, Hw, forward_passes_shows.
Qed.

End FedBatch.

(** X12.  When the first [batch_size] files can be loaded, the one batch
    the explicit-batch variant feeds has [batch_size] images of the
    extractor's size, as many samples as its shape says, none left from
    [np.zeros] but the normalized samples of the resized images in order,
    and, the images being [uint8], every sample in [-1.0, 1.0]. *)
Theorem fed_batch_is_normalized
    (BS : Type) (C : collaborators BS)
    (image_path : string) (layer_names : list string)
    (batch_size num_classes : Z) (st : BS) :
  let image_files := find_files C image_path extensions in
  let n := Z.to_nat batch_size in
  let run := classification_placeholder_input C image_path layer_names
               batch_size num_classes (initial st) in
  (0 <= batch_size)%Z ->
  n <= length image_files ->
  Forall (resized_ok C) (firstn n image_files) ->
  Forall (fun f => Forall is_uint8 (data (resized C f))) (firstn n image_files) ->
  exists batch_images,
    forward_passes (trace (snd run)) = [Some batch_images] /\
    shape batch_images = n :: image_shape C /\
    wf_ndarray batch_images /\
    data batch_images
    = flat_map (fun f => map normalize_sample (data (resized C f)))
        (firstn n image_files) /\
    Forall (fun y => in_unit_range y = true) (data batch_images).
Proof.
  intros image_files n run HB Hfiles Hall Hu8.
  exists (placeholder_batch C image_path batch_size).
  split; [now apply placeholder_run_feeds|].
  unfold placeholder_batch. fold image_files n.
  destruct (batch_after_full BS C image_files n Hfiles Hall)
    as (Hs & Hwf & Hd).
  split; [exact Hs|]. split; [exact Hwf|]. split; [exact Hd|].
  rewrite Hd. apply Forall_flat_map.
  eapply Forall_impl; [|exact Hu8]. intros f Hf.
  apply Forall_map. eapply Forall_impl; [|exact Hf].
  apply normalize_sample_range.
Qed.

(** Three files, [batch_size = 3]. *)
Lemma fed_batch_is_normalized_witness :
  exists batch_images,
    forward_passes
      (trace (snd (classification_placeholder_input (Stub.stub 3) "dir"
                     ["logits"%string] 3 1001 (initial 0))))
    = [Some batch_images] /\
    shape batch_images = [3; 1; 1; 3] /\
    Forall (fun y => in_unit_range y = true) (data batch_images).
Proof.
  destruct (fed_batch_is_normalized nat (Stub.stub 3) "dir" ["logits"%string]
              3 1001 0)
    as (b & H1 & H2 & _ & _ & H3).
  - discriminate.
  - repeat constructor.
  - repeat constructor.
  - repeat constructor; discriminate.
  - exists b. exact (conj H1 (conj H2 H3)).
Defined.

(** X13.  In a run of the explicit-batch variant that completes, on [uint8]
    images, the images shown are the resized images of the first
    [batch_size] files, in order, with the samples 1 to 63 one unit lower
    and every other sample unchanged. *)
Theorem placeholder_input_shows_the_resized_images
    (BS : Type) (C : collaborators BS)
    (image_path : string) (layer_names : list string)
    (batch_size num_classes : Z) (st : BS)
    (output0 : ndarray float) (ncols : nat) :
  let image_files := find_files C image_path extensions in
  let n := Z.to_nat batch_size in
  let run := classification_placeholder_input C image_path layer_names
               batch_size num_classes (initial st) in
  (0 <= batch_size)%Z ->
  n <= length image_files ->
  Forall (resized_ok C) (firstn n image_files) ->
  Forall (fun f => Forall is_uint8 (data (resized C f))) (firstn n image_files) ->
  decodable (fst (placeholder_reply C image_path layer_names batch_size st))
    output0 n ncols ->
  map fst (displays (trace (snd run)))
  = map (fun f =>
           nd_map (fun v => if Z.leb 1 v && Z.leb v 63 then (v - 1)%Z else v)
             (resized C f))
      (firstn n image_files).
Proof.
  intros image_files n run HB Hfiles Hall Hu8 Hdec. subst run.
  rewrite (placeholder_run_ok BS C image_path layer_names batch_size
             num_classes st output0 ncols HB Hfiles Hall Hdec).
  fold image_files n. cbn [snd trace displays].
  rewrite !displays_app, displays_imreads. cbn [displays app].
  rewrite displays_placeholder_steps, map_map. cbn [fst].
  rewrite (firstn_as_map_nth image_files EmptyString n Hfiles), map_map.
  apply map_ext_in. intros i Hi. apply in_seq in Hi.
  assert (Hin : In (nth i image_files EmptyString) (firstn n image_files)).
  { rewrite (firstn_as_map_nth image_files EmptyString n Hfiles).
    apply in_map_iff. exists i. split; [reflexivity | apply in_seq; lia]. }
  rewrite Forall_forall in Hu8. specialize (Hu8 _ Hin).
  set (x := resized C (nth i image_files EmptyString)) in *.
  unfold nd_map.
  replace (denormalize (normalize x))
    with (mk_ndarray (shape x) (data (denormalize (normalize x))))
    by (unfold denormalize, normalize, astype_uint8, mul32, add32, div32,
          sub32, astype_float32, true_divide, nd_map; reflexivity).
  f_equal.
  rewrite denormalize_data, normalize_data, map_map.
  apply map_ext_in. intros v Hv. apply round_trip_sample_exact.
  rewrite Forall_forall in Hu8. now apply Hu8.
Qed.

(** Three files, [batch_size = 3]. *)
Lemma placeholder_input_shows_the_resized_images_witness :
  map fst
    (displays
       (trace (snd (classification_placeholder_input (Stub.stub 3) "dir"
                      ["logits"%string] 3 1001 (initial 0)))))
  = [mk_ndarray [1; 1; 3] [4%Z; 105%Z; 255%Z];
     mk_ndarray [1; 1; 3] [5%Z; 106%Z; 255%Z];
     mk_ndarray [1; 1; 3] [6%Z; 107%Z; 255%Z]].
Proof.
  refine (placeholder_input_shows_the_resized_images nat (Stub.stub 3) "dir"
            ["logits"%string] 3 1001 0 (Stub.scores 3) 4 _ _ _ _ _).
  - discriminate.
  - repeat constructor.
  - repeat constructor.
  - repeat constructor; discriminate.
  - split; [reflexivity|]. exists 3. repeat split; repeat constructor.
Defined.

(* ================================================================= *)
(** ** The script: one variant after the other *)

Section Frames.

Variable BS : Type.

Lemma framed_ret {A} (a : A) : framed (@ret BS A a).
Proof. intros st t. unfold ret. cbn. now rewrite app_nil_r. Qed.

Lemma framed_lift {A} (r : result A) : framed (@lift BS A r).
Proof. intros st t. unfold lift. cbn. now rewrite app_nil_r. Qed.

Lemma framed_emit (ev : event) : framed (@emit BS ev).
Proof. intros st t. reflexivity. Qed.

Lemma framed_bind {A B} (m : M BS A) (k : A -> M BS B) :
  framed m -> (forall a, framed (k a)) -> framed (bind m k).
Proof.
  intros Hm Hk st t. unfold bind. rewrite (Hm st t).
  destruct (m (mk_world st [])) as [[a|e] [st1 t1]]; cbn [fst snd extractor trace].
  - rewrite (Hk a st1 (t ++ t1)), (Hk a st1 t1).
    cbn [fst snd extractor trace]. now rewrite app_assoc.
  - reflexivity.
Qed.

Lemma framed_for_each {A} (l : list A) (body : A -> M BS unit) :
  (forall x, framed (body x)) -> framed (for_each l body).
Proof.
  intros Hbody. induction l as [|x l IH]; cbn [for_each].
  - apply framed_ret.
  - apply framed_bind; [apply Hbody | intros _; exact IH].
Qed.

Lemma framed_for_fold {A S} (l : list A) (s : S) (body : A -> S -> M BS S) :
  (forall x s, framed (body x s)) -> framed (for_fold l s body).
Proof.
  intros Hbody. revert s. induction l as [|x l IH]; intros s; cbn [for_fold].
  - apply framed_ret.
  - apply framed_bind; [apply Hbody | intros s'; apply IH].
Qed.

Variable C : collaborators BS.

Lemma framed_call_imread (file : string) : framed (call_imread C file).
Proof.
  unfold call_imread. apply framed_bind; [apply framed_emit|].
  intros _. apply framed_ret.
Qed.

Lemma framed_call_feed_forward_batch (layer_names : list string)
    (batch : option (ndarray float)) (fetch_images : bool) :
  framed (call_feed_forward_batch C layer_names batch fetch_images).
Proof.
  intros st t. unfold call_feed_forward_batch. cbn [extractor trace].
  destruct (feed_forward_batch C layer_names batch fetch_images st).
  reflexivity.
Qed.

Lemma framed_placeholder_input (image_path : string)
    (layer_names : list string) (batch_size num_classes : Z) :
  framed (classification_placeholder_input C image_path layer_names
            batch_size num_classes).
Proof.
  unfold classification_placeholder_input, call_find_files.
  apply framed_bind.
  { apply framed_bind; [apply framed_emit | intros _; apply framed_ret]. }
  intros image_files.
  apply framed_bind; [apply framed_lift|]. intros batch0.
  apply framed_bind.
  { apply framed_for_fold. intros i b. unfold load_image.
    apply framed_bind; [apply framed_lift|]. intros file.
    apply framed_bind; [apply framed_call_imread|]. intros image.
    apply framed_lift. }
  intros batch_images.
  apply framed_bind; [apply framed_call_feed_forward_batch|]. intros outputs.
  apply framed_bind; [apply framed_lift|]. intros output0.
  apply framed_bind; [apply framed_lift|]. intros predictions.
  apply framed_for_each. intros i.
  apply framed_bind; [apply framed_lift|]. intros slice. cbv zeta.
  apply framed_bind; [apply framed_lift|]. intros ci.
  apply framed_emit.
Qed.

End Frames.

(** How [main] is made of the two runs. *)
Lemma main_unfold (BS : Type) (E : Main.environment BS)
    (args : Main.arguments) :
  let made := Main.FeatureExtractor E (Main.network_name args)
                (Main.checkpoint args) (Main.batch_size args)
                (Main.num_classes args) (Main.preproc_func args) in
  let C := fst made in
  let st := Main.print_network_summary E (snd made) in
  let names := str_split comma (Main.layer_names args) in
  let header :=
    [Main.Construct (Main.network_name args) (Main.checkpoint args)
       (Main.batch_size args) (Main.num_classes args) (Main.preproc_func args);
     Main.PrintNetworkSummary] in
  let run_q := classification_queue_input C (Main.image_path args) names
                 (Main.batch_size args) (Main.num_classes args) (initial st) in
  let run_p := classification_placeholder_input C (Main.image_path args) names
                 (Main.batch_size args) (Main.num_classes args)
                 (initial (extractor (snd run_q))) in
  Main.main E args
  = match fst run_q with
    | Err e =>
        (Err e, extractor (snd run_q),
         header ++ map Main.Inner (trace (snd run_q)))
    | Ok _ =>
        (fst run_p, extractor (snd run_p),
         header ++ map Main.Inner (trace (snd run_q) ++ trace (snd run_p)))
    end.
Proof.
  cbv zeta. unfold Main.main.
  destruct (Main.FeatureExtractor E _ _ _ _ _) as [C st0]. cbn [fst snd].
  unfold bind.
  destruct (classification_queue_input C _ _ _ _ _) as [[[]|e] [st2 t2]];
    cbn [fst snd extractor trace]; [|reflexivity].
  rewrite (framed_placeholder_input BS C (Main.image_path args)
             (str_split comma (Main.layer_names args)) (Main.batch_size args)
             (Main.num_classes args) st2 t2).
  reflexivity.
Qed.

Lemma inner_map_Inner (t : list event) : Main.inner (map Main.Inner t) = t.
Proof. induction t as [|ev t IH]; [reflexivity | cbn; now rewrite IH]. Qed.

Lemma inner_script (c : Main.main_event) (t : list event) :
  Main.inner ([c; Main.PrintNetworkSummary] ++ map Main.Inner t)
  = match c with
    | Main.Inner ev => ev :: t
    | _ => t
    end.
Proof. destruct c; cbn [app Main.inner]; now rewrite inner_map_Inner. Qed.

Lemma searches_imreads (l : list string) : searches (map Imread l) = [].
Proof. induction l as [|f l IH]; [reflexivity | exact IH]. Qed.

Lemma enqueues_imreads (l : list string) : enqueues (map Imread l) = [].
Proof. induction l as [|f l IH]; [reflexivity | exact IH]. Qed.

Section CompleteTraces.

Variable BS : Type.
Variable C : collaborators BS.
Variable image_path : string.
Variable layer_names : list string.
Variable image_files : list string.
Variable output0 : ndarray float.
Variable ncols : nat.
Variable num_classes : Z.
Variable n : nat.
Hypothesis Hfiles : n <= length image_files.

(** What a complete run of the streaming variant has done. *)
Lemma queue_trace_summary :
  let t := [FindFiles image_path extensions; EnqueueImageFiles image_files;
            FeedForwardBatch layer_names None true]
             ++ flat_map (queue_step C image_files output0 ncols num_classes)
                  (seq 0 n) in
  searches t = [image_path] /\ enqueues t = [image_files] /\
  forward_passes t = [None] /\ imreads t = firstn n image_files /\
  length (displays t) = n.
Proof.
  cbv zeta.
  rewrite searches_app, enqueues_app, forward_passes_app, imreads_app,
    displays_app.
  rewrite forward_passes_queue_steps, displays_queue_steps.
  rewrite (imreads_queue_steps BS C image_files output0 ncols num_classes
             n 0) by (cbn [Nat.add]; exact Hfiles).
  assert (Hs : forall l, searches (flat_map (queue_step C image_files output0
                                     ncols num_classes) l) = [])
    by (induction l as [|i l IH]; [reflexivity | exact IH]).
  assert (He : forall l, enqueues (flat_map (queue_step C image_files output0
                                     ncols num_classes) l) = [])
    by (induction l as [|i l IH]; [reflexivity | exact IH]).
  rewrite Hs, He.
  cbn [searches enqueues forward_passes imreads displays app skipn].
  rewrite length_map, length_seq. repeat split; reflexivity.
Qed.

(** What a complete run of the explicit-batch variant has done. *)
Lemma placeholder_trace_summary (batch_images : ndarray float) :
  let t := FindFiles image_path extensions
             :: map Imread (firstn n image_files)
             ++ [FeedForwardBatch layer_names (Some batch_images) true]
             ++ map (placeholder_step C image_files output0 ncols num_classes)
                  (seq 0 n) in
  searches t = [image_path] /\ enqueues t = [] /\
  forward_passes t = [Some batch_images] /\
  imreads t = firstn n image_files /\
  length (displays t) = n.
Proof.
  cbv zeta. cbn [searches enqueues forward_passes imreads displays].
  rewrite !searches_app, !enqueues_app, !forward_passes_app, !imreads_app,
    !displays_app.
  rewrite searches_imreads, enqueues_imreads, forward_passes_imreads,
    imreads_map_Imread, displays_imreads.
  rewrite imreads_placeholder_steps, forward_passes_placeholder_steps,
    displays_placeholder_steps.
  assert (Hs : forall l, searches (map (placeholder_step C image_files
                                          output0 ncols num_classes) l) = [])
    by (induction l as [|i l IH]; [reflexivity | exact IH]).
  assert (He : forall l, enqueues (map (placeholder_step C image_files
                                          output0 ncols num_classes) l) = [])
    by (induction l as [|i l IH]; [reflexivity | exact IH]).
  rewrite Hs, He.
  cbn [searches enqueues forward_passes imreads displays app].
  rewrite app_nil_r, length_map, length_seq. repeat split; reflexivity.
Qed.

End CompleteTraces.

(** X15.  When both variants complete, the script has searched the
    directory twice, enqueued the files once, made exactly two forward
    passes, the first from the queue and the second with the loaded batch on
    the extractor the first pass left, read each of the first [batch_size]
    files twice and shown [2 * batch_size] results. *)
Theorem main_complete_run
    (BS : Type) (E : Main.environment BS) (args : Main.arguments)
    (out_q out_p : ndarray float) (ncols_q ncols_p : nat) :
  let made := Main.FeatureExtractor E (Main.network_name args)
                (Main.checkpoint args) (Main.batch_size args)
                (Main.num_classes args) (Main.preproc_func args) in
  let C := fst made in
  let st := Main.print_network_summary E (snd made) in
  let names := str_split comma (Main.layer_names args) in
  let image_path := Main.image_path args in
  let batch_size := Main.batch_size args in
  let image_files := find_files C image_path extensions in
  let n := Z.to_nat batch_size in
  let reply_q := queue_reply C image_path names st in
  let reply_p := placeholder_reply C image_path names batch_size (snd reply_q) in
  (0 <= batch_size)%Z ->
  n <= length image_files ->
  Forall (resized_ok C) (firstn n image_files) ->
  decodable (fst reply_q) out_q n ncols_q ->
  decodable (fst reply_p) out_p n ncols_p ->
  fst (fst (Main.main E args)) = Ok tt /\
  snd (fst (Main.main E args)) = snd reply_p /\
  searches (Main.inner (snd (Main.main E args))) = [image_path; image_path] /\
  enqueues (Main.inner (snd (Main.main E args))) = [image_files] /\
  forward_passes (Main.inner (snd (Main.main E args)))
  = [None; Some (placeholder_batch C image_path batch_size)] /\
  imreads (Main.inner (snd (Main.main E args)))
  = firstn n image_files ++ firstn n image_files /\
  length (displays (Main.inner (snd (Main.main E args)))) = n + n.
Proof.
  intros made C st names image_path batch_size image_files n reply_q reply_p
    HB Hfiles Hall Hq Hp.
  rewrite main_unfold. cbv zeta.
  fold made C st names image_path batch_size.
  rewrite (queue_run_ok BS C image_path names batch_size
             (Main.num_classes args) st out_q ncols_q Hq Hfiles).
  fold image_files n reply_q. cbn [fst snd extractor trace].
  rewrite (placeholder_run_ok BS C image_path names batch_size
             (Main.num_classes args) (snd reply_q) out_p ncols_p HB Hfiles Hall
             Hp).
  fold image_files n reply_p. cbn [fst snd extractor trace].
  rewrite inner_script.
  destruct (queue_trace_summary BS C image_path names image_files out_q
              ncols_q (Main.num_classes args) n Hfiles)
    as (Hq1 & Hq2 & Hq3 & Hq4 & Hq5).
  destruct (placeholder_trace_summary BS C image_path names image_files out_p
              ncols_p (Main.num_classes args) n
              (placeholder_batch C image_path batch_size))
    as (Hp1 & Hp2 & Hp3 & Hp4 & Hp5).
  cbv zeta in Hq1, Hq2, Hq3, Hq4, Hq5, Hp1, Hp2, Hp3, Hp4, Hp5.
  rewrite searches_app, enqueues_app, forward_passes_app, imreads_app,
    displays_app, length_app.
  rewrite Hq1, Hq2, Hq3, Hq4, Hq5, Hp1, Hp2, Hp3, Hp4, Hp5.
  repeat split; reflexivity.
Qed.

(** Three files, [batch_size = 3]. *)
Lemma main_complete_run_witness :
  fst (fst (Main.main Stub2.env (Stub2.args 3 1001))) = Ok tt /\
  length (displays (Main.inner (snd (Main.main Stub2.env (Stub2.args 3 1001)))))
  = 6.
Proof.
  destruct (main_complete_run nat Stub2.env (Stub2.args 3 1001)
              (Stub.scores 3) (Stub.scores 3) 4 4)
    as (H1 & _ & _ & _ & _ & _ & H2).
  - discriminate.
  - repeat constructor.
  - repeat constructor.
  - split; [reflexivity|]. exists 3. repeat split; repeat constructor.
  - split; [reflexivity|]. exists 3. repeat split; repeat constructor.
  - exact (conj H1 H2).
Defined.

(** X16.  When the streaming variant raises, the script ends with that
    exception: the directory was searched once, the only forward pass is
    the one from the queue, and no batch was ever fed. *)
Theorem main_stops_when_the_first_variant_raises
    (BS : Type) (E : Main.environment BS) (args : Main.arguments) (e : exn) :
  let made := Main.FeatureExtractor E (Main.network_name args)
                (Main.checkpoint args) (Main.batch_size args)
                (Main.num_classes args) (Main.preproc_func args) in
  let C := fst made in
  let st := Main.print_network_summary E (snd made) in
  let names := str_split comma (Main.layer_names args) in
  let image_path := Main.image_path args in
  fst (classification_queue_input C image_path names (Main.batch_size args)
         (Main.num_classes args) (initial st)) = Err e ->
  fst (fst (Main.main E args)) = Err e /\
  snd (fst (Main.main E args)) = snd (queue_reply C image_path names st) /\
  searches (Main.inner (snd (Main.main E args))) = [image_path] /\
  enqueues (Main.inner (snd (Main.main E args)))
  = [find_files C image_path extensions] /\
  forward_passes (Main.inner (snd (Main.main E args))) = [None].
Proof.
  intros made C st names image_path Hfail.
  rewrite main_unfold. cbv zeta. fold made C st names image_path.
  destruct (queue_run_any BS C image_path names (Main.batch_size args)
              (Main.num_classes args) st)
    as (Hext & rest & k & Htrace & Hs & He & Hp & _).
  cbv zeta in Hext, Htrace.
  rewrite Hfail. cbn [fst snd]. rewrite Hext, Htrace, inner_script.
  cbn [app searches enqueues forward_passes]. rewrite Hs, He, Hp.
  repeat split; reflexivity.
Qed.

(** [batch_size = 1]: the reply has one row and decoding fails. *)
Lemma main_stops_when_the_first_variant_raises_witness :
  fst (fst (Main.main Stub2.env (Stub2.args 1 1001))) = Err AxisError /\
  forward_passes (Main.inner (snd (Main.main Stub2.env (Stub2.args 1 1001))))
  = [None].
Proof.
  destruct (main_stops_when_the_first_variant_raises nat Stub2.env
              (Stub2.args 1 1001) AxisError)
    as (H1 & _ & _ & _ & H2).
  - reflexivity.
  - exact (conj H1 H2).
Defined.

(* ================================================================= *)
(** ** The list of layer names *)

Lemma str_split_not_nil (sep : Ascii.ascii) (s : string) :
  str_split sep s <> [].
Proof.
  destruct s as [|c s]; cbn [str_split]; [discriminate|].
  destruct (Ascii.eqb c sep); [discriminate|].
  destruct (str_split sep s); discriminate.
Qed.

Lemma str_join_cons (sep : Ascii.ascii) (part : string) (parts : list string) :
  parts <> [] ->
  str_join sep (part :: parts)
  = (part ++ String sep (str_join sep parts))%string.
Proof. destruct parts; [congruence | reflexivity]. Qed.

Lemma str_join_cons_char (sep c : Ascii.ascii) (part : string)
    (parts : list string) :
  str_join sep (String c part :: parts)
  = String c (str_join sep (part :: parts)).
Proof. destruct parts; reflexivity. Qed.

(** X17.  Splitting [--layer_names] at the commas loses nothing: joining
    the names with commas gives the argument back; there is one name more
    than there are commas, so at least one, and no name contains a comma. *)
Theorem layer_names_split (sep : Ascii.ascii) (s : string) :
  str_join sep (str_split sep s) = s /\
  length (str_split sep s) = S (str_count sep s) /\
  Forall (fun name => str_count sep name = 0) (str_split sep s).
Proof.
  induction s as [|c s (IHj & IHl & IHf)].
  - repeat split. repeat constructor.
  - cbn [str_split str_count].
    destruct (Ascii.eqb_spec c sep) as [->|Hc].
    + split; [|split].
      * rewrite str_join_cons by apply str_split_not_nil.
        cbn [append]. now rewrite IHj.
      * cbn [length]. now rewrite IHl.
      * constructor; [reflexivity | exact IHf].
    + pose proof (str_split_not_nil sep s) as Hnil.
      destruct (str_split sep s) as [|part parts]; [congruence|].
      split; [|split].
      * rewrite str_join_cons_char. now rewrite IHj.
      * cbn [length] in *. exact IHl.
      * inversion IHf as [|? ? Hp Hps]; subst. constructor; [|exact Hps].
        cbn [str_count]. destruct (Ascii.eqb_spec c sep); [contradiction|].
        exact Hp.
Qed.

Lemma str_split_no_sep (sep : Ascii.ascii) (s : string) :
  str_count sep s = 0 -> str_split sep s = [s].
Proof.
  induction s as [|c s IH]; [reflexivity|].
  cbn [str_count str_split].
  destruct (Ascii.eqb c sep); [discriminate|].
  intros H. now rewrite (IH H).
Qed.

Lemma str_split_app (sep : Ascii.ascii) (part rest : string) :
  str_count sep part = 0 ->
  str_split sep (part ++ String sep rest) = part :: str_split sep rest.
Proof.
  induction part as [|c part IH]; cbn [append str_count str_split].
  - intros _. now rewrite Ascii.eqb_refl.
  - destruct (Ascii.eqb c sep); [discriminate|].
    intros H. now rewrite (IH H).
Qed.

(** X18.  Conversely, a non-empty list of names without commas, written
    with commas in between, is split into these very names. *)
Theorem layer_names_joined_then_split (sep : Ascii.ascii)
    (names : list string) :
  names <> [] ->
  Forall (fun name => str_count sep name = 0) names ->
  str_split sep (str_join sep names) = names.
Proof.
  intros Hnil Hall. induction Hall as [|name names Hname Hnames IH];
    [congruence|].
  destruct names as [|name' names'].
  - cbn [str_join]. now apply str_split_no_sep.
  - rewrite str_join_cons by discriminate.
    rewrite str_split_app by exact Hname.
    f_equal. apply IH. discriminate.
Qed.

(** Two layer names. *)
Lemma layer_names_joined_then_split_witness :
  str_split comma "resnet_v2_101/logits,resnet_v2_101/pool4"
  = ["resnet_v2_101/logits"; "resnet_v2_101/pool4"]%string.
Proof.
  refine (layer_names_joined_then_split comma
            ["resnet_v2_101/logits"; "resnet_v2_101/pool4"]%string _ _).
  - discriminate.
  - repeat constructor.
Defined.

(* ================================================================= *)
(** ** Outputs of higher rank *)

Lemma lane_length (a : ndarray float) (d1 inner i r : nat) :
  length (lane a d1 inner i r) = d1.
Proof. unfold lane. now rewrite length_map, length_seq. Qed.

Lemma argmax_lane_bound (a : ndarray float) (d1 inner i r : nat) :
  0 < d1 -> argmax (lane a d1 inner i r) < d1.
Proof.
  intros Hd. destruct (argmax_spec (lane a d1 inner i r)) as (Hk & _).
  - intros Hnil. pose proof (lane_length a d1 inner i r) as Hlen.
    rewrite Hnil in Hlen. simpl in Hlen. lia.
  - now rewrite lane_length in Hk.
Qed.

(** X19.  When the squeezed first output has more than two axes, as when
    [layer_names[0]] is not the logits layer, nothing raises: the arg-max
    along axis 1 leaves an array, and the class index of image [i] is not a
    number but an array of the shape of the remaining axes, with every
    entry between 0 and [d1 - 1] for 1001 classes and between 1 and [d1]
    otherwise. *)
Theorem decoding_an_output_of_any_rank (output0 : ndarray float)
    (d0 d1 : nat) (rest : list nat) (num_classes : Z) (i : nat) :
  shape (np_squeeze output0) = d0 :: d1 :: rest ->
  0 < d1 ->
  i < d0 ->
  let lo := if Z.eqb num_classes 1001 then 0%Z else 1%Z in
  exists predictions ci,
    predictions_of output0 = Ok predictions /\
    shape predictions = d0 :: rest /\
    wf_ndarray predictions /\
    class_index predictions i num_classes = Ok ci /\
    shape ci = rest /\
    wf_ndarray ci /\
    Forall (fun c => (lo <= c <= lo + Z.of_nat d1 - 1)%Z) (data ci).
Proof.
  intros Hshape Hd1 Hi lo.
  set (a := np_squeeze output0) in *.
  set (inner := size_of rest).
  set (block := fun i : nat =>
                  map (fun r => Z.of_nat (argmax (lane a d1 inner i r)))
                    (seq 0 inner)).
  assert (Hblock : Forall (fun i => length (block i) = inner) (seq 0 d0)).
  { apply Forall_forall. intros j _. unfold block.
    now rewrite length_map, length_seq. }
  assert (Hpred : predictions_of output0
                  = Ok (mk_ndarray (d0 :: rest) (flat_map block (seq 0 d0)))).
  { unfold predictions_of. fold a. unfold np_argmax_axis1. rewrite Hshape.
    destruct (Nat.eqb_spec d1 0) as [->|_]; [lia | reflexivity]. }
  assert (Hget : getitem (mk_ndarray (d0 :: rest) (flat_map block (seq 0 d0))) i
                 = Ok (mk_ndarray rest (block i))).
  { unfold getitem. cbn [shape data].
    destruct (Nat.ltb_spec i d0) as [_|]; [|lia]. cbv zeta. fold inner.
    rewrite <- (app_nil_r (flat_map block (seq 0 d0))).
    rewrite (slice_flat_map block inner (seq 0 d0) i i []); [reflexivity | |].
    - exact Hblock.
    - rewrite nth_error_seq. destruct (Nat.ltb_spec i d0); [reflexivity | lia]. }
  assert (Hbound : Forall (fun c => (0 <= c <= Z.of_nat d1 - 1)%Z) (block i)).
  { unfold block. apply Forall_map, Forall_forall. intros r _.
    pose proof (argmax_lane_bound a d1 inner i r Hd1). lia. }
  exists (mk_ndarray (d0 :: rest) (flat_map block (seq 0 d0))).
  exists (if Z.eqb num_classes 1001
          then mk_ndarray rest (block i)
          else nd_map (fun v => (v + 1)%Z) (mk_ndarray rest (block i))).
  split; [exact Hpred|]. split; [reflexivity|]. split.
  { unfold wf_ndarray. cbn [shape data size_of fold_right].
    fold (size_of rest). fold inner.
    rewrite (flat_map_length_uniform block inner (seq 0 d0) Hblock).
    now rewrite length_seq. }
  split.
  { unfold class_index. rewrite Hget.
    destruct (Z.eqb num_classes 1001); reflexivity. }
  assert (Hlen : length (block i) = inner).
  { rewrite Forall_forall in Hblock. apply Hblock, in_seq. lia. }
  subst lo. destruct (Z.eqb num_classes 1001); cbn [nd_map shape data].
  - split; [reflexivity|]. split; [exact Hlen|].
    eapply Forall_impl; [|exact Hbound]. intros c Hc. cbv beta in Hc. lia.
  - split; [reflexivity|]. split.
    + unfold wf_ndarray, nd_map. cbn [shape data]. rewrite length_map.
      exact Hlen.
    + unfold nd_map. cbn [data].
      apply Forall_map. eapply Forall_impl; [|exact Hbound].
      intros c Hc. cbv beta in Hc. lia.
Qed.

(** An output of shape 2 x 2 x 3: the class index of image 1 is a vector of
    three entries. *)
Lemma decoding_an_output_of_any_rank_witness :
  exists predictions ci,
    predictions_of (mk_ndarray [2; 2; 3] (data (Stub.scores 3)))
    = Ok predictions /\
    class_index predictions 1 1000 = Ok ci /\
    shape ci = [3].
Proof.
  destruct (decoding_an_output_of_any_rank
              (mk_ndarray [2; 2; 3] (data (Stub.scores 3))) 2 2 [3] 1000 1)
    as (p & ci & H1 & _ & _ & H2 & H3 & _).
  - reflexivity.
  - repeat constructor.
  - repeat constructor.
  - exists p, ci. exact (conj H1 (conj H2 H3)).
Defined.

(** X20.  The two input methods agree: when both runs complete and the
    extractor gave the same scores to both, they show the same class
    indices, in the same order. *)
Theorem same_scores_same_classes
    (BS : Type) (C : collaborators BS)
    (image_path : string) (layer_names : list string)
    (batch_size num_classes : Z) (st : BS)
    (out_q out_p : ndarray float) (ncols : nat) :
  let image_files := find_files C image_path extensions in
  let n := Z.to_nat batch_size in
  let run_q := classification_queue_input C image_path layer_names batch_size
                 num_classes (initial st) in
  let run_p := classification_placeholder_input C image_path layer_names
                 batch_size num_classes (initial st) in
  (0 <= batch_size)%Z ->
  n <= length image_files ->
  Forall (resized_ok C) (firstn n image_files) ->
  decodable (fst (queue_reply C image_path layer_names st)) out_q n ncols ->
  decodable (fst (placeholder_reply C image_path layer_names batch_size st))
    out_p n ncols ->
  (forall i j, i < n -> j < ncols ->
     get2 (np_squeeze out_q) ncols i j = get2 (np_squeeze out_p) ncols i j) ->
  map snd (displays (trace (snd run_q)))
  = map snd (displays (trace (snd run_p))).
Proof.
  intros image_files n run_q run_p HB Hfiles Hall Hq Hp Hsame.
  subst run_q run_p.
  rewrite (queue_run_ok BS C image_path layer_names batch_size num_classes st
             out_q ncols Hq Hfiles).
  rewrite (placeholder_run_ok BS C image_path layer_names batch_size
             num_classes st out_p ncols HB Hfiles Hall Hp).
  fold image_files n. cbn [snd trace displays].
  rewrite !displays_app, displays_queue_steps, displays_imreads.
  cbn [displays app]. rewrite displays_placeholder_steps, !map_map.
  cbn [snd]. apply map_ext_in. intros i Hi. apply in_seq in Hi.
  assert (Hrow : row (np_squeeze out_q) ncols i = row (np_squeeze out_p) ncols i).
  { unfold row. apply map_ext_in. intros j Hj. apply in_seq in Hj.
    apply Hsame; lia. }
  unfold decoded. now rewrite Hrow.
Qed.

(** Three files, the same scores for both passes. *)
Lemma same_scores_same_classes_witness :
  map snd
    (displays (trace (snd (classification_queue_input (Stub.stub 3) "dir"
                             ["logits"%string] 3 1000 (initial 0)))))
  = map snd
      (displays (trace (snd (classification_placeholder_input (Stub.stub 3)
                               "dir" ["logits"%string] 3 1000 (initial 0))))).
Proof.
  refine (same_scores_same_classes nat (Stub.stub 3) "dir" ["logits"%string]
            3 1000 0 (Stub.scores 3) (Stub.scores 3) 4 _ _ _ _ _ _).
  - discriminate.
  - repeat constructor.
  - repeat constructor.
  - split; [reflexivity|]. exists 3. repeat split; repeat constructor.
  - split; [reflexivity|]. exists 3. repeat split; repeat constructor.
  - reflexivity.
Defined.
